(** * electron-asar-updater: the update staging and replacement engine

    A shallow embedding of [src/updater.ts] (the revision with checksum
    support, and the two earlier revisions of the same file where they
    differ) together with the properties its specification states.

    - JavaScript strings are modelled as [string] (a sequence of code units
      below 256); buffers and file contents are byte strings of the same type.
    - JavaScript numbers are IEEE doubles. Those [parseInt] produces are
      integers or infinite: a finite one is modelled by its integer value,
      and the decimal digits read are rounded to the nearest double (ties to
      even), which is exact up to 2^53.
    - The file system is a finite map from paths to the contents of regular
      files; [Promise] rejection is an explicit error result. *)

From Stdlib Require Import ZArith Ascii String List Bool Lia.
From stdpp Require Import gmap strings list fin_maps.

Local Open Scope string_scope.
Local Open Scope Z_scope.

(* ===================================================================== *)
(** ** String primitives of the host language                              *)
(* ===================================================================== *)

Module JsString.

(** [s.startsWith(p)] *)
Fixpoint startsWith (s p : string) : bool :=
  match p, s with
  | EmptyString, _ => true
  | String _ _, EmptyString => false
  | String a p', String b s' => if Ascii.eqb a b then startsWith s' p' else false
  end.

(** the characters of [s] from position [n] on *)
Fixpoint skip (n : nat) (s : string) : string :=
  match n, s with
  | O, _ => s
  | S n', String _ s' => skip n' s'
  | S _, EmptyString => EmptyString
  end.

(** the first [n] characters of [s] *)
Fixpoint keep (n : nat) (s : string) : string :=
  match n, s with
  | O, _ => EmptyString
  | S n', String c s' => String c (keep n' s')
  | S _, EmptyString => EmptyString
  end.

(** [s.endsWith(p)] *)
Definition endsWith (s p : string) : bool :=
  (String.length p <=? String.length s)%nat
  && String.eqb (skip (String.length s - String.length p) s) p.

(** [s.includes(c)] for a one-character search string *)
Fixpoint includes (s : string) (c : ascii) : bool :=
  match s with
  | EmptyString => false
  | String a s' => if Ascii.eqb a c then true else includes s' c
  end.

(** [s.split(c)] for a one-character separator: the fields between the
    separators, in order; always at least one field. *)
Fixpoint split (c : ascii) (s : string) : list string :=
  match s with
  | EmptyString => [EmptyString]
  | String a s' =>
      if Ascii.eqb a c then EmptyString :: split c s'
      else match split c s' with
           | f :: fs => String a f :: fs
           | [] => [String a EmptyString]
           end
  end.

(** [s.lastIndexOf(c)] for a one-character search string; [-1] when absent. *)
Fixpoint lastIndexOf_from (i : Z) (found : Z) (s : string) (c : ascii) : Z :=
  match s with
  | EmptyString => found
  | String a s' => lastIndexOf_from (i + 1) (if Ascii.eqb a c then i else found) s' c
  end.

Definition lastIndexOf (s : string) (c : ascii) : Z := lastIndexOf_from 0 (-1) s c.

(** the relative index resolution of [slice]: negative counts from the end,
    everything is clamped to [0 .. len]. *)
Definition clamp (len i : Z) : Z :=
  if i <? 0 then Z.max (len + i) 0 else Z.min i len.

(** [s.slice(from, to)] *)
Definition slice (s : string) (from to : Z) : string :=
  let len := Z.of_nat (String.length s) in
  let a := clamp len from in
  let b := clamp len to in
  keep (Z.to_nat (b - a)) (skip (Z.to_nat a) s).

Definition lower (c : ascii) : ascii :=
  let n := nat_of_ascii c in
  if ((65 <=? n) && (n <=? 90))%nat then ascii_of_nat (n + 32) else c.

(** [s.toLowerCase()] on the ASCII letters *)
Fixpoint toLowerCase (s : string) : string :=
  match s with
  | EmptyString => EmptyString
  | String c s' => String (lower c) (toLowerCase s')
  end.

(** truthiness of a string: every string but the empty one *)
Definition truthy (s : string) : bool :=
  match s with EmptyString => false | _ => true end.

End JsString.

(* ===================================================================== *)
(** ** Numbers: the values [parseInt] and array destructuring produce      *)
(* ===================================================================== *)

Inductive value : Type :=
| Undefined
| NaN
| Num (z : Z)                 (* a finite double whose value is the integer [z] *)
| Infinity (negative : bool). (* [Infinity] and [-Infinity] *)

Module JsNumber.

(** [a !== b] on the values above: [NaN] differs from everything, itself
    included. *)
Definition strict_neq (a b : value) : bool :=
  match a, b with
  | Undefined, Undefined => false
  | Num x, Num y => negb (x =? y)
  | Infinity s, Infinity t => negb (Bool.eqb s t)
  | _, _ => true
  end.

(** [a > b]: false as soon as one side is not a number ([undefined]
    converts to [NaN]). *)
Definition gt (a b : value) : bool :=
  match a, b with
  | Num x, Num y => y <? x
  | Infinity false, Num _ => true
  | Infinity false, Infinity true => true
  | Num _, Infinity true => true
  | _, _ => false
  end.

Definition is_digit (c : ascii) : bool :=
  let n := nat_of_ascii c in ((48 <=? n) && (n <=? 57))%nat.

Definition digit_value (c : ascii) : Z := Z.of_nat (nat_of_ascii c - 48).

(** white space skipped by [parseInt]: TAB, LF, VT, FF, CR, SP, NBSP *)
Definition is_white_space (c : ascii) : bool :=
  let n := nat_of_ascii c in
  ((9 <=? n) && (n <=? 13) || (n =? 32) || (n =? 160))%nat.

Fixpoint trimStart (s : string) : string :=
  match s with
  | String c s' => if is_white_space c then trimStart s' else s
  | EmptyString => s
  end.

(** the longest prefix of decimal digits, as digit values *)
Fixpoint digit_prefix (s : string) : list Z :=
  match s with
  | String c s' => if is_digit c then digit_value c :: digit_prefix s' else []
  | EmptyString => []
  end.

Definition mathInt (ds : list Z) : Z := fold_left (fun acc d => 10 * acc + d) ds 0.

(** [Number.MAX_SAFE_INTEGER]: every integer up to it is a double *)
Definition max_safe : Z := 2 ^ 53 - 1.

(** The double nearest to a non-negative integer [n], ties to the even
    significand: [n] itself up to [max_safe]; beyond, the 53 leading bits of
    [n] rounded on the bits cut off. [None] when the result is beyond the
    largest finite double. *)
Definition round_double (n : Z) : option Z :=
  if n <=? max_safe then Some n
  else
    let e := Z.log2 n - 52 in
    let q := n / 2 ^ e in
    let r := n mod 2 ^ e in
    let half := 2 ^ (e - 1) in
    let q' := if (half <? r) || ((r =? half) && Z.odd q) then q + 1 else q in
    if 2 ^ 1024 <=? q' * 2 ^ e then None else Some (q' * 2 ^ e).

(** the Number value of [sign * n], for [n] non-negative *)
Definition number (sign n : Z) : value :=
  match round_double n with
  | Some v => Num (sign * v)
  | None => Infinity (sign <? 0)
  end.

(** [parseInt(s, 10)]: leading white space is skipped, one sign is read,
    then the longest run of decimal digits; [NaN] when that run is empty,
    else the Number value of the signed integer the digits denote. *)
Definition parseInt (s : string) : value :=
  let t := trimStart s in
  let '(sign, body) :=
    match t with
    | String "-" r => (-1, r)
    | String "+" r => (1, r)
    | _ => (1, t)
    end in
  match digit_prefix body with
  | [] => NaN
  | ds => number sign (mathInt ds)
  end.

End JsNumber.

(* ===================================================================== *)
(** ** Version comparison                                                  *)
(* ===================================================================== *)

Import JsString JsNumber.

(** [arr[i]]: reading past the end of an array gives [undefined]. *)
Definition at_index (arr : list value) (i : nat) : value :=
  match arr !! i with
  | Some v => v
  | None => Undefined
  end.

(** [parserVersion(ver)]:
<<
  let build = 0;
  if (ver.includes('-')) {
    let buildstr = '0';
    [ver, buildstr] = ver.split('-');
    build = parseInt(buildstr, 10);
  }
  const [major, minor, patch = 0] = ver.split('.').map(item => parseInt(item, 10));
  return [major, minor, patch, build];
>> *)
Definition parserVersion (ver : string) : list value :=
  let '(ver, build) :=
    if includes ver "-" then
      match split "-" ver with
      | v :: buildstr :: _ => (v, parseInt buildstr)
      | v :: [] => (v, NaN)
      | [] => (ver, NaN)
      end
    else (ver, Num 0) in
  let nums := map parseInt (split "." ver) in
  let major := at_index nums 0 in
  let minor := at_index nums 1 in
  let patch := match at_index nums 2 with Undefined => Num 0 | v => v end in
  [major; minor; patch; build].

(** the loop of [compareVersions] started at index [i], with [n] iterations
    left *)
Fixpoint compare_loop (n i : nat) (updateVersion appVersion : list value) : bool :=
  match n with
  | O => false
  | S n' =>
      if strict_neq (at_index updateVersion i) (at_index appVersion i)
      then gt (at_index updateVersion i) (at_index appVersion i)
      else compare_loop n' (S i) updateVersion appVersion
  end.

(** [compareVersions(updateVersionStr, currentVersionStr)]:
<<
  for (let i = 0; i < 4; i++) {
    if (updateVersion[i] !== appVersion[i]) return updateVersion[i] > appVersion[i];
  }
  return false;
>> *)
Definition compareVersions (updateVersionStr currentVersionStr : string) : bool :=
  let appVersion := parserVersion currentVersionStr in
  let updateVersion := parserVersion updateVersionStr in
  compare_loop 4 0 updateVersion appVersion.


(* ===================================================================== *)
(** ** Data model                                                          *)
(* ===================================================================== *)

(** [AsarInfoResponse]: the descriptor served by the metadata endpoint. *)
Record AsarInfoResponse : Type := {
  version : string;
  download_url : string;
  description : option string;
  checksum : option string;
}.

(** [{...data, download_url: downloadUrl}] *)
Definition with_download_url (data : AsarInfoResponse) (url : string) : AsarInfoResponse :=
  {| version := version data;
     download_url := url;
     description := description data;
     checksum := checksum data |}.

Record AsarUpdaterOptions : Type := {
  version_url : string;
  resource_path : string;
  exec_path : option string;
}.

(** the private fields of an [AsarUpdater] instance *)
Record AsarUpdater : Type := {
  checkVersionUrl : string;
  downloadHost : string;
  appPathFolder : string;
  asarNextPath : string;
  asarSwapPath : string;
  asarTargetPath : string;
  asarVersionPath : string;
  resourcePath : string;
  execPath : option string;
}.

Definition asarSwapFileName : string := "swap.asar".
Definition asarNextFileName : string := "next.asar".
Definition asarVersionFileName : string := "version.json".
Definition asarTargetFileName : string := "app.asar".

(** truthiness of an optional string field: present and not empty *)
Definition truthy_opt (o : option string) : bool :=
  match o with
  | Some s => truthy s
  | None => false
  end.

Inductive algorithm : Type := md5 | sha256.

(** What a call can be rejected with. *)
Inductive error : Type :=
| InvalidURL                              (* [new URL] on an unparsable URL *)
| FetchError (url : string)               (* request error or status other than 200 *)
| SyntaxError                             (* [JSON.parse] *)
| TransportError                          (* the response stream emitted 'error' *)
| DecodeError                             (* the gunzip stage emitted 'error' *)
| ChecksumError (remote : string) (local : option string)
| ENOENT (path : string)                  (* a file-system call on a missing file *)
| EISDIR (path : string).                 (* [rm] without [recursive] on a directory *)

Inductive result (A : Type) : Type :=
| Ok (a : A)
| Throw (e : error).
Arguments Ok {A} a.
Arguments Throw {A} e.

(** A response body as a readable stream: the bytes it delivers, and whether
    it then ends normally or emits 'error'. *)
Record Stream : Type := {
  received : string;
  ended : bool;
}.

(** The remote side, seen through the two request helpers of the source:
    [http_get_json] settles with the parsed descriptor, [http_get_stream]
    with the response stream; both reject on a request error or on a status
    other than 200. *)
Record network : Type := {
  http_get_json : string -> result AsarInfoResponse;
  http_get_stream : string -> result Stream;
}.

(** The services of the runtime the engine calls: [process.platform],
    [node:path], [URL], [node:crypto], [node:zlib] and [JSON]. *)
Class Runtime : Type := {
  platform : string;
  sep : string;
  join : string -> string -> string;
  (** [relative(resolve('.'), p)] *)
  relative_to_cwd : string -> string;
  (** [new URL(u).origin], [None] when the constructor throws *)
  URL_origin : string -> option string;
  (** [createHash(alg).update(bytes).digest('hex')] *)
  createHash : algorithm -> string -> string;
  (** the bytes the gunzip stage emits for an input, and whether the input
      was one complete, valid gzip stream *)
  gunzip : string -> string * bool;
  (** for a response that breaks after delivering these bytes: whether the
      gunzip stage has by then emitted 'error' on them, before the response
      emits its own *)
  gunzip_error_first : string -> bool;
  (** the paths that are directories; the engine creates and removes none *)
  is_directory : string -> bool;
  JSON_parse : string -> option AsarInfoResponse;
  (** [JSON.stringify(info, null, 2)] *)
  JSON_stringify : AsarInfoResponse -> string;
}.

(** Effects on the host process that are not file-system writes. *)
Inductive event : Type :=
| Spawn (command : string) (args : list string)   (* detached child process *)
| AppRelaunch
| AppExit
| AppExitAfter (ms : Z).

Record world : Type := {
  files : gmap string string;
  trace : list event;
}.

Definition set_files (f : gmap string string -> gmap string string) (w : world) : world :=
  {| files := f (files w); trace := trace w |}.

Definition emit (e : event) (w : world) : world :=
  {| files := files w; trace := trace w ++ [e] |}.

(* ===================================================================== *)
(** ** Awaited calls: state passing with rejection                         *)
(* ===================================================================== *)

Definition io (A : Type) : Type := world -> world * result A.

Definition io_ret {A} (a : A) : io A := fun w => (w, Ok a).

Definition io_throw {A} (e : error) : io A := fun w => (w, Throw e).

Definition io_bind {A B} (m : io A) (k : A -> io B) : io B :=
  fun w =>
    match m w with
    | (w', Ok a) => k a w'
    | (w', Throw e) => (w', Throw e)
    end.

Definition io_lift {A} (r : result A) : io A := fun w => (w, r).

Declare Scope io_scope.
Delimit Scope io_scope with io.
Notation "x <- m ;; k" := (io_bind m (fun x => k))
  (at level 100, m at next level, right associativity) : io_scope.
Notation "m ;; k" := (io_bind m (fun _ => k))
  (at level 100, right associativity) : io_scope.
Local Open Scope io_scope.

(** [for (const x of l) { body }] *)
Fixpoint for_of {A} (l : list A) (body : A -> io unit) : io unit :=
  match l with
  | [] => io_ret tt
  | x :: l' => body x ;; for_of l' body
  end.

(** [exists(p)]: [access] succeeded. *)
Definition exists_ (p : string) : io bool :=
  fun w => (w, Ok (bool_decide (is_Some (files w !! p)))).

(** [rm(p, {force})] *)
Definition rmPromisify (p : string) (force : bool) : io unit :=
  fun w =>
    match files w !! p with
    | Some _ => (set_files (delete p) w, Ok tt)
    | None => if force then (w, Ok tt) else (w, Throw (ENOENT p))
    end.

(** [rename(from, to)] *)
Definition renamePromisify (from to : string) : io unit :=
  fun w =>
    match files w !! from with
    | Some c => (set_files (fun m => <[to := c]> (delete from m)) w, Ok tt)
    | None => (w, Throw (ENOENT from))
    end.

(** [writeFile(p, text)] *)
Definition writeFilePromisify (p text : string) : io unit :=
  fun w => (set_files (<[p := text]>) w, Ok tt).

(** [readFile(p, {encoding: 'utf8'})] *)
Definition readFilePromisify (p : string) : io string :=
  fun w =>
    match files w !! p with
    | Some c => (w, Ok c)
    | None => (w, Throw (ENOENT p))
    end.

(* ===================================================================== *)
(** ** The engine ([AsarUpdater], revision with checksum support)          *)
(* ===================================================================== *)

Definition dq : string := String (ascii_of_nat 34) EmptyString.
Definition nl : string := String (ascii_of_nat 10) EmptyString.
Definition backslash : string := String (ascii_of_nat 92) EmptyString.

(** a template literal given line by line: every line break of the literal
    is a newline of the text, the literal opens with one *)
Definition template (lines : list string) : string :=
  nl ++ String.concat EmptyString (map (fun l => l ++ nl) lines).

Section Engine.

Context `{R : Runtime}.
Variable net : network.

(** [constructor(options)] *)
Definition new_AsarUpdater (options : AsarUpdaterOptions) : result AsarUpdater :=
  match URL_origin (version_url options) with
  | None => Throw InvalidURL
  | Some origin =>
      let resource_path :=
        if endsWith (resource_path options) asarTargetFileName
        then slice (resource_path options) 0
                   (- Z.of_nat (String.length asarTargetFileName))
        else resource_path options in
      let appPathFolder :=
        if endsWith resource_path sep then slice resource_path 0 (-1)
        else resource_path in
      Ok {| checkVersionUrl := version_url options;
            downloadHost := origin;
            appPathFolder := appPathFolder;
            asarNextPath := join appPathFolder asarNextFileName;
            asarSwapPath := join appPathFolder asarSwapFileName;
            asarTargetPath := join appPathFolder asarTargetFileName;
            asarVersionPath := join appPathFolder asarVersionFileName;
            resourcePath := relative_to_cwd appPathFolder;
            execPath :=
              if truthy_opt (exec_path options)
              then option_map relative_to_cwd (exec_path options)
              else None |}
  end.

Variable this : AsarUpdater.

(** the normalisation of [download_url] inside [check] *)
Definition downloadUrl_of (data : AsarInfoResponse) : string :=
  if negb (startsWith (download_url data) "http://")
     && negb (startsWith (download_url data) "https://")
  then
    if negb (startsWith (download_url data) "/")
    then slice (checkVersionUrl this) 0 (lastIndexOf (checkVersionUrl this) "/")
         ++ "/" ++ download_url data
    else downloadHost this ++ download_url data
  else download_url data.

(** [a === b] on two optional strings *)
Definition strict_eq_opt (a b : option string) : bool :=
  bool_decide (a = b).

(** [check(curentVersion)] *)
Definition check (curentVersion : string) : io (bool * AsarInfoResponse) :=
  data <- io_lift (http_get_json net (checkVersionUrl this)) ;;
  let isUpdater := compareVersions (version data) curentVersion in
  let downloadUrl := downloadUrl_of data in
  e <- exists_ (asarVersionPath this) ;;
  isUpdater <-
    (if e : bool then
       text <- readFilePromisify (asarVersionPath this) ;;
       match JSON_parse text with
       | None => io_throw SyntaxError
       | Some nextUpdaterInfo =>
           if truthy_opt (checksum nextUpdaterInfo)
              && strict_eq_opt (checksum nextUpdaterInfo) (checksum data)
           then io_ret false
           else io_ret isUpdater
       end
     else io_ret isUpdater) ;;
  io_ret (isUpdater, with_download_url data downloadUrl).

(** The stages a response is piped through. *)
Inductive Writable : Type :=
| HashTransform (a : algorithm)
| Gunzip
| WriteStream (path : string).

(** What leaves a stage: the bytes passed on, the first 'error' raised so
    far, and the digest published by the hash stage when it was flushed. *)
Record flow : Type := {
  passed : string;
  failure : option error;
  digest : option string;
}.

(** One [stream.pipe(nextStream)]. A stage is flushed only when its source
    ended; an 'error' upstream leaves it with the bytes received so far.
    [failure] is the 'error' emitted first in time, the one the promise of
    [pipe] rejects with: the gunzip stage fails on the bytes it is given,
    which is before a response that delivered them breaks when
    [gunzip_error_first] says so, and at the end of its input otherwise. *)
Definition pipe_stage (acc : world * flow) (st : Writable) : world * flow :=
  let '(w, f) := acc in
  match st with
  | HashTransform a =>
      (w, {| passed := passed f;
             failure := failure f;
             digest := match failure f with
                       | None => Some (toLowerCase (createHash a (passed f)))
                       | Some _ => digest f
                       end |})
  | Gunzip =>
      let '(out, good) := gunzip (passed f) in
      (w, {| passed := out;
             failure := match failure f with
                        | Some e => if gunzip_error_first (passed f)
                                    then Some DecodeError
                                    else Some e
                        | None => if good then None else Some DecodeError
                        end;
             digest := digest f |})
  | WriteStream p => (set_files (<[p := passed f]>) w, f)
  end.

(** [pipe(stream, ...streams)]: resolves on 'finish' of the last stage,
    rejects on the first 'error' in time. The value is the [hash] of the
    hash stage, read by the caller afterwards. *)
Definition pipe (stream : Stream) (streams : list Writable) : io (option string) :=
  fun w =>
    let '(w', f) :=
      fold_left pipe_stage streams
        (w, {| passed := received stream;
               failure := if ended stream then None else Some TransportError;
               digest := None |}) in
    match failure f with
    | None => (w', Ok (digest f))
    | Some e => (w', Throw e)
    end.

(** the clean-up loop at the head of [download] *)
Definition cleanup (paths : list string) : io unit :=
  for_of paths (fun file =>
    e <- exists_ file ;;
    if e : bool then rmPromisify file false else io_ret tt).

(** the [outputStreams] array built by [download] *)
Definition outputStreams (asarInfo : AsarInfoResponse) : list Writable :=
  let isGzip := endsWith (download_url asarInfo) ".gz"
                || endsWith (download_url asarInfo) ".gzip" in
  (match checksum asarInfo with
   | Some c =>
       if truthy c
       then [HashTransform (if (String.length c =? 32)%nat then md5 else sha256)]
       else []
   | None => []
   end)
  ++ (if isGzip then [Gunzip] else [])
  ++ [WriteStream (asarSwapPath this)].

(** the comparison of the digest after [pipe] *)
Definition verify (asarInfo : AsarInfoResponse) (hash : option string) : io unit :=
  match checksum asarInfo with
  | Some c =>
      if truthy c
      then if bool_decide (hash = Some (toLowerCase c))
           then io_ret tt
           else io_throw (ChecksumError c hash)
      else io_ret tt
  | None => io_ret tt
  end.

(** [download(asarInfo)] *)
Definition download (asarInfo : AsarInfoResponse) : io bool :=
  cleanup [asarNextPath this; asarSwapPath this; asarVersionPath this] ;;
  inStream <- io_lift (http_get_stream net (download_url asarInfo)) ;;
  hash <- pipe inStream (outputStreams asarInfo) ;;
  verify asarInfo hash ;;
  renamePromisify (asarSwapPath this) (asarNextPath this) ;;
  writeFilePromisify (asarVersionPath this) (JSON_stringify asarInfo) ;;
  io_ret true.

(** [hasUpgraded()]: [None] is the [false] of the source. *)
Definition hasUpgraded : io (option AsarInfoResponse) :=
  n <- exists_ (asarNextPath this) ;;
  v <- (if n : bool then exists_ (asarVersionPath this) else io_ret false) ;;
  if v : bool then
    text <- readFilePromisify (asarVersionPath this) ;;
    match JSON_parse text with
    | None => io_throw SyntaxError
    | Some info => io_ret (Some info)
    end
  else io_ret None.

(** the text written by [generateWinScript] *)
Definition winScript (resourcePath : string) (relaunch : bool) (execPath : string) : string :=
  template
    [ "On Error Resume Next";
      "Dim relaunch";
      "relaunch = wscript.arguments(0)";
      "Set wshShell = WScript.CreateObject(" ++ dq ++ "WScript.Shell" ++ dq ++ ")";
      "Set fsObject = WScript.CreateObject(" ++ dq ++ "Scripting.FileSystemObject" ++ dq ++ ")";
      "updaterPath = " ++ dq ++ join resourcePath asarNextFileName ++ dq;
      "destPath = " ++ dq ++ join resourcePath asarTargetFileName ++ dq;
      EmptyString;
      "Do While fsObject.FileExists(destPath)";
      "fsObject.DeleteFile destPath";
      "WScript.Sleep 250";
      "Loop";
      EmptyString;
      "WScript.Sleep 250";
      "fsObject.MoveFile updaterPath,destPath";
      "WScript.Sleep 250";
      EmptyString;
      "If relaunch = " ++ dq ++ "1" ++ dq ++ " Then";
      "  " ++ (if relaunch
               then "wshShell.Run " ++ dq ++ "." ++ backslash ++ execPath ++ dq
               else EmptyString);
      "End If" ].

(** [generateWinScript(resourcePath, scriptPath, execPath)] *)
Definition generateWinScript (resourcePath scriptPath : string)
    (execPath : option string) : io unit :=
  relaunch <-
    (match execPath with
     | Some p => if truthy p then exists_ (join "." p) else io_ret false
     | None => io_ret false
     end) ;;
  writeFilePromisify scriptPath
    (winScript resourcePath relaunch (default EmptyString execPath)).

(** [spawn(command, args, {detached: true, ...})] *)
Definition spawn (command : string) (args : list string) : io unit :=
  fun w => (emit (Spawn command args) w, Ok tt).

(** [upgrade(relaunch)] *)
Definition upgrade (relaunch : bool) : io unit :=
  if String.eqb platform "win32" then
    let updaterScriptPath := join (resourcePath this) "updater.vbs" in
    generateWinScript (resourcePath this) updaterScriptPath (execPath this) ;;
    spawn "cmd"
      [ "/s"; "/c"; "wscript";
        dq ++ updaterScriptPath ++ dq;
        dq ++ (if relaunch then "1" else "0") ++ dq ]
  else
    rmPromisify (asarTargetPath this) true ;;
    renamePromisify (asarNextPath this) (asarTargetPath this).

End Engine.

(* ===================================================================== *)
(** ** Earlier revisions of the same file                                  *)
(* ===================================================================== *)

(** The revision before checksum support: only [download] differs in what
    it deletes and in the stages it pipes through. *)
Module Previous.
Section Engine.

Context `{R : Runtime}.
Variable net : network.
Variable this : AsarUpdater.

(** [download(asarInfo)] *)
Definition download (asarInfo : AsarInfoResponse) : io bool :=
  cleanup [asarSwapPath this; asarVersionPath this] ;;
  inStream <- io_lift (http_get_stream net (download_url asarInfo)) ;;
  let isGzip := endsWith (download_url asarInfo) ".gz"
                || endsWith (download_url asarInfo) ".gzip" in
  (if isGzip
   then pipe inStream [Gunzip; WriteStream (asarSwapPath this)]
   else pipe inStream [WriteStream (asarSwapPath this)]) ;;
  renamePromisify (asarSwapPath this) (asarNextPath this) ;;
  writeFilePromisify (asarVersionPath this) (JSON_stringify asarInfo) ;;
  io_ret true.

End Engine.
End Previous.

(** [parseInt(s)] called without a radix, as the first revision does. *)
Module JsRadix.

Definition hex_value (c : ascii) : option Z :=
  let n := nat_of_ascii c in
  if ((48 <=? n) && (n <=? 57))%nat then Some (Z.of_nat (n - 48))
  else if ((97 <=? n) && (n <=? 102))%nat then Some (Z.of_nat (n - 87))
  else if ((65 <=? n) && (n <=? 70))%nat then Some (Z.of_nat (n - 55))
  else None.

(** the longest prefix of hexadecimal digits, as digit values *)
Fixpoint hex_prefix (s : string) : list Z :=
  match s with
  | String c s' =>
      match hex_value c with
      | Some d => d :: hex_prefix s'
      | None => []
      end
  | EmptyString => []
  end.

Definition mathInt16 (ds : list Z) : Z := fold_left (fun acc d => 16 * acc + d) ds 0.

(** the sign read by [parseInt] and the text after it *)
Definition sign_of (t : string) : Z * string :=
  match t with
  | String "-" r => (-1, r)
  | String "+" r => (1, r)
  | _ => (1, t)
  end.

(** [parseInt(s)]: as with radix 10, except that a [0x] or [0X] after the
    sign selects radix 16 and is skipped. *)
Definition parseInt_auto (s : string) : value :=
  let '(sign, body) := sign_of (trimStart s) in
  if startsWith body "0x" || startsWith body "0X" then
    match hex_prefix (skip 2 body) with
    | [] => NaN
    | ds => number sign (mathInt16 ds)
    end
  else
    match digit_prefix body with
    | [] => NaN
    | ds => number sign (mathInt ds)
    end.

End JsRadix.

(** The first revision: paths are module-level constants, and [upgrade]
    itself looks for the staged bundle. *)
Module Original.
Section Engine.

Context `{R : Runtime}.
Variables appPathFolder asarTmpPath asarSwapPath asarTargetPath
          asarVersionPath resourcePath : string.

Definition asarTmpFileName : string := "next.asar".

Definition winScript (relaunch : bool) (execPath : string) : string :=
  template
    [ "On Error Resume Next";
      "Set wshShell = WScript.CreateObject(" ++ dq ++ "WScript.Shell" ++ dq ++ ")";
      "Set fsObject = WScript.CreateObject(" ++ dq ++ "Scripting.FileSystemObject" ++ dq ++ ")";
      "updaterPath = " ++ dq ++ join resourcePath asarTmpFileName ++ dq;
      "destPath = " ++ dq ++ join resourcePath asarTargetFileName ++ dq;
      EmptyString;
      "Do While fsObject.FileExists(destPath)";
      "  fsObject.DeleteFile destPath";
      "  WScript.Sleep 250";
      "Loop";
      EmptyString;
      "WScript.Sleep 250";
      "fsObject.MoveFile updaterPath,destPath";
      "WScript.Sleep 250";
      EmptyString;
      (if relaunch
       then "wshShell.Run " ++ dq ++ "." ++ backslash ++ execPath ++ dq
       else EmptyString) ].

(** [generateWinScript(scriptPath, relaunch)] *)
Definition generateWinScript (scriptPath : string) (relaunch : bool) : io unit :=
  let execPath := "slots-config-gui.exe" in
  e <- exists_ (join "." execPath) ;;
  let relaunch := if negb e then false else relaunch in
  writeFilePromisify scriptPath (winScript relaunch execPath).

Definition app_relaunch : io unit := fun w => (emit AppRelaunch w, Ok tt).
Definition app_exit : io unit := fun w => (emit AppExit w, Ok tt).
(** [setTimeout(() => app.exit(), ms)] *)
Definition app_exit_after (ms : Z) : io unit := fun w => (emit (AppExitAfter ms) w, Ok tt).

(** [exists(p)] on a path that may name a folder: [access] succeeds on a
    directory as on a file *)
Definition exists_entry (p : string) : io bool :=
  if is_directory p then io_ret true else exists_ p.

(** [rm(p, {force})] on a path that may name a folder: without [recursive]
    the call rejects on a directory, whatever [force] is *)
Definition rm_entry (p : string) (force : bool) : io unit :=
  if is_directory p then io_throw (EISDIR p) else rmPromisify p force.

(** [upgrade(relaunch, exit)]; [workers] is the one path of the engine that
    names a folder of the application, not a file of the staging layout. *)
Definition upgrade (relaunch exit : bool) : io unit :=
  nextAsar <- exists_ asarTmpPath ;;
  if nextAsar : bool then
    let workerPath := join appPathFolder "workers" in
    e <- exists_entry workerPath ;;
    (if e : bool then rm_entry workerPath true else io_ret tt) ;;
    if String.eqb platform "win32" then
      let updaterScriptPath := join resourcePath "updater.vbs" in
      generateWinScript updaterScriptPath relaunch ;;
      spawn "cmd" ["/s"; "/c"; "wscript"; dq ++ updaterScriptPath ++ dq] ;;
      if exit then app_exit_after 100 else io_ret tt
    else
      rmPromisify asarTargetPath true ;;
      renamePromisify asarTmpPath asarTargetPath ;;
      (if relaunch then app_relaunch else io_ret tt) ;;
      if exit then app_exit else io_ret tt
  else io_ret tt.

End Engine.

Section Versions.

(** the object [parserVersion] returns *)
Record parsed : Type := {
  major : value;
  minor : value;
  revision : value;
  build : value;
}.

(** [parserVersion(ver)]: the segments before the dash are read with
    [parseInt(item)], the build with [parseInt(buildstr, 10)]. *)
Definition parserVersion (ver : string) : parsed :=
  let '(ver, build) :=
    if includes ver "-" then
      match split "-" ver with
      | v :: buildstr :: _ => (v, parseInt buildstr)
      | v :: [] => (v, NaN)
      | [] => (ver, NaN)
      end
    else (ver, Num 0) in
  let nums := map JsRadix.parseInt_auto (split "." ver) in
  {| major := at_index nums 0;
     minor := at_index nums 1;
     revision := match at_index nums 2 with Undefined => Num 0 | v => v end;
     build := build |}.

(** [compareVersions(updateVersionStr, currentVersionStr)] *)
Definition compareVersions (updateVersionStr currentVersionStr : string) : bool :=
  let appVersion := parserVersion currentVersionStr in
  let updateVersion := parserVersion updateVersionStr in
  if strict_neq (major updateVersion) (major appVersion)
  then gt (major updateVersion) (major appVersion)
  else if strict_neq (minor updateVersion) (minor appVersion)
  then gt (minor updateVersion) (minor appVersion)
  else if strict_neq (revision updateVersion) (revision appVersion)
  then gt (revision updateVersion) (revision appVersion)
  else if strict_neq (build updateVersion) (build appVersion)
  then gt (build updateVersion) (build appVersion)
  else false.

Variable net : network.
Variables checkVersionUrl downloadHost : string.

(** [checkUpdates(curentVersion)]: the pair stands for
    [{...data, updater: isUpdater, download_url: downloadUrl}]. *)
Definition checkUpdates (curentVersion : string) : io (bool * AsarInfoResponse) :=
  data <- io_lift (http_get_json net checkVersionUrl) ;;
  let isUpdater := compareVersions (version data) curentVersion in
  let downloadUrl :=
    if negb (startsWith (download_url data) "http://")
       && negb (startsWith (download_url data) "https://")
    then downloadHost
         ++ (if startsWith (download_url data) "/" then EmptyString else "/")
         ++ download_url data
    else download_url data in
  io_ret (isUpdater, with_download_url data downloadUrl).

End Versions.

Section Staging.

Context `{R : Runtime}.
Variable net : network.
Variables asarTmpPath asarSwapPath asarVersionPath : string.

(** [download(asarInfo)] *)
Definition download (asarInfo : AsarInfoResponse) : io bool :=
  e <- exists_ asarSwapPath ;;
  (if e : bool then rmPromisify asarSwapPath true else io_ret tt) ;;
  e <- exists_ asarVersionPath ;;
  (if e : bool then rmPromisify asarVersionPath true else io_ret tt) ;;
  inStream <- io_lift (http_get_stream net (download_url asarInfo)) ;;
  let isGzip := endsWith (download_url asarInfo) ".gz"
                || endsWith (download_url asarInfo) ".gzip" in
  (if isGzip
   then pipe inStream [Gunzip; WriteStream asarSwapPath]
   else pipe inStream [WriteStream asarSwapPath]) ;;
  renamePromisify asarSwapPath asarTmpPath ;;
  writeFilePromisify asarVersionPath (JSON_stringify asarInfo) ;;
  io_ret true.

(** [hasUpgradeFile()]: [None] is the [null] of the source. *)
Definition hasUpgradeFile : io (option AsarInfoResponse) :=
  n <- exists_ asarTmpPath ;;
  v <- (if n : bool then exists_ asarVersionPath else io_ret false) ;;
  if v : bool then
    text <- readFilePromisify asarVersionPath ;;
    match JSON_parse text with
    | None => io_throw SyntaxError
    | Some info => io_ret (Some info)
    end
  else io_ret None.

End Staging.
End Original.

(* ===================================================================== *)
(** ** The specification's reading of a version string                     *)
(* ===================================================================== *)

(** Follows the specification, not the code: a version is
    [major.minor[.patch][-build]], every segment a non-negative integer
    written in decimal digits; anything else is a parse error ([None]). *)
Module Spec.

Fixpoint all_digits (s : string) : bool :=
  match s with
  | EmptyString => true
  | String c s' => is_digit c && all_digits s'
  end.

Fixpoint decimal_value (acc : Z) (s : string) : Z :=
  match s with
  | EmptyString => acc
  | String c s' => decimal_value (10 * acc + digit_value c) s'
  end.

(** a non-negative integer segment *)
Definition segment (s : string) : option Z :=
  match s with
  | EmptyString => None
  | _ => if all_digits s then Some (decimal_value 0 s) else None
  end.

Definition tuple : Type := Z * Z * Z * Z.

Definition parse_core (core : string) (build : Z) : option tuple :=
  match split "." core with
  | [ma; mi] =>
      match segment ma, segment mi with
      | Some a, Some b => Some (a, b, 0, build)
      | _, _ => None
      end
  | [ma; mi; pa] =>
      match segment ma, segment mi, segment pa with
      | Some a, Some b, Some c => Some (a, b, c, build)
      | _, _, _ => None
      end
  | _ => None
  end.

Definition parse (ver : string) : option tuple :=
  match split "-" ver with
  | [core] => parse_core core 0
  | [core; b] =>
      match segment b with
      | Some build => parse_core core build
      | None => None
      end
  | _ => None
  end.

(** strictly greater in the lexicographic order: major, minor, patch, build *)
Definition lex_gt (x y : tuple) : bool :=
  let '(a1, b1, c1, d1) := x in
  let '(a2, b2, c2, d2) := y in
  if negb (a1 =? a2) then a2 <? a1
  else if negb (b1 =? b2) then b2 <? b1
  else if negb (c1 =? c2) then c2 <? c1
  else d2 <? d1.

(** the four numbers a tuple stands for *)
Definition values_of (t : tuple) : list value :=
  let '(a, b, c, d) := t in [Num a; Num b; Num c; Num d].

(** every segment is a safe integer: at most [Number.MAX_SAFE_INTEGER] *)
Definition safe (t : tuple) : bool :=
  let '(a, b, c, d) := t in
  (a <=? max_safe) && (b <=? max_safe) && (c <=? max_safe) && (d <=? max_safe).



End Spec.


(* ===================================================================== *)
(** ** A small runtime, to run the engine on concrete inputs               *)
(* ===================================================================== *)

(** POSIX paths under the working directory [/opt/app], whose folders are
    [resources] and [resources/workers], plain [scheme://host/path] URLs,
    and stand-ins for the three codecs: a byte sum in place of the
    cryptographic digests, a tagged copy in place of deflate (rejected at
    once when the tag is wrong), and one field per line in place of JSON. *)
Module Sample.

Definition path_join (a b : string) : string := a ++ "/" ++ b.

Definition cwd_relative (p : string) : string :=
  if startsWith p "/opt/app/" then skip 9 p else p.

Definition authority (rest : string) : string :=
  match split "/" rest with
  | h :: _ => h
  | [] => rest
  end.

Definition origin (u : string) : option string :=
  if startsWith u "https://" then Some ("https://" ++ authority (skip 8 u))
  else if startsWith u "http://" then Some ("http://" ++ authority (skip 7 u))
  else None.

Fixpoint byte_sum (s : string) : nat :=
  match s with
  | EmptyString => 0
  | String c s' => (nat_of_ascii c + byte_sum s') mod 256
  end.

Definition hex_digit (n : nat) : ascii :=
  if (n <? 10)%nat then ascii_of_nat (48 + n) else ascii_of_nat (87 + n).

Fixpoint zeros (n : nat) : string :=
  match n with
  | O => EmptyString
  | S n' => String "0" (zeros n')
  end.

Definition digest_of (a : algorithm) (bytes : string) : string :=
  let n := byte_sum bytes in
  zeros (match a with md5 => 30 | sha256 => 62 end)
  ++ String (hex_digit (n / 16)) (String (hex_digit (n mod 16)) EmptyString).

Definition inflate (bytes : string) : string * bool :=
  if startsWith bytes "gz:" then (skip 3 bytes, true) else (EmptyString, false).

(** the bytes cannot be the beginning of a tagged copy *)
Definition corrupt (bytes : string) : bool :=
  negb (startsWith bytes "gz:") && negb (startsWith "gz:" bytes).

Definition folders : list string :=
  ["/opt/app"; "/opt/app/resources"; "/opt/app/resources/workers"].

Definition folder (p : string) : bool := existsb (String.eqb p) folders.

Definition field (o : option string) : string :=
  match o with
  | Some s => String "+" s
  | None => "-"
  end.

Definition unfield (s : string) : option (option string) :=
  match s with
  | String "+" r => Some (Some r)
  | String "-" EmptyString => Some None
  | _ => None
  end.

Definition print_lines (d : AsarInfoResponse) : string :=
  String.concat nl [version d; download_url d; field (description d); field (checksum d)].

Definition parse_lines (text : string) : option AsarInfoResponse :=
  match split (ascii_of_nat 10) text with
  | [v; u; d; c] =>
      match unfield d, unfield c with
      | Some d', Some c' =>
          Some {| version := v; download_url := u; description := d'; checksum := c' |}
      | _, _ => None
      end
  | _ => None
  end.

#[local] Instance runtime (platform : string) : Runtime := {|
  platform := platform;
  sep := "/";
  join := path_join;
  relative_to_cwd := cwd_relative;
  URL_origin := origin;
  createHash := digest_of;
  gunzip := inflate;
  gunzip_error_first := corrupt;
  is_directory := folder;
  JSON_parse := parse_lines;
  JSON_stringify := print_lines;
|}.

Definition linux : Runtime := runtime "linux".
Definition win32 : Runtime := runtime "win32".

Definition options : AsarUpdaterOptions :=
  {| version_url := "https://h/api/check";
     resource_path := "/opt/app/resources/app.asar";
     exec_path := None |}.

(** the updater [new AsarUpdater(options)] builds *)
Definition updater : AsarUpdater :=
  {| checkVersionUrl := "https://h/api/check";
     downloadHost := "https://h";
     appPathFolder := "/opt/app/resources";
     asarNextPath := "/opt/app/resources/next.asar";
     asarSwapPath := "/opt/app/resources/swap.asar";
     asarTargetPath := "/opt/app/resources/app.asar";
     asarVersionPath := "/opt/app/resources/version.json";
     resourcePath := "resources";
     execPath := None |}.

Definition world_of (l : list (string * string)) : world :=
  {| files := list_to_map l; trace := [] |}.

(** a descriptor for version 1.1.0 with the given download URL and checksum *)
Definition descriptor (url : string) (sum : option string) : AsarInfoResponse :=
  {| version := "1.1.0"; download_url := url; description := None; checksum := sum |}.

(** a metadata endpoint that serves [d] *)
Definition serving (d : AsarInfoResponse) : network :=
  {| http_get_json := fun _ => Ok d;
     http_get_stream := fun url => Throw (FetchError url) |}.

End Sample.

(* ===================================================================== *)
(** ** The request helpers                                                 *)
(* ===================================================================== *)

(** [http_get_json] and [http_get_stream] over the two clients of the
    runtime. A reply is the status line followed by the body as the chunks
    of its 'data' events; [complete] tells whether 'end' follows them. *)
Module Http.

Record Response : Type := {
  statusCode : Z;
  chunks : list string;
  complete : bool;
}.

(** [node:https] and [node:http]; [None] is an 'error' on the request *)
Record clients : Type := {
  httpsRequest : string -> option Response;
  httpRequest : string -> option Response;
}.

(** [(url.startsWith('https://') ? httpsRequest : httpRequest)(url, ...)] *)
Definition request (c : clients) (url : string) : option Response :=
  if startsWith url "https://" then httpsRequest c url else httpRequest c url.

(** [data.join()]: the elements separated by commas *)
Definition data_join (data : list string) : string := String.concat "," data.

(** [http_get_json(url)] of the current revision; [None] when the promise
    never settles (no 'end', and nothing listens for 'error' on the reply). *)
Definition http_get_json `{R : Runtime} (c : clients) (url : string)
    : option (result AsarInfoResponse) :=
  match request c url with
  | None => Some (Throw (FetchError url))
  | Some res =>
      if negb (statusCode res =? 200) then Some (Throw (FetchError url))
      else if complete res then
        match JSON_parse (data_join (chunks res)) with
        | Some d => Some (Ok d)
        | None => Some (Throw SyntaxError)
        end
      else None
  end.

(** [http_get_json(url)] of the revision before: [data += chunk] *)
Definition http_get_json_previous `{R : Runtime} (c : clients) (url : string)
    : option (result AsarInfoResponse) :=
  match request c url with
  | None => Some (Throw (FetchError url))
  | Some res =>
      if negb (statusCode res =? 200) then Some (Throw (FetchError url))
      else if complete res then
        match JSON_parse (String.concat EmptyString (chunks res)) with
        | Some d => Some (Ok d)
        | None => Some (Throw SyntaxError)
        end
      else None
  end.

(** [http_get_stream(url)]: settles as soon as the status line is read *)
Definition http_get_stream (c : clients) (url : string) : result Stream :=
  match request c url with
  | None => Throw (FetchError url)
  | Some res =>
      if negb (statusCode res =? 200) then Throw (FetchError url)
      else Ok {| received := String.concat EmptyString (chunks res);
                 ended := complete res |}
  end.

End Http.

(* ===================================================================== *)
(** ** The caller shown in the README                                      *)
(* ===================================================================== *)

Module Usage.
Section Main.

Context `{R : Runtime}.
Variable net : network.
Variable asarUpdater : AsarUpdater.

(** [app.relaunch()] *)
Definition app_relaunch : io unit := fun w => (emit AppRelaunch w, Ok tt).
(** [app.exit()] *)
Definition app_exit : io unit := fun w => (emit AppExit w, Ok tt).

(** [upgradeAsarFile(relaunch)]:
<<
  if (await asarUpdater.hasUpgraded()) {
    await asarUpdater.upgrade(relaunch);
    if (relaunch && process.platform !== 'win32') { app.relaunch(); }
  }
  app.exit();
>> *)
Definition upgradeAsarFile (relaunch : bool) : io unit :=
  staged <- hasUpgraded asarUpdater ;;
  (match staged with
   | Some _ =>
       upgrade asarUpdater relaunch ;;
       if relaunch && negb (String.eqb platform "win32")
       then app_relaunch
       else io_ret tt
   | None => io_ret tt
   end) ;;
  app_exit.

(** the update part of the 'ready-to-show' handler:
<<
  const [isUpdater, asarInfo] = await asarUpdater.check(getVersion());
  if (isUpdater) {
    if (await asarUpdater.download(asarInfo)) { await upgradeAsarFile(true); }
  }
>> *)
Definition onReadyToShow (appVersion : string) : io unit :=
  r <- check net asarUpdater appVersion ;;
  let '(isUpdater, asarInfo) := r in
  if isUpdater : bool then
    ok <- download net asarUpdater asarInfo ;;
    if ok : bool then upgradeAsarFile true else io_ret tt
  else io_ret tt.

End Main.
End Usage.

(* ===================================================================== *)
(** ** Vocabulary for the statements                                       *)
(* ===================================================================== *)

(** the bytes [download] writes for a response body: the body itself, or
    what the gunzip stage emits for it when the URL asks for it *)
Definition body_of `{R : Runtime} (asarInfo : AsarInfoResponse) (s : Stream) : string :=
  if endsWith (download_url asarInfo) ".gz" || endsWith (download_url asarInfo) ".gzip"
  then fst (gunzip (received s))
  else received s.

(** the response is one [download] commits: it ended, it decompressed when
    the URL asks for it, and its digest matches when a checksum is given *)
Definition accepted `{R : Runtime} (asarInfo : AsarInfoResponse) (s : Stream) : bool :=
  ended s
  && (if endsWith (download_url asarInfo) ".gz" || endsWith (download_url asarInfo) ".gzip"
      then snd (gunzip (received s))
      else true)
  && (match checksum asarInfo with
      | Some c =>
          if truthy c
          then String.eqb
                 (toLowerCase
                    (createHash (if (String.length c =? 32)%nat then md5 else sha256)
                       (received s)))
                 (toLowerCase c)
          else true
      | None => true
      end).

(** the four artifact paths of an updater are pairwise distinct *)
Definition distinct_layout (this : AsarUpdater) : Prop :=
  NoDup [asarSwapPath this; asarNextPath this; asarVersionPath this; asarTargetPath this].

(** every number in the list is non-negative *)
Definition non_negative (v : value) : bool :=
  match v with
  | Num z => 0 <=? z
  | Infinity negative => negb negative
  | _ => true
  end.

(** a number proper: neither [undefined] nor [NaN] *)
Definition is_number (v : value) : bool :=
  match v with
  | Num _ | Infinity _ => true
  | _ => false
  end.

(** the Number values of the segments of a tuple *)
Definition numbers_of (t : Spec.tuple) : list value :=
  let '(a, b, c, d) := t in [number 1 a; number 1 b; number 1 c; number 1 d].


(** a plain file name: one path segment, not [.] or [..] *)
Definition file_name (s : string) : bool :=
  negb (includes s "/") && negb (includes s (ascii_of_nat 92))
  && negb (String.eqb s EmptyString) && negb (String.eqb s ".")
  && negb (String.eqb s "..").

(* ===================================================================== *)
(** * Properties                                                           *)
(* ===================================================================== *)

(** ** Numbers *)

Lemma round_double_safe (n : Z) : n <= max_safe -> round_double n = Some n.
Proof.
  intros H. apply Z.leb_le in H. unfold round_double. now rewrite H.
Qed.

Lemma number_safe (n : Z) : n <= max_safe -> number 1 n = Num n.
Proof.
  intros H. unfold number. rewrite (round_double_safe n H).
  now rewrite Z.mul_1_l.
Qed.

Lemma round_double_nonneg (n v : Z) :
  0 <= n -> round_double n = Some v -> 0 <= v.
Proof.
  intros Hn. unfold round_double.
  destruct (n <=? max_safe); [intros [= <-]; exact Hn|].
  cbv zeta.
  pose proof (Z.pow_nonneg 2 (Z.log2 n - 52) ltac:(lia)) as Hp.
  pose proof (Z_div_nonneg_nonneg n (2 ^ (Z.log2 n - 52)) Hn Hp) as Hq.
  match goal with
  | |- context [if ?c then n / _ + 1 else n / _] =>
      destruct c
  end;
  match goal with
  | |- context [if ?c then None else Some _] => destruct c
  end; try discriminate; intros [= <-]; apply Z.mul_nonneg_nonneg; lia.
Qed.

Lemma number_is_number (sign n : Z) : is_number (number sign n) = true.
Proof. unfold number. now destruct (round_double n). Qed.

Lemma number_patch (sign n : Z) :
  match number sign n with Undefined => Num 0 | v => v end = number sign n.
Proof. unfold number. now destruct (round_double n). Qed.

Lemma number_non_negative (n : Z) : 0 <= n -> non_negative (number 1 n) = true.
Proof.
  intros Hn. unfold number. destruct (round_double n) as [v|] eqn:E.
  - pose proof (round_double_nonneg n v Hn E). unfold non_negative.
    apply Z.leb_le. lia.
  - reflexivity.
Qed.

Lemma numbers_of_safe (t : Spec.tuple) :
  Spec.safe t = true -> numbers_of t = Spec.values_of t.
Proof.
  destruct t as [[[a b] c] d]. unfold Spec.safe, numbers_of, Spec.values_of.
  intros H. apply andb_prop in H as [H Hd]. apply andb_prop in H as [H Hc].
  apply andb_prop in H as [Ha Hb]. apply Z.leb_le in Ha, Hb, Hc, Hd.
  now rewrite !number_safe.
Qed.

Lemma numbers_of_are_numbers (t : Spec.tuple) :
  forallb is_number (numbers_of t) = true.
Proof.
  destruct t as [[[a b] c] d]. unfold numbers_of. cbn [forallb].
  now rewrite !number_is_number.
Qed.

Lemma strict_neq_numbers (x y : value) :
  is_number x = true -> is_number y = true ->
  strict_neq y x = strict_neq x y
  /\ (strict_neq x y = false -> x = y)
  /\ (strict_neq x y = true -> gt x y = negb (gt y x)).
Proof.
  destruct x as [| |a|[]], y as [| |b|[]]; try discriminate; intros _ _;
    cbn [strict_neq gt Bool.eqb negb];
    try (repeat split; solve [reflexivity | discriminate]).
  split; [f_equal; apply Z.eqb_sym|]. split.
  - intros H. apply negb_false_iff, Z.eqb_eq in H. now subst.
  - intros H. apply negb_true_iff, Z.eqb_neq in H.
    destruct (Z.ltb_spec b a), (Z.ltb_spec a b); simpl; try reflexivity; lia.
Qed.

(** ** Version strings *)

Lemma digit_is_plain (c : ascii) :
  is_digit c = true ->
  is_white_space c = false /\ c <> "-"%char /\ c <> "+"%char.
Proof.
  destruct c as [[] [] [] [] [] [] [] []]; vm_compute; intros H;
    try discriminate H; repeat split; discriminate.
Qed.

Lemma mathInt_decimal (s : string) (acc : Z) :
  Spec.all_digits s = true ->
  fold_left (fun a d => 10 * a + d) (digit_prefix s) acc = Spec.decimal_value acc s.
Proof.
  revert acc. induction s as [|c s IH]; intros acc H; simpl in *.
  - reflexivity.
  - apply andb_prop in H as [Hc Hs]. rewrite Hc. simpl. now apply IH.
Qed.

Lemma parseInt_leading_digit (c : ascii) (s : string) :
  is_digit c = true ->
  parseInt (String c s) = number 1 (mathInt (digit_prefix (String c s))).
Proof.
  intros Hc. destruct (digit_is_plain c Hc) as (Hw & Hm & Hp).
  unfold parseInt. simpl trimStart. rewrite Hw.
  assert (Hbody : match String c s with
                  | String "-" r => (-1, r)
                  | String "+" r => (1, r)
                  | _ => (1, String c s)
                  end = (1, String c s)).
  { clear -Hm Hp.
    destruct c as [[] [] [] [] [] [] [] []]; try reflexivity; congruence. }
  rewrite Hbody. simpl digit_prefix. rewrite Hc. reflexivity.
Qed.

(** A segment of decimal digits is read as the Number value of the integer
    it denotes. *)
Lemma parseInt_segment (s : string) (n : Z) :
  Spec.segment s = Some n -> parseInt s = number 1 n.
Proof.
  destruct s as [|c s]; [discriminate|].
  unfold Spec.segment.
  destruct (Spec.all_digits (String c s)) eqn:Hd; [|discriminate].
  intros [= <-].
  pose proof Hd as Hd'. simpl in Hd'. apply andb_prop in Hd' as [Hc Hs].
  rewrite (parseInt_leading_digit c s Hc).
  unfold mathInt. now rewrite (mathInt_decimal (String c s) 0 Hd).
Qed.

Lemma split_cons (c : ascii) (s : string) :
  exists f fs, split c s = f :: fs.
Proof.
  destruct s as [|a s]; simpl; [eauto|].
  destruct (Ascii.eqb a c); [eauto|].
  destruct (split c s); eauto.
Qed.

Lemma split_without (c : ascii) (s : string) :
  includes s c = false -> split c s = [s].
Proof.
  induction s as [|a s IH]; simpl; [reflexivity|].
  destruct (Ascii.eqb a c); [discriminate|].
  intros H. now rewrite (IH H).
Qed.

Lemma split_with (c : ascii) (s : string) :
  includes s c = true -> exists f g fs, split c s = f :: g :: fs.
Proof.
  induction s as [|a s IH]; simpl; [discriminate|].
  destruct (Ascii.eqb a c).
  - intros _. destruct (split_cons c s) as (f & fs & ->). eauto.
  - intros H. destruct (IH H) as (f & g & fs & ->). eauto.
Qed.

Lemma split_head_other (d c : ascii) (s : string) :
  Ascii.eqb c d = false -> exists f fs, split d (String c s) = String c f :: fs.
Proof.
  intros H. simpl. rewrite H.
  destruct (split d s) as [|f fs]; eauto.
Qed.

Lemma parse_core_values (core : string) (build : Z) (t : Spec.tuple) :
  Spec.parse_core core build = Some t ->
  let nums := map parseInt (split "." core) in
  [at_index nums 0; at_index nums 1;
   match at_index nums 2 with Undefined => Num 0 | v => v end; number 1 build]
  = numbers_of t.
Proof.
  unfold Spec.parse_core.
  destruct (split "." core) as [|ma [|mi [|pa [|? ?]]]]; try discriminate.
  - destruct (Spec.segment ma) eqn:Ha; [|discriminate].
    destruct (Spec.segment mi) eqn:Hi; [|discriminate].
    intros [= <-]. cbv zeta. cbn [map at_index lookup list_lookup numbers_of].
    now rewrite (parseInt_segment _ _ Ha), (parseInt_segment _ _ Hi).
  - destruct (Spec.segment ma) eqn:Ha; [|discriminate].
    destruct (Spec.segment mi) eqn:Hi; [|discriminate].
    destruct (Spec.segment pa) eqn:Hp; [|discriminate].
    intros [= <-]. cbv zeta. cbn [map at_index lookup list_lookup numbers_of].
    rewrite (parseInt_segment _ _ Ha), (parseInt_segment _ _ Hi),
      (parseInt_segment _ _ Hp).
    now rewrite number_patch.
Qed.

(** On a version string the specification accepts, [parserVersion] returns
    the Number values of the four segments of its tuple. *)
Lemma parserVersion_numbers (ver : string) (t : Spec.tuple) :
  Spec.parse ver = Some t -> parserVersion ver = numbers_of t.
Proof.
  unfold Spec.parse, parserVersion.
  destruct (includes ver "-") eqn:Hi.
  - destruct (split_with _ _ Hi) as (core & b & rest & ->).
    destruct rest; [|discriminate].
    destruct (Spec.segment b) eqn:Hb; [|discriminate].
    intros H. rewrite (parseInt_segment _ _ Hb).
    exact (parse_core_values _ _ _ H).
  - rewrite (split_without _ _ Hi). intros H.
    exact (parse_core_values _ _ _ H).
Qed.

(** When the segments are safe integers these are the integers themselves. *)
Lemma parserVersion_valid (ver : string) (t : Spec.tuple) :
  Spec.parse ver = Some t -> Spec.safe t = true ->
  parserVersion ver = Spec.values_of t.
Proof.
  intros H Hs. rewrite (parserVersion_numbers _ _ H). now apply numbers_of_safe.
Qed.

Lemma compare_loop_values (x y : Spec.tuple) :
  compare_loop 4 0 (Spec.values_of x) (Spec.values_of y) = Spec.lex_gt x y.
Proof.
  destruct x as [[[a1 b1] c1] d1], y as [[[a2 b2] c2] d2].
  cbn -[Z.eqb Z.ltb].
  destruct (a1 =? a2); [|reflexivity].
  destruct (b1 =? b2); [|reflexivity].
  destruct (c1 =? c2); [|reflexivity].
  cbn. destruct (d1 =? d2) eqn:E; [|reflexivity].
  cbn. apply Z.eqb_eq in E. subst. symmetry. apply Z.ltb_irrefl.
Qed.

Lemma compareVersions_valid (a b : string) (ta tb : Spec.tuple) :
  Spec.parse a = Some ta -> Spec.parse b = Some tb ->
  Spec.safe ta = true -> Spec.safe tb = true ->
  compareVersions a b = Spec.lex_gt ta tb.
Proof.
  intros Ha Hb Sa Sb. unfold compareVersions.
  rewrite (parserVersion_valid _ _ Ha Sa), (parserVersion_valid _ _ Hb Sb).
  apply compare_loop_values.
Qed.

Lemma compare_loop_irrefl (n i : nat) (u : list value) :
  compare_loop n i u u = false.
Proof.
  revert i. induction n as [|n IH]; intros i; simpl; [reflexivity|].
  destruct (at_index u i) as [| |z|[]]; simpl; try apply IH; try reflexivity.
  rewrite Z.eqb_refl. simpl. apply IH.
Qed.

Lemma compare_loop_asym (n i : nat) (u a : list value) :
  compare_loop n i u a = true -> compare_loop n i a u = false.
Proof.
  revert i. induction n as [|n IH]; intros i; simpl; [discriminate|].
  destruct (at_index u i) as [| |x|[]], (at_index a i) as [| |y|[]]; simpl;
    try discriminate; try reflexivity; try (apply IH).
  rewrite (Z.eqb_sym y x).
  destruct (x =? y) eqn:E; simpl; [apply IH|].
  intros H. apply Z.ltb_lt in H. apply Z.ltb_ge. lia.
Qed.

Lemma compare_loop_trans (n i : nat) (x y z : list value) :
  compare_loop n i x y = true -> compare_loop n i y z = true ->
  compare_loop n i x z = true.
Proof.
  revert i. induction n as [|n IH]; intros i; simpl; [discriminate|].
  destruct (at_index x i) as [| |a|[]], (at_index y i) as [| |b|[]],
           (at_index z i) as [| |c|[]]; simpl;
    try discriminate; try reflexivity; try (apply IH).
  - destruct (a =? b) eqn:E1, (b =? c) eqn:E2; simpl.
    + apply Z.eqb_eq in E1, E2. subst. rewrite Z.eqb_refl. simpl. apply IH.
    + apply Z.eqb_eq in E1. subst. now rewrite E2.
    + apply Z.eqb_eq in E2. subst. now rewrite E1.
    + intros H1 H2. apply Z.ltb_lt in H1, H2.
      destruct (Z.eqb_spec a c); [lia|]. simpl. apply Z.ltb_lt. lia.
Qed.

(** Two tuples of numbers proper are ordered one way or the other unless
    they are the same tuple. *)
Lemma compare_loop_total (x1 x2 x3 x4 y1 y2 y3 y4 : value) :
  forallb is_number [x1; x2; x3; x4] = true ->
  forallb is_number [y1; y2; y3; y4] = true ->
  [x1; x2; x3; x4] <> [y1; y2; y3; y4] ->
  compare_loop 4 0 [x1; x2; x3; x4] [y1; y2; y3; y4]
  = negb (compare_loop 4 0 [y1; y2; y3; y4] [x1; x2; x3; x4]).
Proof.
  cbn [forallb]. intros Hx Hy Hne.
  apply andb_prop in Hx as [Hx1 Hx]. apply andb_prop in Hx as [Hx2 Hx].
  apply andb_prop in Hx as [Hx3 Hx]. apply andb_prop in Hx as [Hx4 _].
  apply andb_prop in Hy as [Hy1 Hy]. apply andb_prop in Hy as [Hy2 Hy].
  apply andb_prop in Hy as [Hy3 Hy]. apply andb_prop in Hy as [Hy4 _].
  destruct (strict_neq_numbers x1 y1 Hx1 Hy1) as (S1 & E1 & G1).
  destruct (strict_neq_numbers x2 y2 Hx2 Hy2) as (S2 & E2 & G2).
  destruct (strict_neq_numbers x3 y3 Hx3 Hy3) as (S3 & E3 & G3).
  destruct (strict_neq_numbers x4 y4 Hx4 Hy4) as (S4 & E4 & G4).
  cbn [compare_loop at_index lookup list_lookup].
  rewrite S1, S2, S3, S4.
  destruct (strict_neq x1 y1); [now apply G1|].
  destruct (strict_neq x2 y2); [now apply G2|].
  destruct (strict_neq x3 y3); [now apply G3|].
  destruct (strict_neq x4 y4); [now apply G4|].
  exfalso. apply Hne.
  now rewrite (E1 eq_refl), (E2 eq_refl), (E3 eq_refl), (E4 eq_refl).
Qed.

(** C4, as stated, fails: the segments are compared as the doubles
    [parseInt] returns, and two different integers beyond 2^53 can round to
    the same double; the candidate's tuple is then greater and the
    comparison false. *)
Lemma compareVersions_rounds_large_segments :
  Spec.parse "9007199254740993.0.0" = Some (9007199254740993, 0, 0, 0)
  /\ Spec.parse "9007199254740992.0.0" = Some (9007199254740992, 0, 0, 0)
  /\ Spec.lex_gt (9007199254740993, 0, 0, 0) (9007199254740992, 0, 0, 0) = true
  /\ parserVersion "9007199254740993.0.0" = [Num 9007199254740992; Num 0; Num 0; Num 0]
  /\ parserVersion "9007199254740992.0.0" = [Num 9007199254740992; Num 0; Num 0; Num 0]
  /\ compareVersions "9007199254740993.0.0" "9007199254740992.0.0" = false.
Proof. repeat split; vm_compute; reflexivity. Qed.

(** C4, amended. [compareVersions(candidate, baseline)] reads each version
    string as the tuple (major, minor, patch, build) -- patch 0 when omitted,
    build the optional [-<int>] suffix, 0 when omitted -- every segment as
    the double nearest to the integer written. When every segment is a safe
    integer (at most 2^53 - 1) these are the integers themselves, and the
    call returns true exactly when the candidate's tuple is strictly greater
    in the lexicographic order under numeric comparison of the segments. In
    particular [compare("1.2.3-4", "1.2.3-3")] is true and
    [compare("1.2.0", "1.10.0")] is false. *)
Theorem compareVersions_lexicographic
    (candidate baseline : string) (tc tb : Spec.tuple) :
  Spec.parse candidate = Some tc ->
  Spec.parse baseline = Some tb ->
  parserVersion candidate = numbers_of tc
  /\ parserVersion baseline = numbers_of tb
  /\ (Spec.safe tc = true -> Spec.safe tb = true ->
      parserVersion candidate = Spec.values_of tc
      /\ parserVersion baseline = Spec.values_of tb
      /\ compareVersions candidate baseline = Spec.lex_gt tc tb)
  /\ parserVersion "1.2" = [Num 1; Num 2; Num 0; Num 0]
  /\ parserVersion "1.2.3-4" = [Num 1; Num 2; Num 3; Num 4]
  /\ compareVersions "1.2.3-4" "1.2.3-3" = true
  /\ compareVersions "1.2.0" "1.10.0" = false.
Proof.
  intros Hc Hb. split; [|split; [|split]].
  - now apply parserVersion_numbers.
  - now apply parserVersion_numbers.
  - intros Sc Sb. split; [|split].
    + now apply parserVersion_valid.
    + now apply parserVersion_valid.
    + now apply compareVersions_valid.
  - repeat split; reflexivity.
Qed.

Lemma compareVersions_lexicographic_witness :
  Spec.parse "2.0.1" = Some (2, 0, 1, 0)
  /\ Spec.parse "1.9.7-12" = Some (1, 9, 7, 12)
  /\ Spec.safe (2, 0, 1, 0) = true
  /\ Spec.safe (1, 9, 7, 12) = true
  /\ compareVersions "2.0.1" "1.9.7-12" = Spec.lex_gt (2, 0, 1, 0) (1, 9, 7, 12).
Proof.
  split; [reflexivity|]. split; [reflexivity|].
  split; [reflexivity|]. split; [reflexivity|].
  exact (proj2 (proj2 (proj1 (proj2 (proj2
    (compareVersions_lexicographic "2.0.1" "1.9.7-12" (2, 0, 1, 0) (1, 9, 7, 12)
       eq_refl eq_refl))) eq_refl eq_refl))).
Defined.

(** C5, as stated, fails: two different valid strings can denote the same
    tuple, and then neither compares greater than the other; so can two
    different tuples whose segments beyond 2^53 are the same doubles. *)
Lemma compareVersions_not_total_on_strings :
  Spec.parse "1.2.3" = Some (1, 2, 3, 0)
  /\ Spec.parse "1.2.3-0" = Some (1, 2, 3, 0)
  /\ String.eqb "1.2.3" "1.2.3-0" = false
  /\ compareVersions "1.2.3" "1.2.3-0" = false
  /\ negb (compareVersions "1.2.3-0" "1.2.3") = true
  /\ Spec.parse "1.0.0-9007199254740993" = Some (1, 0, 0, 9007199254740993)
  /\ Spec.parse "1.0.0-9007199254740992" = Some (1, 0, 0, 9007199254740992)
  /\ compareVersions "1.0.0-9007199254740993" "1.0.0-9007199254740992" = false
  /\ negb (compareVersions "1.0.0-9007199254740992" "1.0.0-9007199254740993") = true.
Proof. repeat split; vm_compute; reflexivity. Qed.

(** C5, amended. For all valid version strings [a], [b], [c]:
    [compare(a,b) == !compare(b,a)] unless [a] and [b] denote the same tuple
    of numbers (in which case both comparisons are false), and the
    comparison is transitive. The numbers are the doubles the segments are
    read as: for safe integers (at most 2^53 - 1) the same tuple of numbers
    is the same tuple (major, minor, patch, build). *)
Theorem compareVersions_strict_order
    (a b c : string) (ta tb tc : Spec.tuple) :
  Spec.parse a = Some ta ->
  Spec.parse b = Some tb ->
  Spec.parse c = Some tc ->
  (parserVersion a <> parserVersion b ->
   compareVersions a b = negb (compareVersions b a))
  /\ (parserVersion a = parserVersion b ->
      compareVersions a b = false /\ compareVersions b a = false)
  /\ (Spec.safe ta = true -> Spec.safe tb = true ->
      (parserVersion a = parserVersion b <-> ta = tb))
  /\ (compareVersions a b = true -> compareVersions b c = true ->
      compareVersions a c = true).
Proof.
  intros Ha Hb Hc. unfold compareVersions. split; [|split; [|split]].
  - rewrite (parserVersion_numbers _ _ Ha), (parserVersion_numbers _ _ Hb).
    pose proof (numbers_of_are_numbers ta) as Na.
    pose proof (numbers_of_are_numbers tb) as Nb.
    destruct ta as [[[a1 b1] c1] d1], tb as [[[a2 b2] c2] d2].
    unfold numbers_of in *. now apply compare_loop_total.
  - intros ->. split; apply compare_loop_irrefl.
  - intros Sa Sb.
    rewrite (parserVersion_valid _ _ Ha Sa), (parserVersion_valid _ _ Hb Sb).
    destruct ta as [[[a1 b1] c1] d1], tb as [[[a2 b2] c2] d2].
    unfold Spec.values_of. split; [intros [= -> -> -> ->] | intros [= -> -> -> ->]];
      reflexivity.
  - apply compare_loop_trans.
Qed.

Lemma compareVersions_strict_order_witness :
  compareVersions "1.10.0" "1.2.0" = negb (compareVersions "1.2.0" "1.10.0")
  /\ (compareVersions "1.10.0" "1.2.0" = true ->
      compareVersions "1.2.0" "1.2" = true ->
      compareVersions "1.10.0" "1.2" = true).
Proof.
  pose proof (compareVersions_strict_order "1.10.0" "1.2.0" "1.2"
                (1, 10, 0, 0) (1, 2, 0, 0) (1, 2, 0, 0)
                eq_refl eq_refl eq_refl) as (Htot & _ & _ & Htrans).
  split; [apply Htot; discriminate | exact Htrans].
Defined.




Lemma parseInt_no_digit (c : ascii) (s : string) :
  is_digit c = false -> is_white_space c = false ->
  Ascii.eqb c "-" = false -> Ascii.eqb c "+" = false ->
  parseInt (String c s) = NaN.
Proof.
  intros Hd Hw Hm Hp. unfold parseInt. simpl trimStart. rewrite Hw.
  assert (Hbody : match String c s with
                  | String "-" r => (-1, r)
                  | String "+" r => (1, r)
                  | _ => (1, String c s)
                  end = (1, String c s)).
  { clear -Hm Hp.
    destruct c as [[] [] [] [] [] [] [] []]; try reflexivity; discriminate. }
  rewrite Hbody. simpl. now rewrite Hd.
Qed.

Lemma parserVersion_major_nan (c : ascii) (s : string) :
  is_digit c = false -> is_white_space c = false ->
  Ascii.eqb c "+" = false -> Ascii.eqb c "-" = false ->
  at_index (parserVersion (String c s)) 0 = NaN.
Proof.
  intros Hd Hw Hp Hm.
  assert (Hcore : forall (v : string) (build : value),
    (exists r, v = String c r) ->
    at_index
      (let nums := map parseInt (split "." v) in
       [at_index nums 0; at_index nums 1;
        match at_index nums 2 with Undefined => Num 0 | x => x end; build]) 0 = NaN).
  { intros v build [r ->]. cbv zeta.
    change (at_index (map parseInt (split "." (String c r))) 0 = NaN).
    destruct (Ascii.eqb c ".") eqn:Edot.
    - simpl. rewrite Edot. reflexivity.
    - destruct (split_head_other "." c r Edot) as (f & fs & ->).
      simpl. unfold at_index. simpl. now apply parseInt_no_digit. }
  unfold parserVersion.
  destruct (includes (String c s) "-") eqn:Hi; [|apply Hcore; eauto].
  destruct (split_head_other "-" c s Hm) as (f & fs & Hs). rewrite Hs.
  destruct fs as [|b rest]; apply Hcore; eauto.
Qed.











(** ** The staging protocol *)

Lemma world_eq (w1 w2 : world) :
  trace w1 = trace w2 -> files w1 = files w2 -> w1 = w2.
Proof. destruct w1, w2; simpl; now intros -> ->. Qed.

Lemma set_files_id (f : gmap string string -> gmap string string) (w : world) :
  f (files w) = files w -> set_files f w = w.
Proof. intros H. apply world_eq; [reflexivity | exact H]. Qed.

Lemma delete_absent (p : string) (w : world) :
  files w !! p = None -> set_files (delete p) w = w.
Proof.
  intros H. apply set_files_id, map_eq. intros q.
  rewrite lookup_delete. case_decide; congruence.
Qed.

(** One round of the clean-up loop deletes the file if it is there and
    never fails. *)
Lemma cleanup_cons (file : string) (rest : list string) (w : world) :
  cleanup (file :: rest) w = cleanup rest (set_files (delete file) w).
Proof.
  unfold cleanup at 1. simpl. unfold io_bind at 1. unfold io_bind at 1.
  unfold exists_, rmPromisify.
  destruct (files w !! file) as [c|] eqn:E.
  - rewrite bool_decide_eq_true_2 by eauto. rewrite E. reflexivity.
  - rewrite bool_decide_eq_false_2 by (intros [? ?]; congruence).
    unfold io_ret. now rewrite delete_absent.
Qed.

Lemma cleanup_three (a b c : string) (w : world) :
  cleanup [a; b; c] w
  = (set_files (delete c) (set_files (delete b) (set_files (delete a) w)), Ok tt).
Proof. now rewrite !cleanup_cons. Qed.

Lemma cleanup_three_lookup (a b c p : string) (w : world) :
  files (fst (cleanup [a; b; c] w)) !! p
  = if bool_decide (p = a \/ p = b \/ p = c) then None else files w !! p.
Proof.
  rewrite cleanup_three. simpl. rewrite !lookup_delete.
  repeat case_decide; try reflexivity; exfalso; intuition congruence.
Qed.

Lemma cleanup_three_idem (a b c : string) (w : world) :
  fst (cleanup [a; b; c] (fst (cleanup [a; b; c] w))) = fst (cleanup [a; b; c] w).
Proof.
  apply world_eq.
  - now rewrite !cleanup_three.
  - apply map_eq. intros p. rewrite !cleanup_three_lookup.
    now case_bool_decide.
Qed.

Lemma io_bind_cleanup {B : Type} (a b c : string) (k : unit -> io B) (w : world) :
  io_bind (cleanup [a; b; c]) k w = k tt (fst (cleanup [a; b; c] w)).
Proof. unfold io_bind. now rewrite cleanup_three. Qed.

(** C2. [download] begins by deleting every pre-existing swap, next and
    version artifact, before the network stream is opened: the clean-up
    never fails, afterwards none of the three is on disk and every other
    file is untouched; a request that is rejected leaves exactly this
    cleaned state behind; and the whole run is the run from the cleaned
    state, so nothing staged earlier survives into it. *)
Theorem download_begins_with_cleanup `{R : Runtime}
    (net : network) (this : AsarUpdater) (asarInfo : AsarInfoResponse) (w : world) :
  let staging := [asarNextPath this; asarSwapPath this; asarVersionPath this] in
  let w1 := fst (cleanup staging w) in
  snd (cleanup staging w) = Ok tt
  /\ files w1 !! asarSwapPath this = None
  /\ files w1 !! asarNextPath this = None
  /\ files w1 !! asarVersionPath this = None
  /\ (forall p : string, ~ In p staging -> files w1 !! p = files w !! p)
  /\ (forall e : error,
        http_get_stream net (download_url asarInfo) = Throw e ->
        download net this asarInfo w = (w1, Throw e))
  /\ download net this asarInfo w = download net this asarInfo w1.
Proof.
  intros staging w1. subst staging w1.
  split; [now rewrite cleanup_three|].
  split; [rewrite cleanup_three_lookup; rewrite bool_decide_eq_true_2; auto|].
  split; [rewrite cleanup_three_lookup; rewrite bool_decide_eq_true_2; auto|].
  split; [rewrite cleanup_three_lookup; rewrite bool_decide_eq_true_2; auto|].
  split.
  { intros p Hp. rewrite cleanup_three_lookup.
    rewrite bool_decide_eq_false_2; [reflexivity|].
    intros Hin. apply Hp. destruct Hin as [-> | [-> | ->]]; simpl; auto. }
  split.
  { intros e He. unfold download. unfold io_bind at 1.
    rewrite cleanup_three. simpl fst.
    unfold io_bind at 1. unfold io_lift. now rewrite He. }
  unfold download. now rewrite !io_bind_cleanup, cleanup_three_idem.
Qed.

Lemma download_begins_with_cleanup_witness :
  let net := {| http_get_json := fun url => Throw (FetchError url);
                http_get_stream := fun url => Throw (FetchError url) |} in
  let asarInfo := {| version := "1.1.0"; download_url := "https://h/pkg/app.asar";
                     description := None; checksum := None |} in
  let w := Sample.world_of [("/opt/app/resources/next.asar", "old");
                            ("/opt/app/resources/app.asar", "live")] in
  snd (@download Sample.linux net Sample.updater asarInfo w)
    = Throw (FetchError "https://h/pkg/app.asar")
  /\ files (fst (@download Sample.linux net Sample.updater asarInfo w))
       !! "/opt/app/resources/next.asar" = None.
Proof.
  intros net asarInfo w.
  destruct (@download_begins_with_cleanup Sample.linux net Sample.updater asarInfo w)
    as (_ & _ & Hnext & _ & _ & Hreject & _).
  rewrite (Hreject (FetchError "https://h/pkg/app.asar") eq_refl).
  split; [reflexivity | exact Hnext].
Defined.

(** Whatever the stages, [pipe] leaves the swap file with the bytes that
    reached the write stream and touches nothing else. *)
Lemma pipe_outcome `{R : Runtime}
    (this : AsarUpdater) (asarInfo : AsarInfoResponse) (s : Stream) (w : world) :
  exists (out : string) (r : result (option string)),
    pipe s (outputStreams this asarInfo) w
    = (set_files (<[asarSwapPath this := out]>) w, r).
Proof.
  unfold pipe, outputStreams.
  destruct (checksum asarInfo) as [c|]; [destruct (truthy c)|];
    destruct (endsWith (download_url asarInfo) ".gz"
              || endsWith (download_url asarInfo) ".gzip");
    simpl; try destruct (gunzip (received s)) as [o g]; simpl;
    destruct (ended s); simpl; try destruct g; simpl;
    try destruct (gunzip_error_first (received s)); simpl; eauto.
Qed.

(** The three ways a run of [download] can end: rejected request (the
    cleaned state), failure while piping or verifying (the cleaned state
    plus a swap file), or commit. *)
Lemma download_cases `{R : Runtime}
    (net : network) (this : AsarUpdater) (asarInfo : AsarInfoResponse) (w : world) :
  let w1 := fst (cleanup [asarNextPath this; asarSwapPath this; asarVersionPath this] w) in
  (exists e, download net this asarInfo w = (w1, Throw e))
  \/ (exists out e,
        download net this asarInfo w
        = (set_files (<[asarSwapPath this := out]>) w1, Throw e))
  \/ (exists out,
        download net this asarInfo w
        = (set_files (<[asarVersionPath this := JSON_stringify asarInfo]>)
             (set_files (fun m => <[asarNextPath this := out]> (delete (asarSwapPath this) m))
                (set_files (<[asarSwapPath this := out]>) w1)),
           Ok true)).
Proof.
  intros w1.
  destruct (download net this asarInfo w) as [wf res] eqn:Hd.
  unfold download in Hd. rewrite io_bind_cleanup in Hd. fold w1 in Hd.
  unfold io_bind at 1 in Hd. unfold io_lift in Hd.
  destruct (http_get_stream net (download_url asarInfo)) as [s|e].
  2: { injection Hd as <- <-. left; eauto. }
  right. unfold io_bind at 1 in Hd.
  destruct (pipe_outcome this asarInfo s w1) as (out & r & Hp).
  rewrite Hp in Hd.
  destruct r as [hash|e].
  2: { injection Hd as <- <-. left; eauto. }
  unfold io_bind at 1 in Hd. unfold verify in Hd.
  assert (Hcommit :
    (renamePromisify (asarSwapPath this) (asarNextPath this) ;;
     writeFilePromisify (asarVersionPath this) (JSON_stringify asarInfo) ;;
     io_ret true) (set_files (<[asarSwapPath this := out]>) w1)
    = (set_files (<[asarVersionPath this := JSON_stringify asarInfo]>)
         (set_files (fun m => <[asarNextPath this := out]> (delete (asarSwapPath this) m))
            (set_files (<[asarSwapPath this := out]>) w1)),
       Ok true)).
  { unfold io_bind, renamePromisify. simpl files.
    rewrite lookup_insert_eq. reflexivity. }
  destruct (checksum asarInfo) as [c|].
  - destruct (truthy c).
    + case_bool_decide.
      * unfold io_ret at 1 in Hd. cbv beta iota in Hd. rewrite Hcommit in Hd.
        injection Hd as <- <-. right; eauto.
      * unfold io_throw in Hd. injection Hd as <- <-. left; eauto.
    + unfold io_ret at 1 in Hd. cbv beta iota in Hd. rewrite Hcommit in Hd.
      injection Hd as <- <-. right; eauto.
  - unfold io_ret at 1 in Hd. cbv beta iota in Hd. rewrite Hcommit in Hd.
    injection Hd as <- <-. right; eauto.
Qed.

Lemma hasUpgraded_without_next `{R : Runtime} (this : AsarUpdater) (w : world) :
  files w !! asarNextPath this = None -> hasUpgraded this w = (w, Ok None).
Proof.
  intros H. unfold hasUpgraded, io_bind, exists_. rewrite H.
  rewrite bool_decide_eq_false_2 by (intros [? ?]; congruence). reflexivity.
Qed.

(** C1, as stated, fails: a failed run does change what [hasUpgraded]
    reports when an update was staged before, because the clean-up step has
    already discarded it. Here the stream breaks mid-transfer (and, in a
    second run, the checksum does not match). *)
Lemma download_failure_discards_staged :
  let staged := {| version := "1.1.0"; download_url := "https://h/pkg/app.asar";
                   description := None; checksum := None |} in
  let w := Sample.world_of
             [("/opt/app/resources/next.asar", "bundle 1.1.0");
              ("/opt/app/resources/version.json", Sample.print_lines staged);
              ("/opt/app/resources/app.asar", "bundle 1.0.0")] in
  let broken := {| http_get_json := fun url => Throw (FetchError url);
                   http_get_stream := fun _ => Ok {| received := "bund"; ended := false |} |} in
  let complete := {| http_get_json := fun url => Throw (FetchError url);
                     http_get_stream := fun _ => Ok {| received := "bundle 1.2.0"; ended := true |} |} in
  let asarInfo := {| version := "1.2.0"; download_url := "https://h/pkg/app.asar";
                     description := None;
                     checksum := Some "00000000000000000000000000000000" |} in
  snd (@hasUpgraded Sample.linux Sample.updater w) = Ok (Some staged)
  /\ snd (@download Sample.linux broken Sample.updater asarInfo w) = Throw TransportError
  /\ snd (@hasUpgraded Sample.linux Sample.updater
            (fst (@download Sample.linux broken Sample.updater asarInfo w))) = Ok None
  /\ snd (@download Sample.linux complete Sample.updater asarInfo w)
     = Throw (ChecksumError "00000000000000000000000000000000"
                (Some "00000000000000000000000000000089"))
  /\ snd (@hasUpgraded Sample.linux Sample.updater
            (fst (@download Sample.linux complete Sample.updater asarInfo w))) = Ok None.
Proof. vm_compute. repeat split; reflexivity. Qed.

(** C1, amended. Whenever [download] fails -- the request is rejected, the
    stream breaks, decompression fails or the checksum does not match -- no
    next/version pair exists afterwards: neither file is on disk and
    [hasUpgraded] reports false. That is the state before the call only when
    nothing was staged then; an earlier staged update has been discarded by
    the clean-up step. Only a run that completes every step commits the
    pair: it returns true with the next file and the serialized descriptor
    in place and no swap file left. *)
Theorem download_failure_stages_nothing `{R : Runtime}
    (net : network) (this : AsarUpdater) (asarInfo : AsarInfoResponse) (w : world) :
  asarSwapPath this <> asarNextPath this ->
  asarSwapPath this <> asarVersionPath this ->
  asarNextPath this <> asarVersionPath this ->
  let w' := fst (download net this asarInfo w) in
  match snd (download net this asarInfo w) with
  | Throw _ =>
      files w' !! asarNextPath this = None
      /\ files w' !! asarVersionPath this = None
      /\ hasUpgraded this w' = (w', Ok None)
      /\ (hasUpgraded this w = (w, Ok None) ->
          snd (hasUpgraded this w') = snd (hasUpgraded this w))
  | Ok committed =>
      committed = true
      /\ is_Some (files w' !! asarNextPath this)
      /\ files w' !! asarVersionPath this = Some (JSON_stringify asarInfo)
      /\ files w' !! asarSwapPath this = None
  end.
Proof.
  intros Hsn Hsv Hnv w'. subst w'.
  pose proof (cleanup_three_lookup (asarNextPath this) (asarSwapPath this)
                (asarVersionPath this)) as Hclean.
  assert (Hn : files (fst (cleanup [asarNextPath this; asarSwapPath this;
                                    asarVersionPath this] w))
               !! asarNextPath this = None).
  { rewrite Hclean. rewrite bool_decide_eq_true_2; auto. }
  assert (Hv : files (fst (cleanup [asarNextPath this; asarSwapPath this;
                                    asarVersionPath this] w))
               !! asarVersionPath this = None).
  { rewrite Hclean. rewrite bool_decide_eq_true_2; auto. }
  destruct (download_cases net this asarInfo w)
    as [[e ->] | [(out & e & ->) | [out ->]]]; simpl fst; simpl snd.
  - repeat split; auto.
    + now apply hasUpgraded_without_next.
    + intros ->. now rewrite hasUpgraded_without_next.
  - assert (Hn' : files (set_files (<[asarSwapPath this := out]>)
                           (fst (cleanup [asarNextPath this; asarSwapPath this;
                                          asarVersionPath this] w)))
                  !! asarNextPath this = None).
    { simpl. now rewrite lookup_insert_ne. }
    repeat split; auto.
    + simpl. now rewrite lookup_insert_ne.
    + now apply hasUpgraded_without_next.
    + intros ->. now rewrite hasUpgraded_without_next.
  - simpl. repeat split.
    + rewrite lookup_insert_ne by congruence. rewrite lookup_insert_eq. eauto.
    + now rewrite lookup_insert_eq.
    + rewrite lookup_insert_ne by congruence.
      rewrite lookup_insert_ne by congruence.
      now rewrite lookup_delete_eq.
Qed.

Lemma download_failure_stages_nothing_witness :
  let net := {| http_get_json := fun url => Throw (FetchError url);
                http_get_stream := fun _ => Ok {| received := "bund"; ended := false |} |} in
  let asarInfo := {| version := "1.2.0"; download_url := "https://h/pkg/app.asar";
                     description := None; checksum := None |} in
  let w := Sample.world_of [("/opt/app/resources/app.asar", "bundle 1.0.0")] in
  let w' := fst (@download Sample.linux net Sample.updater asarInfo w) in
  snd (@download Sample.linux net Sample.updater asarInfo w) = Throw TransportError
  /\ files w' !! "/opt/app/resources/next.asar" = None
  /\ files w' !! "/opt/app/resources/version.json" = None.
Proof.
  intros net asarInfo w w'.
  pose proof (@download_failure_stages_nothing Sample.linux net Sample.updater asarInfo w
                ltac:(discriminate) ltac:(discriminate) ltac:(discriminate)) as H.
  cbv zeta in H. fold w' in H.
  assert (Hr : snd (@download Sample.linux net Sample.updater asarInfo w)
               = Throw TransportError) by (vm_compute; reflexivity).
  rewrite Hr in H. destruct H as (Hn & Hv & _).
  split; [exact Hr|]. split; [exact Hn | exact Hv].
Defined.

(** C10. With a checksum supplied and a download URL ending in [.gz] or
    [.gzip], the hash stage is piped before the gunzip stage: the digest
    compared with the checksum is the digest of the compressed bytes as
    downloaded, while the swap file (and, on success, the next file) receives
    the decompressed bytes. The algorithm is MD5 exactly when the checksum
    string has 32 characters and SHA-256 for every other length. *)
Theorem checksum_covers_compressed_bytes `{R : Runtime}
    (net : network) (this : AsarUpdater) (asarInfo : AsarInfoResponse)
    (w : world) (c : string) (s : Stream) :
  asarSwapPath this <> asarNextPath this ->
  asarNextPath this <> asarVersionPath this ->
  checksum asarInfo = Some c ->
  truthy c = true ->
  endsWith (download_url asarInfo) ".gz" || endsWith (download_url asarInfo) ".gzip" = true ->
  http_get_stream net (download_url asarInfo) = Ok s ->
  ended s = true ->
  snd (gunzip (received s)) = true ->
  let alg := if (String.length c =? 32)%nat then md5 else sha256 in
  let compressed_digest := toLowerCase (createHash alg (received s)) in
  let w' := fst (download net this asarInfo w) in
  outputStreams this asarInfo = [HashTransform alg; Gunzip; WriteStream (asarSwapPath this)]
  /\ (alg = md5 <-> String.length c = 32%nat)
  /\ (alg = sha256 <-> String.length c <> 32%nat)
  /\ (compressed_digest = toLowerCase c ->
      snd (download net this asarInfo w) = Ok true
      /\ files w' !! asarNextPath this = Some (fst (gunzip (received s))))
  /\ (compressed_digest <> toLowerCase c ->
      snd (download net this asarInfo w) = Throw (ChecksumError c (Some compressed_digest))
      /\ files w' !! asarSwapPath this = Some (fst (gunzip (received s)))
      /\ files w' !! asarNextPath this = None).
Proof.
  intros Hsn Hnv Hc Ht Hgz Hs He Hg alg digest w'.
  assert (Hout : outputStreams this asarInfo
                 = [HashTransform alg; Gunzip; WriteStream (asarSwapPath this)]).
  { unfold outputStreams. now rewrite Hc, Ht, Hgz. }
  split; [exact Hout|]. split.
  { subst alg. destruct (Nat.eqb_spec (String.length c) 32); split;
      intros; congruence. }
  split.
  { subst alg. destruct (Nat.eqb_spec (String.length c) 32); split;
      intros; congruence. }
  assert (Hpipe : forall w0,
    pipe s (outputStreams this asarInfo) w0
    = (set_files (<[asarSwapPath this := fst (gunzip (received s))]>) w0,
       Ok (Some digest))).
  { intros w0. rewrite Hout. unfold pipe. simpl. rewrite He. simpl.
    destruct (gunzip (received s)) as [o g]. simpl in *. now rewrite Hg. }
  assert (Hn : files (fst (cleanup [asarNextPath this; asarSwapPath this;
                                    asarVersionPath this] w))
               !! asarNextPath this = None).
  { rewrite cleanup_three_lookup. rewrite bool_decide_eq_true_2; auto. }
  assert (Hd : download net this asarInfo w
    = (verify asarInfo (Some digest) ;;
       renamePromisify (asarSwapPath this) (asarNextPath this) ;;
       writeFilePromisify (asarVersionPath this) (JSON_stringify asarInfo) ;;
       io_ret true)
        (set_files (<[asarSwapPath this := fst (gunzip (received s))]>)
           (fst (cleanup [asarNextPath this; asarSwapPath this;
                          asarVersionPath this] w)))).
  { unfold download. rewrite io_bind_cleanup.
    unfold io_bind at 1. unfold io_lift. rewrite Hs.
    unfold io_bind at 1. now rewrite Hpipe. }
  subst w'. rewrite Hd. unfold verify. rewrite Hc, Ht.
  split.
  - intros Heq. rewrite bool_decide_eq_true_2 by congruence.
    unfold io_bind, io_ret, renamePromisify, writeFilePromisify. simpl files.
    rewrite lookup_insert_eq. simpl. split; [reflexivity|].
    rewrite lookup_insert_ne by congruence. now rewrite lookup_insert_eq.
  - intros Hne. rewrite bool_decide_eq_false_2 by congruence.
    unfold io_bind, io_throw. simpl. split; [reflexivity|].
    rewrite lookup_insert_eq. split; [reflexivity|].
    now rewrite lookup_insert_ne.
Qed.

Lemma checksum_covers_compressed_bytes_witness :
  let s := {| received := "gz:bundle 1.2.0"; ended := true |} in
  let net := {| http_get_json := fun url => Throw (FetchError url);
                http_get_stream := fun _ => Ok s |} in
  let asarInfo := {| version := "1.2.0"; download_url := "https://h/pkg/app.asar.gz";
                     description := None;
                     checksum := Some "000000000000000000000000000000A4" |} in
  let w := Sample.world_of [("/opt/app/resources/app.asar", "bundle 1.0.0")] in
  Sample.digest_of md5 "gz:bundle 1.2.0" = "000000000000000000000000000000a4"
  /\ snd (@download Sample.linux net Sample.updater asarInfo w) = Ok true
  /\ files (fst (@download Sample.linux net Sample.updater asarInfo w))
       !! "/opt/app/resources/next.asar" = Some "bundle 1.2.0".
Proof.
  intros s net asarInfo w.
  destruct (@checksum_covers_compressed_bytes Sample.linux net Sample.updater asarInfo w
              "000000000000000000000000000000A4" s
              ltac:(discriminate) ltac:(discriminate)
              eq_refl eq_refl eq_refl eq_refl eq_refl eq_refl)
    as (_ & _ & _ & Hok & _).
  split; [vm_compute; reflexivity|].
  apply Hok. vm_compute. reflexivity.
Defined.

(** ** Replacement *)

(** On a direct-rename platform [upgrade] with no next file deletes the
    target and then fails in [rename]. *)
Lemma upgrade_needs_next `{R : Runtime}
    (this : AsarUpdater) (relaunch : bool) (w : world) :
  String.eqb platform "win32" = false ->
  asarNextPath this <> asarTargetPath this ->
  files w !! asarNextPath this = None ->
  upgrade this relaunch w
  = (set_files (delete (asarTargetPath this)) w, Throw (ENOENT (asarNextPath this))).
Proof.
  intros Hp Hne Hn. unfold upgrade. rewrite Hp.
  unfold io_bind, rmPromisify, renamePromisify.
  destruct (files w !! asarTargetPath this) as [t|] eqn:Et.
  - simpl files. rewrite lookup_delete_ne by congruence. now rewrite Hn.
  - rewrite Hn. now rewrite delete_absent.
Qed.

(** The first revision looked for the staged bundle itself: with no next
    file its [upgrade] does nothing. *)
Lemma original_upgrade_without_next `{R : Runtime}
    (appPathFolder asarTmpPath asarTargetPath resourcePath : string)
    (relaunch exit : bool) (w : world) :
  files w !! asarTmpPath = None ->
  Original.upgrade appPathFolder asarTmpPath asarTargetPath resourcePath relaunch exit w
  = (w, Ok tt).
Proof.
  intros Hn. unfold Original.upgrade, io_bind, exists_. rewrite Hn.
  rewrite bool_decide_eq_false_2 by (intros [? ?]; congruence). reflexivity.
Qed.

(** C3 fails on the code: with no staged update, [upgrade] of the current
    revision is not a no-op. On a direct-rename platform it deletes the live
    target bundle and then rejects with the error of the failed rename; on
    win32 it writes the helper script and spawns it. The first revision of
    the same method, run on the same state, returns without touching
    anything. *)
Theorem upgrade_without_staged_update_removes_target :
  let w := Sample.world_of [("/opt/app/resources/app.asar", "bundle 1.0.0")] in
  let direct := @upgrade Sample.linux Sample.updater false w in
  let scripted := @upgrade Sample.win32 Sample.updater false w in
  files w !! asarNextPath Sample.updater = None
  /\ files w !! asarTargetPath Sample.updater = Some "bundle 1.0.0"
  /\ snd direct = Throw (ENOENT "/opt/app/resources/next.asar")
  /\ files (fst direct) !! asarTargetPath Sample.updater = None
  /\ snd scripted = Ok tt
  /\ is_Some (files (fst scripted) !! "resources/updater.vbs")
  /\ trace (fst scripted)
     = [Spawn "cmd" ["/s"; "/c"; "wscript";
                     dq ++ "resources/updater.vbs" ++ dq; dq ++ "0" ++ dq]]
  /\ @Original.upgrade Sample.linux "/opt/app/resources"
       "/opt/app/resources/next.asar" "/opt/app/resources/app.asar" "resources"
       true true w = (w, Ok tt).
Proof.
  intros w direct scripted.
  split; [vm_compute; reflexivity|]. split; [vm_compute; reflexivity|].
  split; [vm_compute; reflexivity|]. split; [vm_compute; reflexivity|].
  split; [vm_compute; reflexivity|]. split; [vm_compute; eauto|].
  split; [vm_compute; reflexivity|].
  now apply original_upgrade_without_next.
Qed.

(** C9, as stated, fails: after [upgrade] the next file is gone, but the
    version metadata file is still on disk. *)
Lemma upgrade_keeps_version_file :
  let staged := {| version := "1.1.0"; download_url := "https://h/pkg/app.asar";
                   description := None; checksum := None |} in
  let w := Sample.world_of
             [("/opt/app/resources/next.asar", "bundle 1.1.0");
              ("/opt/app/resources/version.json", Sample.print_lines staged);
              ("/opt/app/resources/app.asar", "bundle 1.0.0")] in
  let w' := fst (@upgrade Sample.linux Sample.updater false w) in
  snd (@hasUpgraded Sample.linux Sample.updater w) = Ok (Some staged)
  /\ snd (@upgrade Sample.linux Sample.updater false w) = Ok tt
  /\ files w' !! asarTargetPath Sample.updater = Some "bundle 1.1.0"
  /\ files w' !! asarNextPath Sample.updater = None
  /\ files w' !! asarVersionPath Sample.updater = Some (Sample.print_lines staged).
Proof. vm_compute. repeat split; reflexivity. Qed.

(** C9, amended. After [upgrade] completes on a direct-rename (non-win32)
    platform starting from a staged state, the target file's content equals
    the content of the previously staged next file and the next file is no
    longer on disk; the version metadata file remains, unchanged, as does
    every other file, and [hasUpgraded] reports false. *)
Theorem upgrade_direct_rename `{R : Runtime}
    (this : AsarUpdater) (relaunch : bool) (w : world) (bundle metadata : string) :
  String.eqb platform "win32" = false ->
  asarNextPath this <> asarTargetPath this ->
  asarVersionPath this <> asarTargetPath this ->
  asarVersionPath this <> asarNextPath this ->
  files w !! asarNextPath this = Some bundle ->
  files w !! asarVersionPath this = Some metadata ->
  let w' := fst (upgrade this relaunch w) in
  snd (upgrade this relaunch w) = Ok tt
  /\ files w' !! asarTargetPath this = Some bundle
  /\ files w' !! asarNextPath this = None
  /\ files w' !! asarVersionPath this = Some metadata
  /\ (forall p : string,
        p <> asarTargetPath this -> p <> asarNextPath this ->
        files w' !! p = files w !! p)
  /\ trace w' = trace w
  /\ hasUpgraded this w' = (w', Ok None).
Proof.
  intros Hp Hnt Hvt Hvn Hn Hv w'.
  assert (Hu : upgrade this relaunch w
               = (set_files (fun m => <[asarTargetPath this := bundle]>
                                        (delete (asarNextPath this) m))
                    (set_files (delete (asarTargetPath this)) w), Ok tt)).
  { unfold upgrade. rewrite Hp. unfold io_bind, rmPromisify, renamePromisify.
    destruct (files w !! asarTargetPath this) as [t|] eqn:Et.
    - simpl files. rewrite lookup_delete_ne by congruence. now rewrite Hn.
    - rewrite Hn. now rewrite delete_absent. }
  subst w'. rewrite Hu. simpl fst. simpl snd.
  assert (Hnext : files (set_files (fun m => <[asarTargetPath this := bundle]>
                                               (delete (asarNextPath this) m))
                           (set_files (delete (asarTargetPath this)) w))
                  !! asarNextPath this = None).
  { simpl. rewrite lookup_insert_ne by congruence. now rewrite lookup_delete_eq. }
  split; [reflexivity|]. split; [simpl; now rewrite lookup_insert_eq|].
  split; [exact Hnext|]. split.
  { simpl. rewrite lookup_insert_ne by congruence.
    rewrite !lookup_delete_ne by congruence. exact Hv. }
  split.
  { intros p Hpt Hpn. simpl. rewrite lookup_insert_ne by congruence.
    now rewrite !lookup_delete_ne by congruence. }
  split; [reflexivity|].
  now apply hasUpgraded_without_next.
Qed.

Lemma upgrade_direct_rename_witness :
  let w := Sample.world_of
             [("/opt/app/resources/next.asar", "bundle 1.1.0");
              ("/opt/app/resources/version.json", "metadata");
              ("/opt/app/resources/app.asar", "bundle 1.0.0")] in
  let w' := fst (@upgrade Sample.linux Sample.updater true w) in
  snd (@upgrade Sample.linux Sample.updater true w) = Ok tt
  /\ files w' !! "/opt/app/resources/app.asar" = Some "bundle 1.1.0"
  /\ files w' !! "/opt/app/resources/next.asar" = None
  /\ files w' !! "/opt/app/resources/version.json" = Some "metadata".
Proof.
  intros w w'.
  destruct (@upgrade_direct_rename Sample.linux Sample.updater true w
              "bundle 1.1.0" "metadata" eq_refl
              ltac:(discriminate) ltac:(discriminate) ltac:(discriminate)
              eq_refl eq_refl)
    as (Hr & Ht & Hn & Hv & _).
  repeat split; assumption.
Defined.

(** ** Checking for an update *)

Lemma check_without_record `{R : Runtime}
    (net : network) (this : AsarUpdater) (curentVersion : string) (w : world)
    (data : AsarInfoResponse) :
  http_get_json net (checkVersionUrl this) = Ok data ->
  files w !! asarVersionPath this = None ->
  check net this curentVersion w
  = (w, Ok (compareVersions (version data) curentVersion,
            with_download_url data (downloadUrl_of this data))).
Proof.
  intros Hj Hv. unfold check, io_bind, io_lift, exists_. rewrite Hj, Hv.
  rewrite bool_decide_eq_false_2 by (intros [? ?]; congruence). reflexivity.
Qed.

Lemma check_with_record `{R : Runtime}
    (net : network) (this : AsarUpdater) (curentVersion : string) (w : world)
    (data nextUpdaterInfo : AsarInfoResponse) (text : string) :
  http_get_json net (checkVersionUrl this) = Ok data ->
  files w !! asarVersionPath this = Some text ->
  JSON_parse text = Some nextUpdaterInfo ->
  check net this curentVersion w
  = (w, Ok (if truthy_opt (checksum nextUpdaterInfo)
               && strict_eq_opt (checksum nextUpdaterInfo) (checksum data)
            then false
            else compareVersions (version data) curentVersion,
            with_download_url data (downloadUrl_of this data))).
Proof.
  intros Hj Hv Hp. unfold check, io_bind, io_lift, exists_, readFilePromisify.
  rewrite Hj, Hv. rewrite bool_decide_eq_true_2 by eauto.
  cbv beta iota. rewrite Hv. cbv beta iota. rewrite Hp.
  now destruct (truthy_opt (checksum nextUpdaterInfo)
                && strict_eq_opt (checksum nextUpdaterInfo) (checksum data)).
Qed.

Lemma lastIndexOf_from_absent (s : string) (c : ascii) (i found : Z) :
  includes s c = false -> lastIndexOf_from i found s c = found.
Proof.
  revert i found. induction s as [|a s IH]; intros i found; simpl; [reflexivity|].
  destruct (Ascii.eqb a c); [discriminate|]. apply IH.
Qed.

Lemma lastIndexOf_from_app (a b : string) (c : ascii) (i found : Z) :
  lastIndexOf_from i found (a ++ b) c
  = lastIndexOf_from (i + Z.of_nat (String.length a)) (lastIndexOf_from i found a c) b c.
Proof.
  revert i found. induction a as [|x a IH]; intros i found; simpl String.length.
  - simpl. now rewrite Z.add_0_r.
  - simpl. rewrite IH. f_equal. lia.
Qed.

Lemma keep_app (a b : string) : keep (String.length a) (a ++ b) = a.
Proof. induction a as [|x a IH]; simpl; [now destruct b | now rewrite IH]. Qed.

Lemma length_append (a b : string) :
  String.length (a ++ b) = (String.length a + String.length b)%nat.
Proof. induction a as [|x a IH]; simpl; [reflexivity | now rewrite IH]. Qed.

(** The directory of a URL: everything before its last slash. *)
Lemma slice_to_last_slash (dir leaf : string) :
  includes leaf "/" = false ->
  slice (dir ++ "/" ++ leaf) 0 (lastIndexOf (dir ++ "/" ++ leaf) "/") = dir.
Proof.
  intros Hleaf. unfold lastIndexOf. rewrite lastIndexOf_from_app.
  simpl (lastIndexOf_from _ _ ("/" ++ leaf) _).
  rewrite lastIndexOf_from_absent by exact Hleaf.
  unfold slice, clamp.
  assert (Hlen : (String.length dir <= String.length (dir ++ "/" ++ leaf))%nat).
  { rewrite length_append. lia. }
  replace (0 <? 0) with false by reflexivity.
  destruct (0 + Z.of_nat (String.length dir) <? 0) eqn:E;
    [apply Z.ltb_lt in E; lia|].
  rewrite Z.min_l by lia. rewrite Z.min_l by lia.
  rewrite Z.sub_0_r. simpl (Z.to_nat 0). simpl skip.
  rewrite Z.add_0_l, Nat2Z.id. apply keep_app.
Qed.

Lemma new_AsarUpdater_fields `{R : Runtime}
    (options : AsarUpdaterOptions) (this : AsarUpdater) :
  new_AsarUpdater options = Ok this ->
  checkVersionUrl this = version_url options
  /\ URL_origin (version_url options) = Some (downloadHost this).
Proof.
  unfold new_AsarUpdater.
  destruct (URL_origin (version_url options)) as [origin|]; [|discriminate].
  intros [= <-]. simpl. auto.
Qed.

(** C7. [check] resolves the descriptor's [download_url] by cases: a URL
    beginning with [http://] or [https://] is used as it is; a URL with a
    leading slash is appended to the origin of the check URL; every other URL
    is appended to the directory of the check URL, that is the check URL cut
    after its last slash. With the check URL [https://h/api/check],
    [/pkg/app.asar] resolves to [https://h/pkg/app.asar] and [app.asar.gz]
    to [https://h/api/app.asar.gz]. *)
Theorem check_resolves_download_url `{R : Runtime}
    (net : network) (options : AsarUpdaterOptions) (this : AsarUpdater)
    (curentVersion : string) (w : world) (data : AsarInfoResponse) :
  new_AsarUpdater options = Ok this ->
  http_get_json net (version_url options) = Ok data ->
  (files w !! asarVersionPath this = None
   \/ exists text info,
        files w !! asarVersionPath this = Some text /\ JSON_parse text = Some info) ->
  let u := download_url data in
  (exists (available : bool) (resolved origin : string),
      check net this curentVersion w = (w, Ok (available, with_download_url data resolved))
      /\ URL_origin (version_url options) = Some origin
      /\ (startsWith u "http://" = true \/ startsWith u "https://" = true ->
          resolved = u)
      /\ (startsWith u "http://" = false -> startsWith u "https://" = false ->
          startsWith u "/" = true ->
          resolved = origin ++ u)
      /\ (startsWith u "http://" = false -> startsWith u "https://" = false ->
          startsWith u "/" = false ->
          forall dir leaf : string,
            version_url options = dir ++ "/" ++ leaf -> includes leaf "/" = false ->
            resolved = dir ++ "/" ++ u))
  /\ @new_AsarUpdater Sample.linux Sample.options = Ok Sample.updater
  /\ snd (@check Sample.linux (Sample.serving (Sample.descriptor "/pkg/app.asar" None))
            Sample.updater "1.0.0" (Sample.world_of []))
     = Ok (true, Sample.descriptor "https://h/pkg/app.asar" None)
  /\ snd (@check Sample.linux (Sample.serving (Sample.descriptor "app.asar.gz" None))
            Sample.updater "1.0.0" (Sample.world_of []))
     = Ok (true, Sample.descriptor "https://h/api/app.asar.gz" None).
Proof.
  intros Hnew Hj Hrec u.
  destruct (new_AsarUpdater_fields _ _ Hnew) as [Hurl Horigin].
  rewrite <- Hurl in Hj.
  split; [|repeat split; vm_compute; reflexivity].
  assert (Hcheck : exists available,
    check net this curentVersion w
    = (w, Ok (available, with_download_url data (downloadUrl_of this data)))).
  { destruct Hrec as [Hnone | (text & info & Hsome & Hparse)].
    - rewrite (check_without_record _ _ _ _ _ Hj Hnone). eauto.
    - rewrite (check_with_record _ _ _ _ _ _ _ Hj Hsome Hparse). eauto. }
  destruct Hcheck as [available Hcheck].
  exists available, (downloadUrl_of this data), (downloadHost this).
  split; [exact Hcheck|]. split; [exact Horigin|].
  unfold downloadUrl_of. fold u. split; [|split].
  - intros [H | H].
    + now rewrite H.
    + rewrite H. now rewrite andb_false_r.
  - intros H1 H2 H3. now rewrite H1, H2, H3.
  - intros H1 H2 H3 dir leaf Hdir Hleaf. rewrite H1, H2, H3. simpl.
    rewrite Hurl, Hdir. now rewrite slice_to_last_slash.
Qed.

Lemma check_resolves_download_url_witness :
  let data := Sample.descriptor "app.asar.gz" None in
  exists available : bool,
    @check Sample.linux (Sample.serving data) Sample.updater "1.0.0" (Sample.world_of [])
    = (Sample.world_of [],
       Ok (available, with_download_url data "https://h/api/app.asar.gz")).
Proof.
  intros data.
  destruct (@check_resolves_download_url Sample.linux (Sample.serving data)
              Sample.options Sample.updater "1.0.0" (Sample.world_of []) data
              eq_refl eq_refl (or_introl eq_refl))
    as [(available & resolved & origin & Hcheck & _ & _ & _ & Hbare) _].
  exists available. rewrite Hcheck.
  now rewrite (Hbare eq_refl eq_refl eq_refl "https://h/api" "check" eq_refl eq_refl).
Defined.

(** C8. If a staged-update metadata file exists and its recorded checksum is
    present (a non-empty string) and equals the checksum of the freshly
    fetched descriptor, [check] reports that no update is available,
    whatever the two version strings are -- also when the fetched version is
    strictly greater than the current one. *)
Theorem check_anti_loop `{R : Runtime}
    (net : network) (this : AsarUpdater) (curentVersion : string) (w : world)
    (data nextUpdaterInfo : AsarInfoResponse) (text c : string) :
  http_get_json net (checkVersionUrl this) = Ok data ->
  files w !! asarVersionPath this = Some text ->
  JSON_parse text = Some nextUpdaterInfo ->
  checksum nextUpdaterInfo = Some c ->
  truthy c = true ->
  checksum data = Some c ->
  check net this curentVersion w
  = (w, Ok (false, with_download_url data (downloadUrl_of this data))).
Proof.
  intros Hj Hv Hp Hc Ht Hd.
  rewrite (check_with_record _ _ _ _ _ _ _ Hj Hv Hp).
  rewrite Hc, Hd. simpl. rewrite Ht. unfold strict_eq_opt.
  now rewrite bool_decide_eq_true_2.
Qed.

Lemma check_anti_loop_witness :
  let sum := "0123456789abcdef0123456789abcdef" in
  let staged := Sample.descriptor "https://h/pkg/app.asar" (Some sum) in
  let data := {| version := "1.2.0"; download_url := "/pkg/app.asar";
                 description := None; checksum := Some sum |} in
  let w := Sample.world_of
             [("/opt/app/resources/version.json", Sample.print_lines staged)] in
  compareVersions (version data) "1.0.0" = true
  /\ @check Sample.linux (Sample.serving data) Sample.updater "1.0.0" w
     = (w, Ok (false, with_download_url data "https://h/pkg/app.asar")).
Proof.
  intros sum staged data w. split; [reflexivity|].
  exact (@check_anti_loop Sample.linux (Sample.serving data) Sample.updater "1.0.0" w
           data staged (Sample.print_lines staged) sum
           eq_refl eq_refl eq_refl eq_refl eq_refl eq_refl).
Defined.

(** The guard tests the recorded checksum for truthiness: an empty string
    counts as no checksum, and the version comparison decides. *)
Example check_empty_checksum_is_absent :
  let staged := Sample.descriptor "https://h/pkg/app.asar" (Some EmptyString) in
  let data := Sample.descriptor "/pkg/app.asar" (Some EmptyString) in
  let w := Sample.world_of
             [("/opt/app/resources/version.json", Sample.print_lines staged)] in
  snd (@check Sample.linux (Sample.serving data) Sample.updater "1.0.0" w)
  = Ok (true, Sample.descriptor "https://h/pkg/app.asar" (Some EmptyString)).
Proof. vm_compute. reflexivity. Qed.

(** ** The earlier revisions *)

(** The revision before checksum support did not delete the next file: a
    run whose request is rejected leaves the bundle staged earlier on disk,
    without its metadata. *)
Example previous_download_keeps_next :
  let staged := Sample.descriptor "https://h/pkg/app.asar" None in
  let w := Sample.world_of
             [("/opt/app/resources/next.asar", "bundle 1.1.0");
              ("/opt/app/resources/version.json", Sample.print_lines staged);
              ("/opt/app/resources/app.asar", "bundle 1.0.0")] in
  let net := Sample.serving staged in
  let asarInfo := Sample.descriptor "https://h/pkg/app.asar" None in
  let w' := fst (@Previous.download Sample.linux net Sample.updater asarInfo w) in
  snd (@Previous.download Sample.linux net Sample.updater asarInfo w)
    = Throw (FetchError "https://h/pkg/app.asar")
  /\ files w' !! asarNextPath Sample.updater = Some "bundle 1.1.0"
  /\ files w' !! asarVersionPath Sample.updater = None
  /\ snd (@hasUpgraded Sample.linux Sample.updater w') = Ok None.
Proof. vm_compute. repeat split; reflexivity. Qed.

(* ===================================================================== *)
(** * Further properties                                                   *)
(* ===================================================================== *)

(** ** Version comparison on arbitrary strings *)

Lemma split_fields_exclude (c : ascii) (s x : string) :
  In x (split c s) -> includes x c = false.
Proof.
  revert x. induction s as [|a s IH]; intros x; simpl.
  - intros [<- | []]. reflexivity.
  - destruct (Ascii.eqb a c) eqn:E.
    + intros [<- | H]; [reflexivity | now apply IH].
    + destruct (split c s) as [|f fs] eqn:Es.
      * intros [<- | []]. simpl. now rewrite E.
      * intros [<- | H].
        -- simpl. rewrite E. apply IH. now left.
        -- apply IH. now right.
Qed.

Lemma split_fields_sub (c d : ascii) (s x : string) :
  In x (split c s) -> includes s d = false -> includes x d = false.
Proof.
  revert x. induction s as [|a s IH]; intros x; simpl.
  - intros [<- | []] _. reflexivity.
  - destruct (Ascii.eqb a d) eqn:Ed; [discriminate|]. intros Hin Hs.
    destruct (Ascii.eqb a c).
    + destruct Hin as [<- | H]; [reflexivity | now apply IH].
    + destruct (split c s) as [|f fs] eqn:Es.
      * destruct Hin as [<- | []]. simpl. now rewrite Ed.
      * destruct Hin as [<- | H].
        -- simpl. rewrite Ed. apply IH; [now left | exact Hs].
        -- apply IH; [now right | exact Hs].
Qed.

Lemma trimStart_includes (s : string) (d : ascii) :
  includes s d = false -> includes (trimStart s) d = false.
Proof.
  induction s as [|a s IH]; simpl; [reflexivity|].
  destruct (Ascii.eqb a d) eqn:E; [discriminate|]. intros H.
  destruct (is_white_space a); [now apply IH|]. simpl. now rewrite E.
Qed.

Lemma mathInt_from_nonneg (ds : list Z) (acc : Z) :
  0 <= acc -> Forall (fun d => 0 <= d) ds ->
  0 <= fold_left (fun a d => 10 * a + d) ds acc.
Proof.
  intros Hacc Hds. revert acc Hacc.
  induction Hds as [|d ds Hd _ IH]; intros acc Hacc; simpl; [exact Hacc|].
  apply IH. lia.
Qed.

Lemma digit_prefix_nonneg (s : string) : Forall (fun d => 0 <= d) (digit_prefix s).
Proof.
  induction s as [|c s IH]; simpl; [constructor|].
  destruct (is_digit c); constructor; [unfold digit_value; lia | exact IH].
Qed.

(** Without a minus sign in the text, [parseInt] cannot produce a negative
    number. *)
Lemma parseInt_non_negative (s : string) :
  includes s "-" = false -> non_negative (parseInt s) = true.
Proof.
  intros H. apply trimStart_includes in H. unfold parseInt.
  destruct (trimStart s) as [|c r].
  - reflexivity.
  - simpl in H. destruct (Ascii.eqb c "-") eqn:E; [discriminate|].
    assert (Hsign : exists body,
      match String c r with
      | String "-" r0 => (-1, r0)
      | String "+" r0 => (1, r0)
      | _ => (1, String c r)
      end = (1, body)).
    { clear -E. destruct c as [[] [] [] [] [] [] [] []]; try discriminate E; eauto. }
    destruct Hsign as [body ->].
    pose proof (mathInt_from_nonneg (digit_prefix body) 0 ltac:(lia)
                  (digit_prefix_nonneg body)) as Hge.
    destruct (digit_prefix body) eqn:Ed; [reflexivity|].
    now apply number_non_negative.
Qed.

Lemma at_index_map (f : string -> value) (l : list string) (i : nat) :
  at_index (map f l) i = Undefined \/ exists x, In x l /\ at_index (map f l) i = f x.
Proof.
  unfold at_index. revert i. induction l as [|x l IH]; intros i; simpl.
  - left. now destruct i.
  - destruct i as [|i]; simpl.
    + right. exists x. auto.
    + destruct (IH i) as [H | (y & Hy & H)]; [now left|].
      right. exists y. auto.
Qed.

(** X13. No version string makes [parserVersion] return a negative number:
    the text is split at the dashes before any segment is read, so
    [parseInt] never sees a minus sign. *)
Theorem parserVersion_non_negative (ver : string) :
  forallb non_negative (parserVersion ver) = true.
Proof.
  assert (Hcore : forall (v : string) (build : value),
    includes v "-" = false -> non_negative build = true ->
    forallb non_negative
      (let nums := map parseInt (split "." v) in
       [at_index nums 0; at_index nums 1;
        match at_index nums 2 with Undefined => Num 0 | x => x end; build]) = true).
  { intros v build Hv Hb. cbv zeta.
    assert (Hat : forall i, non_negative (at_index (map parseInt (split "." v)) i) = true).
    { intros i. destruct (at_index_map parseInt (split "." v) i) as [-> | (x & Hx & ->)].
      - reflexivity.
      - apply parseInt_non_negative. exact (split_fields_sub _ _ _ _ Hx Hv). }
    simpl. rewrite (Hat 0%nat), (Hat 1%nat), Hb. simpl.
    pose proof (Hat 2%nat) as H2.
    destruct (at_index (map parseInt (split "." v)) 2); simpl in *;
      try reflexivity; now rewrite H2. }
  unfold parserVersion. destruct (includes ver "-") eqn:Hi.
  - destruct (split_with _ _ Hi) as (v & b & rest & Hs). rewrite Hs.
    assert (Hv : In v (split "-" ver)) by (rewrite Hs; now left).
    assert (Hb : In b (split "-" ver)) by (rewrite Hs; right; now left).
    apply Hcore.
    + exact (split_fields_exclude _ _ _ Hv).
    + apply parseInt_non_negative. exact (split_fields_exclude _ _ _ Hb).
  - now apply Hcore.
Qed.

(** X14. On arbitrary strings, malformed ones included, [compareVersions]
    is a strict partial order: no version is newer than itself, two versions
    are never each newer than the other, and newer-than is transitive. *)
Theorem compareVersions_strict_on_all_strings (a b c : string) :
  compareVersions a a = false
  /\ (compareVersions a b = true -> compareVersions b a = false)
  /\ (compareVersions a b = true -> compareVersions b c = true ->
      compareVersions a c = true).
Proof.
  unfold compareVersions. split; [apply compare_loop_irrefl|]. split.
  - apply compare_loop_asym.
  - apply compare_loop_trans.
Qed.

Lemma compare_loop_nan_head (u a : list value) :
  at_index u 0 = NaN ->
  compare_loop 4 0 u a = false /\ compare_loop 4 0 a u = false.
Proof.
  intros H. simpl. rewrite H. split; [reflexivity|].
  now destruct (at_index a 0) as [| |z|[]].
Qed.

(** X15. A version string whose major segment is not numeric -- the empty
    string, or one that starts with a character that is neither a digit, a
    sign nor white space, such as [v1.2.3] -- is never newer and never
    older than any version: comparing it either way returns false. *)
Theorem compareVersions_unreadable_major (c : ascii) (s other : string) :
  is_digit c = false -> is_white_space c = false ->
  Ascii.eqb c "+" = false -> Ascii.eqb c "-" = false ->
  compareVersions (String c s) other = false
  /\ compareVersions other (String c s) = false
  /\ compareVersions EmptyString other = false
  /\ compareVersions other EmptyString = false.
Proof.
  intros Hd Hw Hp Hm. unfold compareVersions.
  destruct (compare_loop_nan_head (parserVersion (String c s)) (parserVersion other)
              (parserVersion_major_nan c s Hd Hw Hp Hm)) as [H1 H2].
  destruct (compare_loop_nan_head (parserVersion EmptyString) (parserVersion other)
              eq_refl) as [H3 H4].
  auto.
Qed.

Lemma compareVersions_unreadable_major_witness :
  compareVersions "v1.2.3" "1.0.0" = false
  /\ compareVersions "1.0.0" "v1.2.3" = false.
Proof.
  destruct (compareVersions_unreadable_major "v" "1.2.3" "1.0.0"
              eq_refl eq_refl eq_refl eq_refl) as (H1 & H2 & _).
  split; assumption.
Defined.

(** ** The first revision's comparison *)

Lemma digit_is_not_x (d : ascii) :
  is_digit d = true -> Ascii.eqb "x" d = false /\ Ascii.eqb "X" d = false.
Proof.
  destruct d as [[] [] [] [] [] [] [] []]; vm_compute; intros H;
    try discriminate H; split; reflexivity.
Qed.

Lemma digits_have_no_hex_prefix (s : string) :
  Spec.all_digits s = true ->
  startsWith s "0x" || startsWith s "0X" = false.
Proof.
  destruct s as [|c [|d r]]; cbn [startsWith Spec.all_digits].
  - reflexivity.
  - intros _. now destruct (Ascii.eqb "0" c).
  - intros H. apply andb_prop in H as [_ H]. apply andb_prop in H as [Hd _].
    destruct (digit_is_not_x d Hd) as [-> ->]. now destruct (Ascii.eqb "0" c).
Qed.

Lemma parseInt_auto_segment (s : string) (n : Z) :
  Spec.segment s = Some n -> JsRadix.parseInt_auto s = number 1 n.
Proof.
  intros Hs. pose proof (parseInt_segment _ _ Hs) as Hn.
  destruct s as [|c r]; [discriminate|].
  unfold Spec.segment in Hs.
  destruct (Spec.all_digits (String c r)) eqn:Hd; [|discriminate].
  pose proof Hd as Hd'. simpl in Hd'. apply andb_prop in Hd' as [Hc _].
  destruct (digit_is_plain c Hc) as (Hw & Hm & Hp).
  rewrite parseInt_leading_digit in Hn by exact Hc. rewrite <- Hn.
  unfold JsRadix.parseInt_auto. simpl trimStart. rewrite Hw.
  assert (Hsign : JsRadix.sign_of (String c r) = (1, String c r)).
  { clear -Hm Hp. unfold JsRadix.sign_of.
    destruct c as [[] [] [] [] [] [] [] []]; try reflexivity; congruence. }
  rewrite Hsign, (digits_have_no_hex_prefix _ Hd).
  simpl digit_prefix. rewrite Hc. reflexivity.
Qed.

Lemma original_parse_core (core : string) (t : Spec.tuple) (bz : Z) :
  Spec.parse_core core bz = Some t ->
  (let nums := map JsRadix.parseInt_auto (split "." core) in
   {| Original.major := at_index nums 0;
      Original.minor := at_index nums 1;
      Original.revision := match at_index nums 2 with Undefined => Num 0 | v => v end;
      Original.build := number 1 bz |})
  = {| Original.major := at_index (numbers_of t) 0;
       Original.minor := at_index (numbers_of t) 1;
       Original.revision := at_index (numbers_of t) 2;
       Original.build := at_index (numbers_of t) 3 |}.
Proof.
  unfold Spec.parse_core. intros H.
  destruct (split "." core) as [|ma [|mi [|pa [|? ?]]]]; try discriminate.
  - destruct (Spec.segment ma) eqn:Ha; [|discriminate].
    destruct (Spec.segment mi) eqn:Hi; [|discriminate].
    injection H as <-. cbv zeta. cbn [map at_index lookup list_lookup numbers_of].
    now rewrite (parseInt_auto_segment _ _ Ha), (parseInt_auto_segment _ _ Hi).
  - destruct (Spec.segment ma) eqn:Ha; [|discriminate].
    destruct (Spec.segment mi) eqn:Hi; [|discriminate].
    destruct (Spec.segment pa) eqn:Hp; [|discriminate].
    injection H as <-. cbv zeta. cbn [map at_index lookup list_lookup numbers_of].
    rewrite (parseInt_auto_segment _ _ Ha), (parseInt_auto_segment _ _ Hi),
      (parseInt_auto_segment _ _ Hp).
    now rewrite number_patch.
Qed.

(** On a valid version string the first revision reads the same four
    numbers as the current one. *)
Lemma original_parserVersion_valid (ver : string) (t : Spec.tuple) :
  Spec.parse ver = Some t ->
  Original.parserVersion ver
  = {| Original.major := at_index (parserVersion ver) 0;
       Original.minor := at_index (parserVersion ver) 1;
       Original.revision := at_index (parserVersion ver) 2;
       Original.build := at_index (parserVersion ver) 3 |}.
Proof.
  intros H. rewrite (parserVersion_numbers _ _ H). revert H.
  unfold Spec.parse, Original.parserVersion.
  destruct (includes ver "-") eqn:Hi.
  - destruct (split_with _ _ Hi) as (core & b & rest & ->).
    destruct rest; [|discriminate].
    destruct (Spec.segment b) eqn:Hb; [|discriminate].
    intros H. rewrite (parseInt_segment _ _ Hb).
    exact (original_parse_core _ _ _ H).
  - rewrite (split_without _ _ Hi). intros H.
    exact (original_parse_core _ _ _ H).
Qed.

(** X16. On every pair of valid version strings the first revision's
    [compareVersions] (four field comparisons, segments read by [parseInt]
    without a radix) and the current one (a loop, radix 10) return the same
    answer. *)
Theorem original_compareVersions_agrees (a b : string) (ta tb : Spec.tuple) :
  Spec.parse a = Some ta ->
  Spec.parse b = Some tb ->
  Original.compareVersions a b = compareVersions a b.
Proof.
  intros Ha Hb. unfold Original.compareVersions, compareVersions.
  rewrite (original_parserVersion_valid _ _ Ha), (original_parserVersion_valid _ _ Hb).
  reflexivity.
Qed.

Lemma original_compareVersions_agrees_witness :
  Original.compareVersions "1.10.0-2" "1.9.4" = compareVersions "1.10.0-2" "1.9.4"
  /\ compareVersions "1.10.0-2" "1.9.4" = true.
Proof.
  split; [|reflexivity].
  exact (original_compareVersions_agrees "1.10.0-2" "1.9.4" (1, 10, 0, 2) (1, 9, 4, 0)
           eq_refl eq_refl).
Defined.

Lemma startsWith_app (a b : string) : startsWith (a ++ b) a = true.
Proof.
  induction a as [|x a IH]; simpl.
  - now destruct b.
  - now rewrite Ascii.eqb_refl.
Qed.

Lemma startsWith_slash (u : string) :
  startsWith u "/" = true -> exists r, u = "/" ++ r.
Proof.
  destruct u as [|c r]; cbn [startsWith]; [discriminate|].
  destruct (Ascii.eqb_spec "/" c) as [<- | _]; [|discriminate].
  intros _. now exists r.
Qed.

Lemma append_assoc (a b c : string) : (a ++ b) ++ c = a ++ (b ++ c).
Proof.
  induction a as [|x a IH]; [reflexivity|].
  change (String x ((a ++ b) ++ c) = String x (a ++ (b ++ c))). now f_equal.
Qed.

(** X17. The first revision's [checkUpdates] resolves every relative
    [download_url] against the origin alone: a leading slash is kept, a
    missing one is inserted, so the resolved URL always lies under
    [origin/] and the directory of the check URL plays no part. The call
    reads and writes no file. *)
Theorem original_checkUpdates_under_origin
    (net : network) (checkVersionUrl downloadHost curentVersion : string)
    (w : world) (data : AsarInfoResponse) :
  http_get_json net checkVersionUrl = Ok data ->
  startsWith (download_url data) "http://" = false ->
  startsWith (download_url data) "https://" = false ->
  exists (updater : bool) (resolved : string),
    Original.checkUpdates net checkVersionUrl downloadHost curentVersion w
    = (w, Ok (updater, with_download_url data resolved))
    /\ updater = Original.compareVersions (version data) curentVersion
    /\ startsWith resolved (downloadHost ++ "/") = true
    /\ (startsWith (download_url data) "/" = true ->
        resolved = downloadHost ++ download_url data)
    /\ (startsWith (download_url data) "/" = false ->
        resolved = downloadHost ++ "/" ++ download_url data).
Proof.
  intros Hj H1 H2.
  unfold Original.checkUpdates, io_bind, io_lift, io_ret. rewrite Hj, H1, H2.
  cbn [negb andb]. do 2 eexists. split; [reflexivity|]. split; [reflexivity|].
  destruct (startsWith (download_url data) "/") eqn:Hs.
  - split; [|split; [intros _; reflexivity | intros H; discriminate H]].
    destruct (startsWith_slash _ Hs) as [r ->].
    change (startsWith (downloadHost ++ ("/" ++ r)) (downloadHost ++ "/") = true).
    rewrite <- append_assoc. apply startsWith_app.
  - split; [|split; [intros H; discriminate H | intros _; reflexivity]].
    rewrite <- append_assoc. apply startsWith_app.
Qed.

Lemma original_checkUpdates_under_origin_witness :
  let data := Sample.descriptor "app.asar.gz" None in
  Original.checkUpdates (Sample.serving data) "https://h/api/check" "https://h" "1.0.0"
    (Sample.world_of [])
  = (Sample.world_of [], Ok (true, Sample.descriptor "https://h/app.asar.gz" None)).
Proof.
  intros data.
  destruct (original_checkUpdates_under_origin (Sample.serving data)
              "https://h/api/check" "https://h" "1.0.0" (Sample.world_of []) data
              eq_refl eq_refl eq_refl)
    as (updater & resolved & -> & -> & _ & _ & Hbare).
  now rewrite (Hbare eq_refl).
Defined.

(** ** The request helpers *)

Lemma concat_length (sep : string) (l : list string) :
  String.length (String.concat sep l)
  = (list_sum (map String.length l) + (length l - 1) * String.length sep)%nat.
Proof.
  induction l as [|x [|y l] IH].
  - reflexivity.
  - simpl. lia.
  - change (String.concat sep (x :: y :: l)) with (x ++ sep ++ String.concat sep (y :: l)).
    rewrite !length_append, IH. simpl. lia.
Qed.

Lemma concat_single (sep x : string) : String.concat sep [x] = x.
Proof. reflexivity. Qed.

(** X21. The current [http_get_json] hands [JSON.parse] the chunks of the
    body joined with commas ([data.join()]). That text is the body itself
    exactly when the body arrived in at most one chunk; for such replies --
    and for every failed request, every status other than 200 and every
    body that does not end -- the helper settles as the previous revision's
    did, which concatenated the chunks. *)
Theorem http_get_json_joins_chunks `{R : Runtime} (c : Http.clients) (url : string) :
  (forall data : list string,
      Http.data_join data = String.concat EmptyString data <-> (length data <= 1)%nat)
  /\ ((forall res, Http.request c url = Some res ->
         Http.statusCode res = 200 -> Http.complete res = true ->
         (length (Http.chunks res) <= 1)%nat) ->
      Http.http_get_json c url = Http.http_get_json_previous c url).
Proof.
  split.
  - intros data. unfold Http.data_join. split.
    + intros Heq. apply (f_equal String.length) in Heq.
      rewrite !concat_length in Heq. simpl in Heq. lia.
    + destruct data as [|x [|y l]]; simpl; [reflexivity | reflexivity | lia].
  - intros Hone. unfold Http.http_get_json, Http.http_get_json_previous.
    destruct (Http.request c url) as [res|] eqn:Hreq; [|reflexivity].
    destruct (Z.eqb_spec (Http.statusCode res) 200) as [Hs|]; [|reflexivity].
    cbn [negb]. destruct (Http.complete res) eqn:Hc; [|reflexivity].
    specialize (Hone res eq_refl Hs Hc). unfold Http.data_join.
    destruct (Http.chunks res) as [|x [|y l]]; [reflexivity | reflexivity|].
    simpl in Hone. lia.
Qed.

Lemma http_get_json_joins_chunks_witness :
  let text := Sample.print_lines (Sample.descriptor "/pkg/app.asar" None) in
  let c := {| Http.httpsRequest := fun _ =>
                Some {| Http.statusCode := 200; Http.chunks := [text];
                        Http.complete := true |};
              Http.httpRequest := fun _ => None |} in
  @Http.http_get_json Sample.linux c "https://h/api/check"
  = @Http.http_get_json_previous Sample.linux c "https://h/api/check"
  /\ @Http.http_get_json Sample.linux c "https://h/api/check"
     = Some (Ok (Sample.descriptor "/pkg/app.asar" None)).
Proof.
  intros text c. split; [|vm_compute; reflexivity].
  apply (proj2 (@http_get_json_joins_chunks Sample.linux c "https://h/api/check")).
  intros res Hreq _ _. injection Hreq as <-. simpl. lia.
Defined.

(** ** What a run of [download] leaves behind *)

(** [pipe] on the stages [download] builds, in full *)
Lemma pipe_exact `{R : Runtime}
    (this : AsarUpdater) (asarInfo : AsarInfoResponse) (s : Stream) (w0 : world) :
  pipe s (outputStreams this asarInfo) w0
  = (set_files (<[asarSwapPath this := body_of asarInfo s]>) w0,
     let hash :=
       match checksum asarInfo with
       | Some c =>
           if truthy c
           then Some (toLowerCase
                        (createHash (if (String.length c =? 32)%nat then md5 else sha256)
                           (received s)))
           else None
       | None => None
       end in
     if ended s then
       if endsWith (download_url asarInfo) ".gz" || endsWith (download_url asarInfo) ".gzip"
       then if snd (gunzip (received s)) then Ok hash else Throw DecodeError
       else Ok hash
     else
       Throw (if (endsWith (download_url asarInfo) ".gz"
                  || endsWith (download_url asarInfo) ".gzip")
                 && gunzip_error_first (received s)
              then DecodeError
              else TransportError)).
Proof.
  unfold pipe, outputStreams, body_of.
  destruct (checksum asarInfo) as [c|]; [destruct (truthy c)|];
    destruct (endsWith (download_url asarInfo) ".gz"
              || endsWith (download_url asarInfo) ".gzip");
    simpl; try destruct (gunzip (received s)) as [o g]; simpl;
    destruct (ended s); simpl; try destruct g;
    try destruct (gunzip_error_first (received s)); reflexivity.
Qed.

Lemma download_after_request `{R : Runtime}
    (net : network) (this : AsarUpdater) (asarInfo : AsarInfoResponse)
    (w : world) (s : Stream) :
  http_get_stream net (download_url asarInfo) = Ok s ->
  download net this asarInfo w
  = (hash <- pipe s (outputStreams this asarInfo) ;;
     verify asarInfo hash ;;
     renamePromisify (asarSwapPath this) (asarNextPath this) ;;
     writeFilePromisify (asarVersionPath this) (JSON_stringify asarInfo) ;;
     io_ret true)
      (fst (cleanup [asarNextPath this; asarSwapPath this; asarVersionPath this] w)).
Proof.
  intros Hs. unfold download. rewrite io_bind_cleanup.
  unfold io_bind at 1. unfold io_lift. now rewrite Hs.
Qed.

(** the state a committed run ends in *)
Lemma download_accepted `{R : Runtime}
    (net : network) (this : AsarUpdater) (asarInfo : AsarInfoResponse)
    (w : world) (s : Stream) :
  http_get_stream net (download_url asarInfo) = Ok s ->
  accepted asarInfo s = true ->
  download net this asarInfo w
  = (set_files (<[asarVersionPath this := JSON_stringify asarInfo]>)
       (set_files (fun m => <[asarNextPath this := body_of asarInfo s]>
                              (delete (asarSwapPath this) m))
          (set_files (<[asarSwapPath this := body_of asarInfo s]>)
             (fst (cleanup [asarNextPath this; asarSwapPath this;
                            asarVersionPath this] w)))),
     Ok true).
Proof.
  intros Hs Ha. rewrite (download_after_request _ _ _ _ _ Hs).
  unfold io_bind at 1. rewrite pipe_exact. cbv zeta.
  unfold accepted in Ha.
  apply andb_prop in Ha as [Ha Hsum]. apply andb_prop in Ha as [He Hgz].
  rewrite He.
  assert (Hpiped : forall h : option string,
    (if endsWith (download_url asarInfo) ".gz" || endsWith (download_url asarInfo) ".gzip"
     then if snd (gunzip (received s)) then Ok h else Throw DecodeError
     else Ok h) = Ok h).
  { intros h.
    destruct (endsWith (download_url asarInfo) ".gz"
              || endsWith (download_url asarInfo) ".gzip"); [now rewrite Hgz | reflexivity]. }
  rewrite Hpiped.
  assert (Hverify : forall w0,
    verify asarInfo
      (match checksum asarInfo with
       | Some c =>
           if truthy c
           then Some (toLowerCase
                        (createHash (if (String.length c =? 32)%nat then md5 else sha256)
                           (received s)))
           else None
       | None => None
       end) w0 = (w0, Ok tt)).
  { intros w0. unfold verify.
    destruct (checksum asarInfo) as [c|]; [|reflexivity].
    destruct (truthy c); [|reflexivity].
    apply String.eqb_eq in Hsum. rewrite Hsum.
    now rewrite bool_decide_eq_true_2. }
  unfold io_bind at 1. rewrite Hverify.
  unfold io_bind, renamePromisify, writeFilePromisify, io_ret. simpl files.
  now rewrite lookup_insert_eq.
Qed.

(** a response that is not accepted leaves the swap file and an error *)
Lemma download_refused `{R : Runtime}
    (net : network) (this : AsarUpdater) (asarInfo : AsarInfoResponse)
    (w : world) (s : Stream) :
  http_get_stream net (download_url asarInfo) = Ok s ->
  accepted asarInfo s = false ->
  exists e : error,
    download net this asarInfo w
    = (set_files (<[asarSwapPath this := body_of asarInfo s]>)
         (fst (cleanup [asarNextPath this; asarSwapPath this;
                        asarVersionPath this] w)),
       Throw e).
Proof.
  intros Hs Ha. rewrite (download_after_request _ _ _ _ _ Hs).
  unfold io_bind at 1. rewrite pipe_exact. cbv zeta.
  unfold accepted in Ha.
  destruct (ended s); [|eauto].
  destruct (endsWith (download_url asarInfo) ".gz"
            || endsWith (download_url asarInfo) ".gzip");
    [destruct (snd (gunzip (received s))); [|eauto]|];
    cbn [andb] in Ha; unfold io_bind at 1; unfold verify;
    (destruct (checksum asarInfo) as [c|]; [|discriminate Ha]);
    (destruct (truthy c); [|discriminate Ha]);
    (rewrite bool_decide_eq_false_2;
       [unfold io_throw; eauto
       | intros [= Heq]; rewrite Heq, String.eqb_refl in Ha; discriminate Ha]).
Qed.

Lemma download_rejected `{R : Runtime}
    (net : network) (this : AsarUpdater) (asarInfo : AsarInfoResponse)
    (w : world) (e : error) :
  http_get_stream net (download_url asarInfo) = Throw e ->
  download net this asarInfo w
  = (fst (cleanup [asarNextPath this; asarSwapPath this; asarVersionPath this] w),
     Throw e).
Proof.
  intros He. unfold download. rewrite io_bind_cleanup.
  unfold io_bind at 1. unfold io_lift. now rewrite He.
Qed.

Lemma download_ok_inv `{R : Runtime}
    (net : network) (this : AsarUpdater) (asarInfo : AsarInfoResponse)
    (w : world) (b : bool) :
  snd (download net this asarInfo w) = Ok b ->
  exists s, http_get_stream net (download_url asarInfo) = Ok s
            /\ accepted asarInfo s = true.
Proof.
  intros H.
  destruct (http_get_stream net (download_url asarInfo)) as [s|e] eqn:Hs.
  - exists s. split; [reflexivity|].
    destruct (accepted asarInfo s) eqn:Ha; [reflexivity|].
    destruct (download_refused net this asarInfo w s Hs Ha) as [e He].
    rewrite He in H. discriminate H.
  - rewrite (download_rejected _ _ _ _ _ Hs) in H. discriminate H.
Qed.

Lemma distinct_layout_inv (this : AsarUpdater) :
  distinct_layout this ->
  asarSwapPath this <> asarNextPath this
  /\ asarSwapPath this <> asarVersionPath this
  /\ asarSwapPath this <> asarTargetPath this
  /\ asarNextPath this <> asarVersionPath this
  /\ asarNextPath this <> asarTargetPath this
  /\ asarVersionPath this <> asarTargetPath this.
Proof.
  unfold distinct_layout. intros H.
  apply NoDup_cons in H as [H1 H]. apply NoDup_cons in H as [H2 H].
  apply NoDup_cons in H as [H3 _].
  apply not_elem_of_cons in H1 as [A H1]. apply not_elem_of_cons in H1 as [B H1].
  apply not_elem_of_cons in H1 as [C _].
  apply not_elem_of_cons in H2 as [D H2]. apply not_elem_of_cons in H2 as [E _].
  apply not_elem_of_cons in H3 as [F _]. auto 10.
Qed.

(** X2. [download] commits exactly the responses it accepts: it returns
    true if and only if the request resolved with a stream that ended, that
    decompressed when the URL ends in [.gz] or [.gzip], and whose digest
    matches when a checksum is given. The next file then holds the response
    body, decompressed when the URL asks for it and otherwise byte for byte,
    whether or not a checksum was given. *)
Theorem download_commits_iff_accepted `{R : Runtime}
    (net : network) (this : AsarUpdater) (asarInfo : AsarInfoResponse) (w : world) :
  (snd (download net this asarInfo w) = Ok true
   <-> exists s, http_get_stream net (download_url asarInfo) = Ok s
                 /\ accepted asarInfo s = true)
  /\ (forall s,
        http_get_stream net (download_url asarInfo) = Ok s ->
        accepted asarInfo s = true ->
        asarNextPath this <> asarVersionPath this ->
        files (fst (download net this asarInfo w)) !! asarNextPath this
        = Some (body_of asarInfo s)).
Proof.
  split; [split|].
  - apply download_ok_inv.
  - intros (s & Hs & Ha). now rewrite (download_accepted _ _ _ _ _ Hs Ha).
  - intros s Hs Ha Hnv. rewrite (download_accepted _ _ _ _ _ Hs Ha). simpl.
    rewrite lookup_insert_ne by congruence. now rewrite lookup_insert_eq.
Qed.

Lemma download_commits_iff_accepted_witness :
  let s := {| received := "bundle 1.2.0"; ended := true |} in
  let net := {| http_get_json := fun url => Throw (FetchError url);
                http_get_stream := fun _ => Ok s |} in
  let asarInfo := Sample.descriptor "https://h/pkg/app.asar" None in
  files (fst (@download Sample.linux net Sample.updater asarInfo (Sample.world_of [])))
    !! "/opt/app/resources/next.asar" = Some "bundle 1.2.0".
Proof.
  intros s net asarInfo.
  exact (proj2 (@download_commits_iff_accepted Sample.linux net Sample.updater asarInfo
                  (Sample.world_of []))
           s eq_refl eq_refl ltac:(discriminate)).
Defined.

Lemma hasUpgraded_staged `{R : Runtime}
    (this : AsarUpdater) (w : world) (bundle text : string) (info : AsarInfoResponse) :
  files w !! asarNextPath this = Some bundle ->
  files w !! asarVersionPath this = Some text ->
  JSON_parse text = Some info ->
  hasUpgraded this w = (w, Ok (Some info)).
Proof.
  intros Hn Hv Hp. unfold hasUpgraded, io_bind, exists_, readFilePromisify.
  rewrite Hn. rewrite bool_decide_eq_true_2 by eauto. cbv beta iota.
  rewrite Hv. rewrite bool_decide_eq_true_2 by eauto. cbv beta iota.
  rewrite Hv. cbv beta iota. now rewrite Hp.
Qed.

(** X1. A committed download can be read back: if the serialized
    descriptor parses to the descriptor again, then after a run of
    [download] that returned true [hasUpgraded] returns that descriptor. *)
Theorem download_then_hasUpgraded `{R : Runtime}
    (net : network) (this : AsarUpdater) (asarInfo : AsarInfoResponse) (w : world) :
  asarNextPath this <> asarVersionPath this ->
  JSON_parse (JSON_stringify asarInfo) = Some asarInfo ->
  snd (download net this asarInfo w) = Ok true ->
  let w' := fst (download net this asarInfo w) in
  hasUpgraded this w' = (w', Ok (Some asarInfo)).
Proof.
  intros Hnv Hrt Hok w'. subst w'.
  destruct (download_ok_inv _ _ _ _ _ Hok) as (s & Hs & Ha).
  rewrite (download_accepted _ _ _ _ _ Hs Ha). simpl fst.
  apply (hasUpgraded_staged this _ (body_of asarInfo s) (JSON_stringify asarInfo)).
  - simpl. rewrite lookup_insert_ne by congruence. now rewrite lookup_insert_eq.
  - simpl. now rewrite lookup_insert_eq.
  - exact Hrt.
Qed.

Lemma download_then_hasUpgraded_witness :
  let s := {| received := "bundle 1.2.0"; ended := true |} in
  let net := {| http_get_json := fun url => Throw (FetchError url);
                http_get_stream := fun _ => Ok s |} in
  let asarInfo := Sample.descriptor "https://h/pkg/app.asar" None in
  snd (@hasUpgraded Sample.linux Sample.updater
         (fst (@download Sample.linux net Sample.updater asarInfo (Sample.world_of []))))
  = Ok (Some asarInfo).
Proof.
  intros s net asarInfo.
  now rewrite (@download_then_hasUpgraded Sample.linux net Sample.updater asarInfo
                 (Sample.world_of []) ltac:(discriminate) eq_refl eq_refl).
Defined.

Lemma download_frame `{R : Runtime}
    (net : network) (this : AsarUpdater) (asarInfo : AsarInfoResponse) (w : world) :
  trace (fst (download net this asarInfo w)) = trace w
  /\ forall p : string,
       ~ (p = asarNextPath this \/ p = asarSwapPath this \/ p = asarVersionPath this) ->
       files (fst (download net this asarInfo w)) !! p = files w !! p.
Proof.
  assert (Hclean : forall p : string,
    ~ (p = asarNextPath this \/ p = asarSwapPath this \/ p = asarVersionPath this) ->
    files (fst (cleanup [asarNextPath this; asarSwapPath this; asarVersionPath this] w))
      !! p = files w !! p).
  { intros p Hp. rewrite cleanup_three_lookup. now rewrite bool_decide_eq_false_2. }
  assert (Htrace :
    trace (fst (cleanup [asarNextPath this; asarSwapPath this; asarVersionPath this] w))
    = trace w) by now rewrite cleanup_three.
  destruct (download_cases net this asarInfo w)
    as [[e ->] | [(out & e & ->) | [out ->]]]; simpl fst.
  - split; [exact Htrace | exact Hclean].
  - split; [exact Htrace|]. intros p Hp. simpl.
    rewrite lookup_insert_ne by (intros E; subst p; apply Hp; auto). now apply Hclean.
  - split; [exact Htrace|]. intros p Hp. simpl.
    rewrite lookup_insert_ne by (intros E; subst p; apply Hp; auto).
    rewrite lookup_insert_ne by (intros E; subst p; apply Hp; auto).
    rewrite lookup_delete_ne by (intros E; subst p; apply Hp; auto).
    rewrite lookup_insert_ne by (intros E; subst p; apply Hp; auto). now apply Hclean.
Qed.

(** X3. [download] writes nothing but its three staging files: whatever the
    outcome, every other file -- the live target bundle in particular -- has
    the content it had before, and no process is spawned. *)
Theorem download_touches_staging_only `{R : Runtime}
    (net : network) (this : AsarUpdater) (asarInfo : AsarInfoResponse)
    (w : world) (p : string) :
  ~ In p [asarNextPath this; asarSwapPath this; asarVersionPath this] ->
  files (fst (download net this asarInfo w)) !! p = files w !! p
  /\ trace (fst (download net this asarInfo w)) = trace w.
Proof.
  intros Hp. destruct (download_frame net this asarInfo w) as [Ht Hf].
  split; [|exact Ht]. apply Hf. intros [-> | [-> | ->]]; apply Hp; simpl; auto.
Qed.

Lemma download_touches_staging_only_witness :
  let s := {| received := "bundle 1.2.0"; ended := true |} in
  let net := {| http_get_json := fun url => Throw (FetchError url);
                http_get_stream := fun _ => Ok s |} in
  let asarInfo := Sample.descriptor "https://h/pkg/app.asar" None in
  let w := Sample.world_of [("/opt/app/resources/app.asar", "bundle 1.0.0")] in
  files (fst (@download Sample.linux net Sample.updater asarInfo w))
    !! "/opt/app/resources/app.asar" = Some "bundle 1.0.0".
Proof.
  intros s net asarInfo w.
  destruct (@download_touches_staging_only Sample.linux net Sample.updater asarInfo w
              "/opt/app/resources/app.asar") as [H _].
  - simpl. intros [E | [E | [E | []]]]; discriminate E.
  - exact H.
Defined.

(** X4. [download] does not depend on what an earlier run left in the
    staging files, so it can be retried: run again on the state it produced,
    with the same response from the server, it returns the same result and
    the same state. *)
Theorem download_retry `{R : Runtime}
    (net : network) (this : AsarUpdater) (asarInfo : AsarInfoResponse) (w : world) :
  download net this asarInfo (fst (download net this asarInfo w))
  = download net this asarInfo w.
Proof.
  assert (Habsorb :
    fst (cleanup [asarNextPath this; asarSwapPath this; asarVersionPath this]
           (fst (download net this asarInfo w)))
    = fst (cleanup [asarNextPath this; asarSwapPath this; asarVersionPath this] w)).
  { destruct (download_frame net this asarInfo w) as [Ht Hf].
    apply world_eq.
    - rewrite !cleanup_three. exact Ht.
    - apply map_eq. intros p. rewrite !cleanup_three_lookup.
      case_bool_decide; [reflexivity | now apply Hf]. }
  unfold download at 1 3. now rewrite !io_bind_cleanup, Habsorb.
Qed.

Lemma upgrade_direct_exact `{R : Runtime}
    (this : AsarUpdater) (relaunch : bool) (w : world) (bundle : string) :
  String.eqb platform "win32" = false ->
  asarNextPath this <> asarTargetPath this ->
  files w !! asarNextPath this = Some bundle ->
  upgrade this relaunch w
  = (set_files (fun m => <[asarTargetPath this := bundle]> (delete (asarNextPath this) m))
       (set_files (delete (asarTargetPath this)) w), Ok tt).
Proof.
  intros Hp Hnt Hn. unfold upgrade. rewrite Hp.
  unfold io_bind, rmPromisify, renamePromisify.
  destruct (files w !! asarTargetPath this) as [t|] eqn:Et.
  - simpl files. rewrite lookup_delete_ne by congruence. now rewrite Hn.
  - rewrite Hn. now rewrite delete_absent.
Qed.

Lemma sample_layout_distinct : distinct_layout Sample.updater.
Proof.
  unfold distinct_layout. apply (bool_decide_unpack _). vm_compute. exact I.
Defined.

(** X5. Downloading and then replacing puts the served bundle in place: on
    a direct-rename platform, after a run of [download] on an accepted
    response followed by [upgrade], the target file holds the response body
    (decompressed when the URL asks for it), the next file is gone, the
    metadata file holds the serialized descriptor, and [hasUpgraded]
    reports false. *)
Theorem download_then_upgrade `{R : Runtime}
    (net : network) (this : AsarUpdater) (asarInfo : AsarInfoResponse)
    (w : world) (s : Stream) (relaunch : bool) :
  distinct_layout this ->
  String.eqb platform "win32" = false ->
  http_get_stream net (download_url asarInfo) = Ok s ->
  accepted asarInfo s = true ->
  let w1 := fst (download net this asarInfo w) in
  let w2 := fst (upgrade this relaunch w1) in
  snd (download net this asarInfo w) = Ok true
  /\ snd (upgrade this relaunch w1) = Ok tt
  /\ files w2 !! asarTargetPath this = Some (body_of asarInfo s)
  /\ files w2 !! asarNextPath this = None
  /\ files w2 !! asarVersionPath this = Some (JSON_stringify asarInfo)
  /\ hasUpgraded this w2 = (w2, Ok None).
Proof.
  intros Hd Hp Hs Ha w1 w2.
  destruct (distinct_layout_inv this Hd) as (Hsn & Hsv & Hst & Hnv & Hnt & Hvt).
  assert (Hn1 : files w1 !! asarNextPath this = Some (body_of asarInfo s)).
  { subst w1. rewrite (download_accepted _ _ _ _ _ Hs Ha). simpl.
    rewrite lookup_insert_ne by congruence. now rewrite lookup_insert_eq. }
  assert (Hv1 : files w1 !! asarVersionPath this = Some (JSON_stringify asarInfo)).
  { subst w1. rewrite (download_accepted _ _ _ _ _ Hs Ha). simpl.
    now rewrite lookup_insert_eq. }
  assert (Hn2 : files w2 !! asarNextPath this = None).
  { subst w2. rewrite (upgrade_direct_exact this relaunch w1 _ Hp Hnt Hn1). simpl.
    rewrite lookup_insert_ne by congruence. now rewrite lookup_delete_eq. }
  split; [now rewrite (download_accepted _ _ _ _ _ Hs Ha)|].
  split; [now rewrite (upgrade_direct_exact this relaunch w1 _ Hp Hnt Hn1)|].
  split.
  { subst w2. rewrite (upgrade_direct_exact this relaunch w1 _ Hp Hnt Hn1). simpl.
    now rewrite lookup_insert_eq. }
  split; [exact Hn2|]. split.
  { subst w2. rewrite (upgrade_direct_exact this relaunch w1 _ Hp Hnt Hn1). simpl.
    rewrite lookup_insert_ne by congruence.
    rewrite !lookup_delete_ne by congruence. exact Hv1. }
  now apply hasUpgraded_without_next.
Qed.

Lemma download_then_upgrade_witness :
  let s := {| received := "gz:bundle 1.2.0"; ended := true |} in
  let net := {| http_get_json := fun url => Throw (FetchError url);
                http_get_stream := fun _ => Ok s |} in
  let asarInfo := Sample.descriptor "https://h/pkg/app.asar.gz" None in
  let w := Sample.world_of [("/opt/app/resources/app.asar", "bundle 1.0.0")] in
  files (fst (@upgrade Sample.linux Sample.updater false
                (fst (@download Sample.linux net Sample.updater asarInfo w))))
    !! "/opt/app/resources/app.asar" = Some "bundle 1.2.0".
Proof.
  intros s net asarInfo w.
  exact (proj1 (proj2 (proj2
    (@download_then_upgrade Sample.linux net Sample.updater asarInfo w s false
       sample_layout_distinct eq_refl eq_refl eq_refl)))).
Defined.

(** ** The update cycle *)

(** X6. An applied update is not offered again: on a direct-rename
    platform, after [download] has committed a descriptor with a checksum and
    [upgrade] has moved the bundle into place, [check] reports no update for
    every descriptor that carries the same checksum, whatever the version
    strings say -- the metadata file left behind by [upgrade] is what the
    guard reads. *)
Theorem applied_update_is_not_offered_again `{R : Runtime}
    (net : network) (this : AsarUpdater) (asarInfo data : AsarInfoResponse)
    (w : world) (s : Stream) (c curentVersion : string) (relaunch : bool) :
  distinct_layout this ->
  String.eqb platform "win32" = false ->
  http_get_stream net (download_url asarInfo) = Ok s ->
  accepted asarInfo s = true ->
  checksum asarInfo = Some c ->
  truthy c = true ->
  JSON_parse (JSON_stringify asarInfo) = Some asarInfo ->
  http_get_json net (checkVersionUrl this) = Ok data ->
  checksum data = Some c ->
  let w2 := fst (upgrade this relaunch (fst (download net this asarInfo w))) in
  check net this curentVersion w2
  = (w2, Ok (false, with_download_url data (downloadUrl_of this data))).
Proof.
  intros Hd Hp Hs Ha Hc Ht Hrt Hj Hdc w2.
  destruct (distinct_layout_inv this Hd) as (Hsn & Hsv & Hst & Hnv & Hnt & Hvt).
  assert (Hn1 : files (fst (download net this asarInfo w)) !! asarNextPath this
                = Some (body_of asarInfo s)).
  { rewrite (download_accepted _ _ _ _ _ Hs Ha). simpl.
    rewrite lookup_insert_ne by congruence. now rewrite lookup_insert_eq. }
  assert (Hv2 : files w2 !! asarVersionPath this = Some (JSON_stringify asarInfo)).
  { subst w2. rewrite (upgrade_direct_exact this relaunch _ _ Hp Hnt Hn1). simpl.
    rewrite lookup_insert_ne by congruence.
    rewrite !lookup_delete_ne by congruence.
    rewrite (download_accepted _ _ _ _ _ Hs Ha). simpl.
    now rewrite lookup_insert_eq. }
  rewrite (check_with_record _ _ _ _ _ _ _ Hj Hv2 Hrt).
  rewrite Hc, Hdc. simpl. rewrite Ht. unfold strict_eq_opt.
  now rewrite bool_decide_eq_true_2.
Qed.

Lemma applied_update_is_not_offered_again_witness :
  let sum := "00000000000000000000000000000089" in
  let s := {| received := "bundle 1.2.0"; ended := true |} in
  let asarInfo := {| version := "1.2.0"; download_url := "https://h/pkg/app.asar";
                     description := None; checksum := Some sum |} in
  let net := {| http_get_json := fun _ => Ok asarInfo;
                http_get_stream := fun _ => Ok s |} in
  let w := Sample.world_of [("/opt/app/resources/app.asar", "bundle 1.0.0")] in
  compareVersions "1.2.0" "1.0.0" = true
  /\ snd (@check Sample.linux net Sample.updater "1.0.0"
            (fst (@upgrade Sample.linux Sample.updater true
                    (fst (@download Sample.linux net Sample.updater asarInfo w)))))
     = Ok (false, asarInfo).
Proof.
  intros sum s asarInfo net w. split; [reflexivity|].
  now rewrite (@applied_update_is_not_offered_again Sample.linux net Sample.updater
                 asarInfo asarInfo w s sum "1.0.0" true sample_layout_distinct
                 eq_refl eq_refl eq_refl eq_refl eq_refl eq_refl eq_refl eq_refl).
Defined.

(** X7. [check] and [hasUpgraded] only read: whatever they return or
    reject with, the files and the spawned processes after the call are
    those before it, so asking twice gives the same answer. *)
Theorem check_and_hasUpgraded_only_read `{R : Runtime}
    (net : network) (this : AsarUpdater) (curentVersion : string) (w : world) :
  fst (check net this curentVersion w) = w
  /\ fst (hasUpgraded this w) = w
  /\ check net this curentVersion (fst (check net this curentVersion w))
     = check net this curentVersion w
  /\ hasUpgraded this (fst (hasUpgraded this w)) = hasUpgraded this w.
Proof.
  assert (Hc : fst (check net this curentVersion w) = w).
  { unfold check, io_bind, io_lift, exists_, readFilePromisify.
    destruct (http_get_json net (checkVersionUrl this)) as [data|e]; [|reflexivity].
    destruct (files w !! asarVersionPath this) as [text|] eqn:Ev.
    - rewrite bool_decide_eq_true_2 by eauto. cbv beta iota. rewrite Ev. cbv beta iota.
      destruct (JSON_parse text) as [info|]; [|reflexivity].
      now destruct (truthy_opt (checksum info) && strict_eq_opt (checksum info) (checksum data)).
    - rewrite bool_decide_eq_false_2 by (intros [? ?]; congruence). reflexivity. }
  assert (Hh : fst (hasUpgraded this w) = w).
  { unfold hasUpgraded, io_bind, exists_, readFilePromisify.
    destruct (files w !! asarNextPath this) as [b|] eqn:En.
    - rewrite bool_decide_eq_true_2 by eauto. cbv beta iota.
      destruct (files w !! asarVersionPath this) as [text|] eqn:Ev.
      + rewrite bool_decide_eq_true_2 by eauto. cbv beta iota. rewrite Ev. cbv beta iota.
        now destruct (JSON_parse text).
      + rewrite bool_decide_eq_false_2 by (intros [? ?]; congruence). reflexivity.
    - rewrite bool_decide_eq_false_2 by (intros [? ?]; congruence). reflexivity. }
  split; [exact Hc|]. split; [exact Hh|]. now rewrite Hc, Hh.
Qed.

(** X8. A metadata file that does not parse makes [check] fail: whatever
    the server replied, the call is rejected with the error of [JSON.parse]
    and no answer about the update is given. *)
Theorem check_rejects_unreadable_record `{R : Runtime}
    (net : network) (this : AsarUpdater) (curentVersion : string) (w : world)
    (data : AsarInfoResponse) (text : string) :
  http_get_json net (checkVersionUrl this) = Ok data ->
  files w !! asarVersionPath this = Some text ->
  JSON_parse text = None ->
  check net this curentVersion w = (w, Throw SyntaxError).
Proof.
  intros Hj Hv Hp. unfold check, io_bind, io_lift, exists_, readFilePromisify.
  rewrite Hj, Hv. rewrite bool_decide_eq_true_2 by eauto.
  cbv beta iota. rewrite Hv. cbv beta iota. now rewrite Hp.
Qed.

Lemma check_rejects_unreadable_record_witness :
  let data := Sample.descriptor "/pkg/app.asar" None in
  let w := Sample.world_of [("/opt/app/resources/version.json", "{")] in
  @check Sample.linux (Sample.serving data) Sample.updater "1.0.0" w
  = (w, Throw SyntaxError).
Proof.
  intros data w.
  exact (@check_rejects_unreadable_record Sample.linux (Sample.serving data)
           Sample.updater "1.0.0" w data "{" eq_refl eq_refl eq_refl).
Defined.

(** ** Replacement on either platform *)

(** X9. On a direct-rename platform [upgrade] does not look for the staged
    bundle before it removes the target: with no next file the call is
    rejected with the missing-file error of the rename, the target bundle is
    no longer on disk, and every other file is as it was. *)
Theorem upgrade_without_next_loses_target `{R : Runtime}
    (this : AsarUpdater) (relaunch : bool) (w : world) :
  String.eqb platform "win32" = false ->
  asarNextPath this <> asarTargetPath this ->
  files w !! asarNextPath this = None ->
  let w' := fst (upgrade this relaunch w) in
  snd (upgrade this relaunch w) = Throw (ENOENT (asarNextPath this))
  /\ files w' !! asarTargetPath this = None
  /\ (forall p : string, p <> asarTargetPath this -> files w' !! p = files w !! p)
  /\ trace w' = trace w.
Proof.
  intros Hp Hnt Hn w'. subst w'. rewrite (upgrade_needs_next this relaunch w Hp Hnt Hn).
  simpl. split; [reflexivity|]. split; [apply lookup_delete_eq|].
  split; [|reflexivity]. intros p Hne. now rewrite lookup_delete_ne.
Qed.

Lemma upgrade_without_next_loses_target_witness :
  let w := Sample.world_of [("/opt/app/resources/app.asar", "bundle 1.0.0");
                            ("/opt/app/resources/version.json", "metadata")] in
  let w' := fst (@upgrade Sample.linux Sample.updater true w) in
  snd (@upgrade Sample.linux Sample.updater true w)
    = Throw (ENOENT "/opt/app/resources/next.asar")
  /\ files w' !! "/opt/app/resources/app.asar" = None
  /\ files w' !! "/opt/app/resources/version.json" = Some "metadata".
Proof.
  intros w w'.
  destruct (@upgrade_without_next_loses_target Sample.linux Sample.updater true w eq_refl
              ltac:(discriminate) eq_refl) as (Hr & Ht & Hf & _).
  split; [exact Hr|]. split; [exact Ht|]. apply Hf. discriminate.
Defined.

(** X10. On win32 [upgrade] only hands the swap over: it returns normally
    after writing the helper script and spawning exactly one detached
    [cmd /s /c wscript] on it, with the flag [1] when a relaunch is asked for
    and [0] otherwise; every file other than the script -- target and next
    included -- is as it was, whether or not an update is staged. *)
Theorem upgrade_win32_hands_over `{R : Runtime}
    (this : AsarUpdater) (relaunch : bool) (w : world) :
  String.eqb platform "win32" = true ->
  let script := join (resourcePath this) "updater.vbs" in
  let w' := fst (upgrade this relaunch w) in
  snd (upgrade this relaunch w) = Ok tt
  /\ is_Some (files w' !! script)
  /\ (forall p : string, p <> script -> files w' !! p = files w !! p)
  /\ trace w'
     = app (trace w)
         [Spawn "cmd" ["/s"; "/c"; "wscript"; dq ++ script ++ dq;
                       dq ++ (if relaunch then "1" else "0") ++ dq]].
Proof.
  intros Hp script w'. subst w'. unfold upgrade. rewrite Hp. fold script.
  unfold io_bind, generateWinScript, io_bind, spawn, writeFilePromisify.
  destruct (match execPath this with
            | Some p => if truthy p then exists_ (join "." p) else io_ret false
            | None => io_ret false
            end w) as [w0 r] eqn:Hrel.
  assert (Hw0 : w0 = w /\ exists b, r = Ok b).
  { destruct (execPath this) as [p|]; [destruct (truthy p)|];
      unfold exists_, io_ret in Hrel; injection Hrel as <- <-; eauto. }
  destruct Hw0 as [-> [b ->]]. simpl.
  split; [reflexivity|]. split; [rewrite lookup_insert_eq; eauto|].
  split; [|reflexivity].
  intros p Hne. now rewrite lookup_insert_ne.
Qed.

Lemma upgrade_win32_hands_over_witness :
  let w := Sample.world_of [("/opt/app/resources/app.asar", "bundle 1.0.0");
                            ("/opt/app/resources/next.asar", "bundle 1.1.0")] in
  let w' := fst (@upgrade Sample.win32 Sample.updater true w) in
  files w' !! "/opt/app/resources/app.asar" = Some "bundle 1.0.0"
  /\ files w' !! "/opt/app/resources/next.asar" = Some "bundle 1.1.0".
Proof.
  intros w w'.
  destruct (@upgrade_win32_hands_over Sample.win32 Sample.updater true w eq_refl)
    as (_ & _ & Hframe & _).
  split; apply Hframe; discriminate.
Defined.

(** ** The constructor *)

Lemma skip_app (a b : string) : skip (String.length a) (a ++ b) = b.
Proof. induction a as [|x a IH]; [now destruct b | exact IH]. Qed.

Lemma endsWith_app (a b : string) : endsWith (a ++ b) b = true.
Proof.
  unfold endsWith. rewrite length_append.
  replace (String.length a + String.length b - String.length b)%nat
    with (String.length a) by lia.
  rewrite skip_app, String.eqb_refl.
  rewrite andb_true_r. apply Nat.leb_le. lia.
Qed.

Lemma slice_strip_suffix (a b : string) :
  b <> EmptyString ->
  slice (a ++ b) 0 (- Z.of_nat (String.length b)) = a.
Proof.
  intros Hb.
  assert (Hpos : (0 < String.length b)%nat) by (destruct b; [congruence | simpl; lia]).
  unfold slice, clamp. rewrite length_append.
  replace (0 <? 0) with false by reflexivity.
  destruct (- Z.of_nat (String.length b) <? 0) eqn:E;
    [|apply Z.ltb_ge in E; lia].
  rewrite Z.min_l by lia. rewrite Z.max_l by lia.
  replace (Z.to_nat (Z.of_nat (String.length a + String.length b)
                     + - Z.of_nat (String.length b) - 0))
    with (String.length a) by lia.
  simpl (Z.to_nat 0). apply keep_app.
Qed.

Lemma slice_strip_one (a sep : string) :
  String.length sep = 1%nat -> slice (a ++ sep) 0 (-1) = a.
Proof.
  intros H. pose proof (slice_strip_suffix a sep) as Hs.
  rewrite H in Hs. apply Hs. intros ->. discriminate H.
Qed.

(** X11. The constructor derives the resource folder from [resource_path]
    by cutting a trailing [app.asar] and then one trailing separator: the
    path of the bundle and the path of its folder, with or without a final
    separator, all give the same folder. The suffix test does not look for
    a separator, so a path that merely ends in the letters [app.asar] is cut
    too. The four artifact paths are the folder joined with the four file
    names. *)
Theorem constructor_resource_folder `{R : Runtime}
    (options : AsarUpdaterOptions) (this : AsarUpdater) :
  new_AsarUpdater options = Ok this ->
  String.length sep = 1%nat ->
  (forall dir, resource_path options = dir ++ sep ++ "app.asar" ->
               appPathFolder this = dir)
  /\ (forall dir, resource_path options = dir ++ sep ->
                  endsWith (resource_path options) "app.asar" = false ->
                  appPathFolder this = dir)
  /\ (endsWith (resource_path options) "app.asar" = false ->
      endsWith (resource_path options) sep = false ->
      appPathFolder this = resource_path options)
  /\ (forall prefix, resource_path options = prefix ++ "app.asar" ->
                     endsWith prefix sep = false ->
                     appPathFolder this = prefix)
  /\ asarNextPath this = join (appPathFolder this) "next.asar"
  /\ asarSwapPath this = join (appPathFolder this) "swap.asar"
  /\ asarTargetPath this = join (appPathFolder this) "app.asar"
  /\ asarVersionPath this = join (appPathFolder this) "version.json".
Proof.
  unfold new_AsarUpdater.
  destruct (URL_origin (version_url options)) as [origin|]; [|discriminate].
  intros [= <-] Hsep. cbn [appPathFolder asarNextPath asarSwapPath asarTargetPath
                            asarVersionPath].
  split; [|split; [|split; [|split]]].
  - intros dir ->. rewrite <- append_assoc. rewrite endsWith_app.
    change (- Z.of_nat (String.length asarTargetFileName))
      with (- Z.of_nat (String.length "app.asar")).
    rewrite slice_strip_suffix by discriminate.
    rewrite endsWith_app. now apply slice_strip_one.
  - intros dir Hrp Hnot. unfold asarTargetFileName. rewrite Hnot, Hrp.
    rewrite endsWith_app. now apply slice_strip_one.
  - intros Hnot Hnosep. unfold asarTargetFileName. now rewrite Hnot, Hnosep.
  - intros prefix -> Hnosep. unfold asarTargetFileName. rewrite endsWith_app.
    rewrite slice_strip_suffix by discriminate. now rewrite Hnosep.
  - repeat split; reflexivity.
Qed.

Lemma constructor_resource_folder_witness :
  @new_AsarUpdater Sample.linux Sample.options = Ok Sample.updater
  /\ resource_path Sample.options = "/opt/app/resources" ++ "/" ++ "app.asar"
  /\ appPathFolder Sample.updater = "/opt/app/resources".
Proof.
  split; [reflexivity|]. split; [reflexivity|].
  exact (proj1 (@constructor_resource_folder Sample.linux Sample.options Sample.updater
                  eq_refl eq_refl)
           "/opt/app/resources" eq_refl).
Defined.

Lemma append_inj_l (a x y : string) : a ++ x = a ++ y -> x = y.
Proof.
  induction a as [|c a IH]; [auto|].
  intros H. apply IH. now injection H.
Qed.

Lemma sample_join_injective (d a b : string) :
  Sample.path_join d a = Sample.path_join d b -> a = b.
Proof.
  unfold Sample.path_join. intros H.
  apply append_inj_l in H. now apply (append_inj_l "/") in H.
Qed.

(** X12. The four artifact paths of a constructed updater are pairwise
    distinct as soon as [join] gives different paths for different plain
    file names in one folder -- names of one segment, without a separator
    and other than [.] and [..], which a normalising [join] keeps as the last
    segment of its result. *)
Theorem constructor_layout_distinct `{R : Runtime}
    (options : AsarUpdaterOptions) (this : AsarUpdater) :
  (forall d a b : string,
      file_name a = true -> file_name b = true -> join d a = join d b -> a = b) ->
  new_AsarUpdater options = Ok this ->
  distinct_layout this.
Proof.
  intros Hinj. unfold new_AsarUpdater.
  destruct (URL_origin (version_url options)) as [origin|]; [|discriminate].
  intros [= <-]. unfold distinct_layout.
  cbn [asarNextPath asarSwapPath asarTargetPath asarVersionPath].
  repeat (apply NoDup_cons; split); try apply NoDup_nil_2;
    rewrite ?not_elem_of_cons; repeat split; try apply not_elem_of_nil;
    intros E; apply Hinj in E; try reflexivity; discriminate E.
Qed.

Lemma constructor_layout_distinct_witness : distinct_layout Sample.updater.
Proof.
  exact (@constructor_layout_distinct Sample.linux Sample.options Sample.updater
           (fun d a b _ _ => sample_join_injective d a b) eq_refl).
Defined.

(** ** The earlier revisions of [download] and [upgrade] *)

Lemma cleanup_two (a b : string) (w : world) :
  cleanup [a; b] w = (set_files (delete b) (set_files (delete a) w), Ok tt).
Proof. now rewrite !cleanup_cons. Qed.

Lemma previous_pipe `{R : Runtime}
    (this : AsarUpdater) (asarInfo : AsarInfoResponse) (s : Stream) (w0 : world) :
  exists r : result (option string),
    (if endsWith (download_url asarInfo) ".gz" || endsWith (download_url asarInfo) ".gzip"
     then pipe s [Gunzip; WriteStream (asarSwapPath this)]
     else pipe s [WriteStream (asarSwapPath this)]) w0
    = (set_files (<[asarSwapPath this := body_of asarInfo s]>) w0, r).
Proof.
  unfold body_of, pipe.
  destruct (endsWith (download_url asarInfo) ".gz"
            || endsWith (download_url asarInfo) ".gzip"); simpl.
  - destruct (gunzip (received s)) as [o g]. simpl.
    destruct (ended s); simpl;
      [destruct g | destruct (gunzip_error_first (received s))]; eauto.
  - destruct (ended s); simpl; eauto.
Qed.

(** the three ways a run of the previous [download] can end *)
Lemma previous_download_cases `{R : Runtime}
    (net : network) (this : AsarUpdater) (asarInfo : AsarInfoResponse) (w : world) :
  let w1 := set_files (delete (asarVersionPath this))
              (set_files (delete (asarSwapPath this)) w) in
  (exists e, Previous.download net this asarInfo w = (w1, Throw e))
  \/ (exists s e,
        http_get_stream net (download_url asarInfo) = Ok s
        /\ Previous.download net this asarInfo w
           = (set_files (<[asarSwapPath this := body_of asarInfo s]>) w1, Throw e))
  \/ (exists s,
        http_get_stream net (download_url asarInfo) = Ok s
        /\ Previous.download net this asarInfo w
           = (set_files (<[asarVersionPath this := JSON_stringify asarInfo]>)
                (set_files (fun m => <[asarNextPath this := body_of asarInfo s]>
                                       (delete (asarSwapPath this) m))
                   (set_files (<[asarSwapPath this := body_of asarInfo s]>) w1)),
              Ok true)).
Proof.
  intros w1.
  destruct (Previous.download net this asarInfo w) as [wf res] eqn:Hd.
  unfold Previous.download in Hd. unfold io_bind at 1 in Hd.
  rewrite cleanup_two in Hd. fold w1 in Hd.
  unfold io_bind at 1 in Hd. unfold io_lift in Hd.
  destruct (http_get_stream net (download_url asarInfo)) as [s|e].
  2: { injection Hd as <- <-. left; eauto. }
  right. unfold io_bind at 1 in Hd.
  destruct (previous_pipe this asarInfo s w1) as (r & Hp). rewrite Hp in Hd.
  destruct r as [h|e].
  2: { injection Hd as <- <-. left. eauto. }
  right. exists s. split; [reflexivity|].
  unfold io_bind, renamePromisify, writeFilePromisify, io_ret in Hd.
  simpl files in Hd. rewrite lookup_insert_eq in Hd.
  now injection Hd as <- <-.
Qed.

Lemma hasUpgraded_without_version `{R : Runtime} (this : AsarUpdater) (w : world) :
  files w !! asarVersionPath this = None -> hasUpgraded this w = (w, Ok None).
Proof.
  intros H. unfold hasUpgraded, io_bind, exists_.
  destruct (files w !! asarNextPath this) as [b|] eqn:En.
  - rewrite bool_decide_eq_true_2 by eauto. cbv beta iota. rewrite H.
    rewrite bool_decide_eq_false_2 by (intros [? ?]; congruence). reflexivity.
  - rewrite bool_decide_eq_false_2 by (intros [? ?]; congruence). reflexivity.
Qed.

(** X18. The revision before checksum support left the next file alone
    when cleaning up, yet a failed run still left nothing staged: the
    metadata file is gone and [hasUpgraded] reports false, while a next file
    from an earlier run stays on disk as it was. A run that returns has
    committed the response body and the serialized descriptor. *)
Theorem previous_download_pair `{R : Runtime}
    (net : network) (this : AsarUpdater) (asarInfo : AsarInfoResponse) (w : world) :
  distinct_layout this ->
  let w' := fst (Previous.download net this asarInfo w) in
  match snd (Previous.download net this asarInfo w) with
  | Throw _ =>
      files w' !! asarVersionPath this = None
      /\ files w' !! asarNextPath this = files w !! asarNextPath this
      /\ hasUpgraded this w' = (w', Ok None)
  | Ok committed =>
      committed = true
      /\ (exists s, http_get_stream net (download_url asarInfo) = Ok s
                    /\ files w' !! asarNextPath this = Some (body_of asarInfo s))
      /\ files w' !! asarVersionPath this = Some (JSON_stringify asarInfo)
  end.
Proof.
  intros Hd w'. subst w'.
  destruct (distinct_layout_inv this Hd) as (Hsn & Hsv & Hst & Hnv & Hnt & Hvt).
  destruct (previous_download_cases net this asarInfo w)
    as [[e ->] | [(s & e & Hs & ->) | (s & Hs & ->)]]; simpl fst; simpl snd.
  - assert (Hv : files (set_files (delete (asarVersionPath this))
                          (set_files (delete (asarSwapPath this)) w))
                 !! asarVersionPath this = None) by (simpl; apply lookup_delete_eq).
    split; [exact Hv|]. split; [|now apply hasUpgraded_without_version].
    simpl. now rewrite !lookup_delete_ne by congruence.
  - assert (Hv : files (set_files (<[asarSwapPath this := body_of asarInfo s]>)
                          (set_files (delete (asarVersionPath this))
                             (set_files (delete (asarSwapPath this)) w)))
                 !! asarVersionPath this = None).
    { simpl. rewrite lookup_insert_ne by congruence. apply lookup_delete_eq. }
    split; [exact Hv|]. split; [|now apply hasUpgraded_without_version].
    simpl. rewrite lookup_insert_ne by congruence.
    now rewrite !lookup_delete_ne by congruence.
  - split; [reflexivity|]. split.
    + exists s. split; [exact Hs|]. simpl.
      rewrite lookup_insert_ne by congruence. now rewrite lookup_insert_eq.
    + simpl. now rewrite lookup_insert_eq.
Qed.

Lemma previous_download_pair_witness :
  let net := Sample.serving (Sample.descriptor "/pkg/app.asar" None) in
  let asarInfo := Sample.descriptor "https://h/pkg/app.asar" None in
  let w := Sample.world_of [("/opt/app/resources/next.asar", "bundle 1.1.0");
                            ("/opt/app/resources/version.json", "metadata")] in
  let w' := fst (@Previous.download Sample.linux net Sample.updater asarInfo w) in
  files w' !! "/opt/app/resources/version.json" = None
  /\ files w' !! "/opt/app/resources/next.asar" = Some "bundle 1.1.0".
Proof.
  intros net asarInfo w w'.
  pose proof (@previous_download_pair Sample.linux net Sample.updater asarInfo w
                sample_layout_distinct) as H.
  cbv zeta in H. fold w' in H.
  assert (Hr : snd (@Previous.download Sample.linux net Sample.updater asarInfo w)
               = Throw (FetchError "https://h/pkg/app.asar")) by (vm_compute; reflexivity).
  rewrite Hr in H. destruct H as (Hv & Hn & _).
  split; [exact Hv | exact Hn].
Defined.

Lemma guarded_rm_bind {B : Type} (p : string) (k : unit -> io B) (w : world) :
  io_bind (exists_ p)
    (fun e => io_bind (if e : bool then rmPromisify p true else io_ret tt) k) w
  = k tt (set_files (delete p) w).
Proof.
  unfold io_bind, exists_, rmPromisify.
  destruct (files w !! p) as [c|] eqn:E.
  - rewrite bool_decide_eq_true_2 by eauto. now rewrite E.
  - rewrite bool_decide_eq_false_2 by (intros [? ?]; congruence).
    unfold io_ret. now rewrite delete_absent.
Qed.

(** X25. Rewriting the clean-up of [download] from two guarded deletions
    into a loop changed nothing by itself. Each revision has a request
    helper of its own (the first one's uses the http client only); whenever
    the two helpers settle alike for the download URL, the first revision's
    [download] and the next one's, on the same paths and from the same
    initial state, return the same result and leave the same state. *)
Theorem original_download_agrees `{R : Runtime}
    (first next : network) (this : AsarUpdater) (asarInfo : AsarInfoResponse)
    (w : world) :
  http_get_stream first (download_url asarInfo)
  = http_get_stream next (download_url asarInfo) ->
  Original.download first (asarNextPath this) (asarSwapPath this) (asarVersionPath this)
    asarInfo w
  = Previous.download next this asarInfo w.
Proof.
  intros Hsame. unfold Original.download, Previous.download.
  rewrite !guarded_rm_bind. unfold io_bind at 5. rewrite cleanup_two.
  unfold io_bind at 1. unfold io_bind at 5. unfold io_lift. now rewrite Hsame.
Qed.

Lemma original_download_agrees_witness :
  let s := {| received := "bundle 1.1.0"; ended := true |} in
  let first := {| http_get_json := fun url => Throw (FetchError url);
                  http_get_stream := fun _ => Ok s |} in
  let next := {| http_get_json := fun _ => Throw SyntaxError;
                 http_get_stream := fun _ => Ok s |} in
  let asarInfo := Sample.descriptor "http://h/pkg/app.asar" None in
  let w := Sample.world_of [("/opt/app/resources/version.json", "metadata")] in
  @Original.download Sample.linux first "/opt/app/resources/next.asar"
    "/opt/app/resources/swap.asar" "/opt/app/resources/version.json" asarInfo w
  = @Previous.download Sample.linux next Sample.updater asarInfo w.
Proof.
  intros s first next asarInfo w.
  exact (@original_download_agrees Sample.linux first next Sample.updater asarInfo w
           eq_refl).
Defined.

Lemma rm_force (p : string) (w : world) :
  rmPromisify p true w = (set_files (delete p) w, Ok tt).
Proof.
  unfold rmPromisify. destruct (files w !! p) eqn:E; [reflexivity|].
  now rewrite delete_absent.
Qed.

Lemma rename_present (from to c : string) (w : world) :
  files w !! from = Some c ->
  renamePromisify from to w
  = (set_files (fun m => <[to := c]> (delete from m)) w, Ok tt).
Proof. intros H. unfold renamePromisify. now rewrite H. Qed.

(** X26. The first revision's [upgrade] did the whole replacement itself,
    after clearing the [workers] entry of the folder with
    [rm(.., {force: true})]. With a bundle staged, when [workers] is a
    directory that call rejects -- it is not recursive -- and nothing is
    replaced, on any platform. When it is not, on a direct-rename platform
    the call removes the entry, puts the staged bundle in place of the
    target, then relaunches and exits the application as its two flags ask,
    in that order. *)
Theorem original_upgrade_applies `{R : Runtime}
    (appPathFolder asarTmpPath asarTargetPath resourcePath bundle : string)
    (relaunch exit : bool) (w : world) :
  files w !! asarTmpPath = Some bundle ->
  let workers := join appPathFolder "workers" in
  let run := Original.upgrade appPathFolder asarTmpPath asarTargetPath resourcePath
               relaunch exit w in
  (is_directory workers = true -> run = (w, Throw (EISDIR workers)))
  /\ (is_directory workers = false ->
      String.eqb platform "win32" = false ->
      asarTmpPath <> asarTargetPath ->
      workers <> asarTmpPath ->
      workers <> asarTargetPath ->
      snd run = Ok tt
      /\ files (fst run) !! asarTargetPath = Some bundle
      /\ files (fst run) !! asarTmpPath = None
      /\ files (fst run) !! workers = None
      /\ trace (fst run)
         = app (trace w)
             (app (if relaunch then [AppRelaunch] else [])
                  (if exit then [AppExit] else []))).
Proof.
  intros Hn workers run. split.
  - intros Hdir. subst run. unfold Original.upgrade.
    unfold io_bind at 1. unfold exists_ at 1.
    rewrite Hn. rewrite bool_decide_eq_true_2 by eauto. cbv beta iota zeta.
    unfold Original.exists_entry, Original.rm_entry. fold workers. rewrite Hdir.
    reflexivity.
  - intros Hfile Hp Hnt Hwn Hwt.
    set (w3 := set_files (fun m => <[asarTargetPath := bundle]> (delete asarTmpPath m))
                 (set_files (delete asarTargetPath)
                    (set_files (delete workers) w))).
    assert (Hrun : run
      = ((if exit then emit AppExit else fun w0 => w0)
           ((if relaunch then emit AppRelaunch else fun w0 => w0) w3), Ok tt)).
    { subst run. unfold Original.upgrade. unfold io_bind at 1. unfold exists_ at 1.
      rewrite Hn. rewrite bool_decide_eq_true_2 by eauto. cbv beta iota zeta.
      unfold Original.exists_entry, Original.rm_entry. fold workers. rewrite Hfile.
      rewrite guarded_rm_bind. rewrite Hp.
      unfold io_bind at 1. rewrite rm_force.
      unfold io_bind at 1.
      rewrite (rename_present asarTmpPath asarTargetPath bundle).
      2:{ simpl. now rewrite !lookup_delete_ne by congruence. }
      fold w3. now destruct relaunch, exit. }
    rewrite Hrun. simpl fst. simpl snd.
    assert (Hfiles : files ((if exit then emit AppExit else fun w0 => w0)
                              ((if relaunch then emit AppRelaunch else fun w0 => w0) w3))
                     = files w3) by now destruct relaunch, exit.
    rewrite Hfiles. subst w3. simpl files.
    split; [reflexivity|]. split; [apply lookup_insert_eq|]. split.
    { rewrite lookup_insert_ne by congruence. apply lookup_delete_eq. }
    split.
    { rewrite lookup_insert_ne by congruence.
      rewrite !lookup_delete_ne by congruence. apply lookup_delete_eq. }
    destruct relaunch, exit; simpl; rewrite ?app_nil_r; rewrite <- ?app_assoc;
      reflexivity.
Qed.

Lemma original_upgrade_applies_witness :
  let w := Sample.world_of [("/opt/app/resources/next.asar", "bundle 1.1.0");
                            ("/opt/app/resources/app.asar", "bundle 1.0.0")] in
  let v := Sample.world_of [("/srv/app/next.asar", "bundle 1.1.0");
                            ("/srv/app/app.asar", "bundle 1.0.0")] in
  let run := @Original.upgrade Sample.linux "/srv/app"
               "/srv/app/next.asar" "/srv/app/app.asar" "resources" true true v in
  @Original.upgrade Sample.linux "/opt/app/resources"
    "/opt/app/resources/next.asar" "/opt/app/resources/app.asar" "resources"
    true true w
  = (w, Throw (EISDIR "/opt/app/resources/workers"))
  /\ files (fst run) !! "/srv/app/app.asar" = Some "bundle 1.1.0"
  /\ trace (fst run) = [AppRelaunch; AppExit].
Proof.
  intros w v run. split.
  - exact (proj1 (@original_upgrade_applies Sample.linux "/opt/app/resources"
                    "/opt/app/resources/next.asar" "/opt/app/resources/app.asar"
                    "resources" "bundle 1.1.0" true true w eq_refl) eq_refl).
  - destruct (proj2 (@original_upgrade_applies Sample.linux "/srv/app"
                       "/srv/app/next.asar" "/srv/app/app.asar" "resources"
                       "bundle 1.1.0" true true v eq_refl)
                eq_refl eq_refl
                ltac:(discriminate) ltac:(discriminate) ltac:(discriminate))
      as (_ & Ht & _ & _ & Htr).
    split; [exact Ht | exact Htr].
Defined.

(** ** The caller shown in the README *)

Lemma upgradeAsarFile_unstaged `{R : Runtime}
    (this : AsarUpdater) (relaunch : bool) (w : world) :
  hasUpgraded this w = (w, Ok None) ->
  Usage.upgradeAsarFile this relaunch w = (emit AppExit w, Ok tt).
Proof.
  intros H. unfold Usage.upgradeAsarFile. unfold io_bind at 1. unfold io_bind at 1.
  now rewrite H.
Qed.

(** X19. With the guard of the README's [upgradeAsarFile] around it,
    replacement with nothing staged is harmless: when the next file or the
    metadata file is missing, the call changes no file -- the target bundle
    stays -- spawns nothing, and exits the application. *)
Theorem upgradeAsarFile_without_staged_update `{R : Runtime}
    (this : AsarUpdater) (relaunch : bool) (w : world) :
  files w !! asarNextPath this = None \/ files w !! asarVersionPath this = None ->
  let w' := fst (Usage.upgradeAsarFile this relaunch w) in
  snd (Usage.upgradeAsarFile this relaunch w) = Ok tt
  /\ files w' = files w
  /\ trace w' = app (trace w) [AppExit].
Proof.
  intros H w'. subst w'.
  rewrite upgradeAsarFile_unstaged.
  - repeat split.
  - destruct H as [H | H];
      [now apply hasUpgraded_without_next | now apply hasUpgraded_without_version].
Qed.

Lemma upgradeAsarFile_without_staged_update_witness :
  let w := Sample.world_of [("/opt/app/resources/app.asar", "bundle 1.0.0")] in
  files (fst (@Usage.upgradeAsarFile Sample.linux Sample.updater true w)) = files w
  /\ trace (fst (@Usage.upgradeAsarFile Sample.linux Sample.updater true w)) = [AppExit].
Proof.
  intros w.
  destruct (@upgradeAsarFile_without_staged_update Sample.linux Sample.updater true w
              (or_introl eq_refl)) as (_ & Hf & Ht).
  split; [exact Hf | exact Ht].
Defined.

Lemma upgradeAsarFile_staged_direct `{R : Runtime}
    (this : AsarUpdater) (relaunch : bool) (w : world)
    (bundle text : string) (info : AsarInfoResponse) :
  String.eqb platform "win32" = false ->
  asarNextPath this <> asarTargetPath this ->
  files w !! asarNextPath this = Some bundle ->
  files w !! asarVersionPath this = Some text ->
  JSON_parse text = Some info ->
  Usage.upgradeAsarFile this relaunch w
  = (emit AppExit
       ((if relaunch then emit AppRelaunch else fun w0 => w0)
          (set_files (fun m => <[asarTargetPath this := bundle]>
                                 (delete (asarNextPath this) m))
             (set_files (delete (asarTargetPath this)) w))),
     Ok tt).
Proof.
  intros Hp Hnt Hn Hv Hparse. unfold Usage.upgradeAsarFile.
  unfold io_bind at 1. rewrite (hasUpgraded_staged this w bundle text info Hn Hv Hparse).
  unfold io_bind at 1. unfold io_bind at 1.
  rewrite (upgrade_direct_exact this relaunch w bundle Hp Hnt Hn).
  rewrite Hp. now destruct relaunch.
Qed.

(** X20. With an update staged on a direct-rename platform, the README's
    [upgradeAsarFile] puts the staged bundle in place of the target, then
    relaunches the application if asked to, then exits it; the next file is
    gone afterwards. *)
Theorem upgradeAsarFile_applies_staged_update `{R : Runtime}
    (this : AsarUpdater) (relaunch : bool) (w : world)
    (bundle text : string) (info : AsarInfoResponse) :
  String.eqb platform "win32" = false ->
  asarNextPath this <> asarTargetPath this ->
  files w !! asarNextPath this = Some bundle ->
  files w !! asarVersionPath this = Some text ->
  JSON_parse text = Some info ->
  let w' := fst (Usage.upgradeAsarFile this relaunch w) in
  snd (Usage.upgradeAsarFile this relaunch w) = Ok tt
  /\ files w' !! asarTargetPath this = Some bundle
  /\ files w' !! asarNextPath this = None
  /\ trace w' = app (trace w) (app (if relaunch then [AppRelaunch] else []) [AppExit]).
Proof.
  intros Hp Hnt Hn Hv Hparse w'. subst w'.
  rewrite (upgradeAsarFile_staged_direct this relaunch w bundle text info Hp Hnt Hn Hv Hparse).
  simpl fst. simpl snd.
  split; [reflexivity|].
  destruct relaunch; simpl; (split; [now rewrite lookup_insert_eq|]);
    (split; [rewrite lookup_insert_ne by congruence; now rewrite lookup_delete_eq|]);
    rewrite <- ?app_assoc; reflexivity.
Qed.

Lemma upgradeAsarFile_applies_staged_update_witness :
  let staged := Sample.descriptor "https://h/pkg/app.asar" None in
  let w := Sample.world_of
             [("/opt/app/resources/next.asar", "bundle 1.1.0");
              ("/opt/app/resources/version.json", Sample.print_lines staged);
              ("/opt/app/resources/app.asar", "bundle 1.0.0")] in
  let w' := fst (@Usage.upgradeAsarFile Sample.linux Sample.updater true w) in
  files w' !! "/opt/app/resources/app.asar" = Some "bundle 1.1.0"
  /\ trace w' = [AppRelaunch; AppExit].
Proof.
  intros staged w w'.
  destruct (@upgradeAsarFile_applies_staged_update Sample.linux Sample.updater true w
              "bundle 1.1.0" (Sample.print_lines staged) staged eq_refl
              ltac:(discriminate) eq_refl eq_refl eq_refl)
    as (_ & Ht & _ & Htr).
  split; [exact Ht | exact Htr].
Defined.

(** X23. A staged bundle whose metadata file does not parse blocks the
    README's [upgradeAsarFile]: the call is rejected with the error of
    [JSON.parse] before anything is replaced, and the application is not
    exited. *)
Theorem upgradeAsarFile_unreadable_record `{R : Runtime}
    (this : AsarUpdater) (relaunch : bool) (w : world) (bundle text : string) :
  files w !! asarNextPath this = Some bundle ->
  files w !! asarVersionPath this = Some text ->
  JSON_parse text = None ->
  Usage.upgradeAsarFile this relaunch w = (w, Throw SyntaxError).
Proof.
  intros Hn Hv Hp. unfold Usage.upgradeAsarFile. unfold io_bind at 1.
  assert (Hh : hasUpgraded this w = (w, Throw SyntaxError)).
  { unfold hasUpgraded, io_bind, exists_, readFilePromisify.
    rewrite Hn. rewrite bool_decide_eq_true_2 by eauto. cbv beta iota.
    rewrite Hv. rewrite bool_decide_eq_true_2 by eauto. cbv beta iota.
    rewrite Hv. cbv beta iota. now rewrite Hp. }
  now rewrite Hh.
Qed.

Lemma upgradeAsarFile_unreadable_record_witness :
  let w := Sample.world_of [("/opt/app/resources/next.asar", "bundle 1.1.0");
                            ("/opt/app/resources/version.json", "{")] in
  @Usage.upgradeAsarFile Sample.linux Sample.updater false w = (w, Throw SyntaxError).
Proof.
  intros w.
  exact (@upgradeAsarFile_unreadable_record Sample.linux Sample.updater false w
           "bundle 1.1.0" "{" eq_refl eq_refl eq_refl).
Defined.

Lemma check_world `{R : Runtime}
    (net : network) (this : AsarUpdater) (curentVersion : string) (w : world) :
  fst (check net this curentVersion w) = w.
Proof.
  unfold check, io_bind, io_lift, exists_, readFilePromisify.
  destruct (http_get_json net (checkVersionUrl this)) as [data|e]; [|reflexivity].
  destruct (files w !! asarVersionPath this) as [text|] eqn:Ev.
  - rewrite bool_decide_eq_true_2 by eauto. cbv beta iota. rewrite Ev. cbv beta iota.
    destruct (JSON_parse text) as [info|]; [|reflexivity].
    now destruct (truthy_opt (checksum info) && strict_eq_opt (checksum info) (checksum data)).
  - rewrite bool_decide_eq_false_2 by (intros [? ?]; congruence). reflexivity.
Qed.

(** X22. The README's 'ready-to-show' handler installs an offered update
    in one go on a direct-rename platform: when the server's version is
    newer, no earlier record is on disk and the download is accepted, the
    handler ends with the response body in place of the target bundle, no
    next file, and the application relaunched and then exited. *)
Theorem onReadyToShow_installs_update `{R : Runtime}
    (net : network) (this : AsarUpdater) (appVersion : string) (w : world)
    (data : AsarInfoResponse) (s : Stream) :
  distinct_layout this ->
  String.eqb platform "win32" = false ->
  http_get_json net (checkVersionUrl this) = Ok data ->
  files w !! asarVersionPath this = None ->
  compareVersions (version data) appVersion = true ->
  let asarInfo := with_download_url data (downloadUrl_of this data) in
  http_get_stream net (download_url asarInfo) = Ok s ->
  accepted asarInfo s = true ->
  JSON_parse (JSON_stringify asarInfo) = Some asarInfo ->
  let w' := fst (Usage.onReadyToShow net this appVersion w) in
  snd (Usage.onReadyToShow net this appVersion w) = Ok tt
  /\ files w' !! asarTargetPath this = Some (body_of asarInfo s)
  /\ files w' !! asarNextPath this = None
  /\ trace w' = app (trace w) [AppRelaunch; AppExit].
Proof.
  intros Hd Hp Hj Hv Hnewer asarInfo Hs Ha Hrt w'.
  destruct (distinct_layout_inv this Hd) as (Hsn & Hsv & Hst & Hnv & Hnt & Hvt).
  set (w1 := fst (download net this asarInfo w)).
  assert (Hdown : download net this asarInfo w = (w1, Ok true)).
  { subst w1. now rewrite (download_accepted _ _ _ _ _ Hs Ha). }
  assert (Hn1 : files w1 !! asarNextPath this = Some (body_of asarInfo s)).
  { subst w1. rewrite (download_accepted _ _ _ _ _ Hs Ha). simpl.
    rewrite lookup_insert_ne by congruence. now rewrite lookup_insert_eq. }
  assert (Hv1 : files w1 !! asarVersionPath this = Some (JSON_stringify asarInfo)).
  { subst w1. rewrite (download_accepted _ _ _ _ _ Hs Ha). simpl.
    now rewrite lookup_insert_eq. }
  assert (Ht1 : trace w1 = trace w).
  { subst w1. apply (download_frame net this asarInfo w). }
  assert (Hrun : Usage.onReadyToShow net this appVersion w
                 = Usage.upgradeAsarFile this true w1).
  { unfold Usage.onReadyToShow. unfold io_bind at 1.
    rewrite (check_without_record _ _ _ _ _ Hj Hv). rewrite Hnewer.
    fold asarInfo. unfold io_bind at 1. now rewrite Hdown. }
  subst w'. rewrite Hrun.
  rewrite (upgradeAsarFile_staged_direct this true w1 _ _ _ Hp Hnt Hn1 Hv1 Hrt).
  simpl fst. simpl snd. split; [reflexivity|]. simpl.
  split; [now rewrite lookup_insert_eq|].
  split; [rewrite lookup_insert_ne by congruence; now rewrite lookup_delete_eq|].
  rewrite Ht1. now rewrite <- app_assoc.
Qed.

Lemma onReadyToShow_installs_update_witness :
  let data := Sample.descriptor "/pkg/app.asar.gz" None in
  let s := {| received := "gz:bundle 1.1.0"; ended := true |} in
  let net := {| http_get_json := fun _ => Ok data;
                http_get_stream := fun _ => Ok s |} in
  let w := Sample.world_of [("/opt/app/resources/app.asar", "bundle 1.0.0")] in
  let w' := fst (@Usage.onReadyToShow Sample.linux net Sample.updater "1.0.0" w) in
  files w' !! "/opt/app/resources/app.asar" = Some "bundle 1.1.0"
  /\ trace w' = [AppRelaunch; AppExit].
Proof.
  intros data s net w w'.
  destruct (@onReadyToShow_installs_update Sample.linux net Sample.updater "1.0.0" w
              data s sample_layout_distinct eq_refl eq_refl eq_refl eq_refl
              eq_refl eq_refl eq_refl)
    as (_ & Ht & _ & Htr).
  split; [exact Ht | exact Htr].
Defined.

(** X24. Unless [check] reports an update, the README's 'ready-to-show'
    handler does nothing: when [check] answers that none is available -- by
    the version comparison or by the checksum guard -- the handler returns
    with every file as it was, nothing spawned and no request for the
    bundle. *)
Theorem onReadyToShow_without_update `{R : Runtime}
    (net : network) (this : AsarUpdater) (appVersion : string) (w : world)
    (asarInfo : AsarInfoResponse) :
  snd (check net this appVersion w) = Ok (false, asarInfo) ->
  Usage.onReadyToShow net this appVersion w = (w, Ok tt).
Proof.
  intros H. pose proof (check_world net this appVersion w) as Hw.
  unfold Usage.onReadyToShow. unfold io_bind at 1.
  destruct (check net this appVersion w) as [w0 r]. simpl in H, Hw. subst w0 r.
  reflexivity.
Qed.

Lemma onReadyToShow_without_update_witness :
  let data := Sample.descriptor "/pkg/app.asar" None in
  let w := Sample.world_of [("/opt/app/resources/app.asar", "bundle 1.0.0")] in
  @Usage.onReadyToShow Sample.linux (Sample.serving data) Sample.updater "1.1.0" w
  = (w, Ok tt).
Proof.
  intros data w.
  exact (@onReadyToShow_without_update Sample.linux (Sample.serving data) Sample.updater
           "1.1.0" w (Sample.descriptor "https://h/pkg/app.asar" None) eq_refl).
Defined.

(** ** Errors of [download] and the staged pair *)

(** X27. Once the request has resolved, [download] reports the first thing
    that went wrong. A response that breaks is a transport error, unless the
    URL asks for decompression and the gunzip stage had already rejected the
    bytes delivered, which is then the decoding error reported; a response
    that ended but does not decompress (for a [.gz] or [.gzip] URL) is a
    decoding error, whatever the checksum; only then is the digest compared,
    and a mismatch names the checksum given and the digest computed. *)
Theorem download_error_kinds `{R : Runtime}
    (net : network) (this : AsarUpdater) (asarInfo : AsarInfoResponse)
    (w : world) (s : Stream) :
  http_get_stream net (download_url asarInfo) = Ok s ->
  let gz := endsWith (download_url asarInfo) ".gz"
            || endsWith (download_url asarInfo) ".gzip" in
  (ended s = false ->
   snd (download net this asarInfo w)
   = Throw (if gz && gunzip_error_first (received s)
            then DecodeError
            else TransportError))
  /\ (ended s = true -> gz = true -> snd (gunzip (received s)) = false ->
      snd (download net this asarInfo w) = Throw DecodeError)
  /\ (forall c : string,
        ended s = true -> (gz = true -> snd (gunzip (received s)) = true) ->
        checksum asarInfo = Some c -> truthy c = true ->
        let local := toLowerCase
                       (createHash (if (String.length c =? 32)%nat then md5 else sha256)
                          (received s)) in
        local <> toLowerCase c ->
        snd (download net this asarInfo w) = Throw (ChecksumError c (Some local))).
Proof.
  intros Hs gz.
  pose proof (download_after_request net this asarInfo w s Hs) as Hd.
  unfold io_bind at 1 in Hd. rewrite pipe_exact in Hd. cbv zeta in Hd. fold gz in Hd.
  split; [|split].
  - intros He. rewrite He in Hd. now rewrite Hd.
  - intros He Hgz Hbad. rewrite He, Hgz, Hbad in Hd. now rewrite Hd.
  - intros c He Hgz Hc Ht local Hne. rewrite He, Hc, Ht in Hd. fold local in Hd.
    assert (Hpiped : forall h : option string,
      (if gz then if snd (gunzip (received s)) then Ok h else Throw DecodeError else Ok h)
      = Ok h).
    { intros h. destruct gz; [now rewrite Hgz | reflexivity]. }
    rewrite Hpiped in Hd. unfold io_bind at 1 in Hd. unfold verify in Hd.
    rewrite Hc, Ht in Hd.
    rewrite bool_decide_eq_false_2 in Hd by congruence. now rewrite Hd.
Qed.

Lemma download_error_kinds_witness :
  let s := {| received := "not a gzip stream"; ended := true |} in
  let broken := {| received := "not a gzip stream"; ended := false |} in
  let net := {| http_get_json := fun url => Throw (FetchError url);
                http_get_stream := fun _ => Ok s |} in
  let failing := {| http_get_json := fun url => Throw (FetchError url);
                    http_get_stream := fun _ => Ok broken |} in
  let asarInfo := Sample.descriptor "https://h/pkg/app.asar.gz"
                    (Some "00000000000000000000000000000000") in
  let plain := Sample.descriptor "https://h/pkg/app.asar" None in
  snd (@download Sample.linux net Sample.updater asarInfo (Sample.world_of []))
  = Throw DecodeError
  /\ snd (@download Sample.linux failing Sample.updater asarInfo (Sample.world_of []))
     = Throw DecodeError
  /\ snd (@download Sample.linux failing Sample.updater plain (Sample.world_of []))
     = Throw TransportError.
Proof.
  intros s broken net failing asarInfo plain. split; [|split].
  - exact (proj1 (proj2 (@download_error_kinds Sample.linux net Sample.updater asarInfo
                           (Sample.world_of []) s eq_refl))
             eq_refl eq_refl eq_refl).
  - exact (proj1 (@download_error_kinds Sample.linux failing Sample.updater asarInfo
                    (Sample.world_of []) broken eq_refl) eq_refl).
  - exact (proj1 (@download_error_kinds Sample.linux failing Sample.updater plain
                    (Sample.world_of []) broken eq_refl) eq_refl).
Defined.

(** X28. [hasUpgraded] answers with a descriptor exactly when the pair is
    complete and readable: the next file exists, the metadata file exists,
    and its text parses to that descriptor. A next file without metadata, or
    metadata without a next file, counts as nothing staged. *)
Theorem hasUpgraded_iff_pair `{R : Runtime}
    (this : AsarUpdater) (w : world) (info : AsarInfoResponse) :
  (snd (hasUpgraded this w) = Ok (Some info)
   <-> is_Some (files w !! asarNextPath this)
       /\ exists text, files w !! asarVersionPath this = Some text
                       /\ JSON_parse text = Some info)
  /\ (snd (hasUpgraded this w) = Ok None
      <-> files w !! asarNextPath this = None
          \/ files w !! asarVersionPath this = None).
Proof.
  destruct (files w !! asarNextPath this) as [b|] eqn:Hn.
  - destruct (files w !! asarVersionPath this) as [text|] eqn:Hv.
    + assert (Hrun : snd (hasUpgraded this w)
                     = match JSON_parse text with
                       | Some i => Ok (Some i)
                       | None => Throw SyntaxError
                       end).
      { unfold hasUpgraded, io_bind, exists_, readFilePromisify.
        rewrite Hn. rewrite bool_decide_eq_true_2 by eauto. cbv beta iota.
        rewrite Hv. rewrite bool_decide_eq_true_2 by eauto. cbv beta iota.
        rewrite Hv. cbv beta iota. now destruct (JSON_parse text). }
      rewrite Hrun. split; split.
      * destruct (JSON_parse text) as [i|] eqn:Hp; [|discriminate].
        intros [= ->]. split; [eauto|]. exists text. auto.
      * intros (_ & text' & [= <-] & ->). reflexivity.
      * destruct (JSON_parse text); discriminate.
      * intros [H | H]; discriminate H.
    + rewrite (hasUpgraded_without_version this w Hv). simpl. split; split.
      * discriminate.
      * intros (_ & text & H & _). discriminate H.
      * auto.
      * reflexivity.
  - rewrite (hasUpgraded_without_next this w Hn). simpl. split; split.
    + discriminate.
    + intros ([? H] & _). discriminate H.
    + auto.
    + reflexivity.
Qed.
